(** * TFT7735V: the triple-buffered display pipeline of [src/TFT7735V.cpp]

    A shallow embedding of the driver's present coordinator ([display],
    [swapBuffers], [waitForDisplayDone]), its transfer worker
    ([display_task] and the four chunk routines), its dirty-rectangle
    accumulator ([expand_dirty_rect], [clearDirty], [forceFullRedraw]) and
    the part of [begin] that sets them up.

    Conventions.
    - Every C++ integer is a [Z]; a conversion to [uint8_t] or [uint16_t] is
      written [u8] or [u16].  [int] arithmetic on promoted 16-bit operands
      is exact.
    - The object is the record [TFT7735V]; a member function is a function
      from the object to the object (with a result when the C++ has one).
    - A pointer to a heap block is [option]: [None] is [nullptr].  The three
      PSRAM blocks are stored where the fields [framebuffer_a/b/c] are,
      [current_framebuffer] says which of them it aliases.
    - The SPI device records every transaction it is asked to send, with the
      level of the D/C line at that moment and the driver's return code.
    - FreeRTOS objects: the queue is the list of its pending messages
      (capacity 10), the binary semaphore is a [bool].  The worker task is
      the function [display_task_step], one loop iteration per call.
    - Delays, logging, GPIO configuration and the LEDC backlight do not
      touch any modelled field and are left out. *)

From Stdlib Require Import ZArith List Bool Lia.
Import ListNotations.
Local Open Scope Z_scope.

(** ** Machine integers *)

Definition u8 (z : Z) : Z := z mod 256.
Definition u16 (z : Z) : Z := z mod 65536.

(** [__builtin_bswap16] on a [uint16_t]. *)
Definition bswap16 (v : Z) : Z :=
  Z.lor (Z.shiftl (Z.land v 255) 8) (Z.land (Z.shiftr v 8) 255).

(** ** Constants of [TFT7789V.h] *)

Definition ST7735_CASET : Z := 0x2A.
Definition ST7735_RASET : Z := 0x2B.
Definition ST7735_RAMWR : Z := 0x2C.
Definition ST7735_SWRESET : Z := 0x01.
Definition ST7735_SLPOUT : Z := 0x11.
Definition ST7735_NORON : Z := 0x13.
Definition ST7735_DISPON : Z := 0x29.
Definition ST7735_COLMOD : Z := 0x3A.
Definition ST7735_MADCTL : Z := 0x36.

Definition ST7735_WIDTH : Z := 128.
Definition ST7735_HEIGHT : Z := 160.
Definition SRAM_BUFFER_SIZE : Z := 8192.
Definition CHUNK_HEIGHT : Z := SRAM_BUFFER_SIZE / (ST7735_WIDTH * 2).
Definition MAX_CHUNKS : Z := (ST7735_HEIGHT + CHUNK_HEIGHT - 1) / CHUNK_HEIGHT.

Definition ESP_OK : Z := 0.
Definition ESP_ERR_INVALID_ARG : Z := 0x102.

(** Depth given to [xQueueCreate] in [init_double_buffering]. *)
Definition DISPLAY_QUEUE_LENGTH : Z := 10.

(** ** Data model *)

Inductive buffer_state_t : Type :=
  | BUFFER_STATE_RENDERING
  | BUFFER_STATE_TRANSFERRING
  | BUFFER_STATE_IDLE.

Definition buffer_state_eqb (a b : buffer_state_t) : bool :=
  match a, b with
  | BUFFER_STATE_RENDERING, BUFFER_STATE_RENDERING => true
  | BUFFER_STATE_TRANSFERRING, BUFFER_STATE_TRANSFERRING => true
  | BUFFER_STATE_IDLE, BUFFER_STATE_IDLE => true
  | _, _ => false
  end.

Module Rect.
Record dirty_rect_t := mk { x : Z; y : Z; w : Z; h : Z; valid : bool }.
End Rect.
Definition dirty_rect_t : Type := Rect.dirty_rect_t.

Module Msg.
Record display_message_t := mk {
    chunk_idx : Z;
    is_last_chunk : bool;
    source_buffer_idx : Z;
    use_dirty_rect : bool;
    dirty_rect : dirty_rect_t
  }.
End Msg.
Definition display_message_t : Type := Msg.display_message_t.

(** What a transaction sends: the inline [tx_data] bytes (flag
    [SPI_TRANS_USE_TXDATA]) or the 16-bit words [tx_buffer] points to, as
    they are in memory when the transaction is submitted. *)
Inductive tx_source : Type :=
  | USE_TXDATA (tx_data : list Z)
  | TX_BUFFER (words : list Z).

Record spi_transaction_t := mkTrans { length_bits : Z; tx : tx_source }.

Record spi_event := mkEvent { ev_dc : bool; ev_trans : spi_transaction_t; ev_ret : Z }.

(** The device behind the handle: [spi_fault n] is the return code of the
    [n]-th call of [spi_device_polling_transmit], [spi_log] the calls so
    far, oldest first. *)
Record spi_device_t := mkDevice { spi_fault : nat -> Z; spi_log : list spi_event }.

(** The null handle the constructor stores: every transmit is refused. *)
Definition null_device : spi_device_t := mkDevice (fun _ => ESP_ERR_INVALID_ARG) [].

Record TFT7735V := mkTFT {
  initialized : bool;
  width : Z;
  height : Z;
  x_offset : Z;
  y_offset : Z;
  dc_pin_level : bool;
  spi_device : spi_device_t;
  framebuffer_a : option (list Z);
  framebuffer_b : option (list Z);
  framebuffer_c : option (list Z);
  current_framebuffer : option Z;
  buffer_states : list buffer_state_t;
  render_buffer_idx : Z;
  transfer_buffer_idx : Z;
  framebuffer_enabled : bool;
  sram_buffer_a : option (list Z);
  sram_buffer_b : option (list Z);
  display_queue : option (list display_message_t);
  display_done_semaphore : option bool;
  display_in_progress : bool;
  display_done_flag : bool;
  current_chunk : Z;
  total_chunks : Z;
  dirty_rect : dirty_rect_t;
  dirty_rect_enabled : bool;
  force_full_redraw : bool
}.

Definition set_initialized (v : bool) (s : TFT7735V) : TFT7735V :=
  mkTFT v (width s) (height s) (x_offset s) (y_offset s) (dc_pin_level s) (spi_device s)
    (framebuffer_a s) (framebuffer_b s) (framebuffer_c s) (current_framebuffer s)
    (buffer_states s) (render_buffer_idx s) (transfer_buffer_idx s) (framebuffer_enabled s)
    (sram_buffer_a s) (sram_buffer_b s) (display_queue s) (display_done_semaphore s)
    (display_in_progress s) (display_done_flag s) (current_chunk s) (total_chunks s)
    (dirty_rect s) (dirty_rect_enabled s) (force_full_redraw s).

Definition set_dc_pin_level (v : bool) (s : TFT7735V) : TFT7735V :=
  mkTFT (initialized s) (width s) (height s) (x_offset s) (y_offset s) v (spi_device s)
    (framebuffer_a s) (framebuffer_b s) (framebuffer_c s) (current_framebuffer s)
    (buffer_states s) (render_buffer_idx s) (transfer_buffer_idx s) (framebuffer_enabled s)
    (sram_buffer_a s) (sram_buffer_b s) (display_queue s) (display_done_semaphore s)
    (display_in_progress s) (display_done_flag s) (current_chunk s) (total_chunks s)
    (dirty_rect s) (dirty_rect_enabled s) (force_full_redraw s).

Definition set_spi_device (v : spi_device_t) (s : TFT7735V) : TFT7735V :=
  mkTFT (initialized s) (width s) (height s) (x_offset s) (y_offset s) (dc_pin_level s) v
    (framebuffer_a s) (framebuffer_b s) (framebuffer_c s) (current_framebuffer s)
    (buffer_states s) (render_buffer_idx s) (transfer_buffer_idx s) (framebuffer_enabled s)
    (sram_buffer_a s) (sram_buffer_b s) (display_queue s) (display_done_semaphore s)
    (display_in_progress s) (display_done_flag s) (current_chunk s) (total_chunks s)
    (dirty_rect s) (dirty_rect_enabled s) (force_full_redraw s).

Definition set_framebuffer_a (v : option (list Z)) (s : TFT7735V) : TFT7735V :=
  mkTFT (initialized s) (width s) (height s) (x_offset s) (y_offset s) (dc_pin_level s)
    (spi_device s) v (framebuffer_b s) (framebuffer_c s) (current_framebuffer s)
    (buffer_states s) (render_buffer_idx s) (transfer_buffer_idx s) (framebuffer_enabled s)
    (sram_buffer_a s) (sram_buffer_b s) (display_queue s) (display_done_semaphore s)
    (display_in_progress s) (display_done_flag s) (current_chunk s) (total_chunks s)
    (dirty_rect s) (dirty_rect_enabled s) (force_full_redraw s).

Definition set_framebuffer_b (v : option (list Z)) (s : TFT7735V) : TFT7735V :=
  mkTFT (initialized s) (width s) (height s) (x_offset s) (y_offset s) (dc_pin_level s)
    (spi_device s) (framebuffer_a s) v (framebuffer_c s) (current_framebuffer s)
    (buffer_states s) (render_buffer_idx s) (transfer_buffer_idx s) (framebuffer_enabled s)
    (sram_buffer_a s) (sram_buffer_b s) (display_queue s) (display_done_semaphore s)
    (display_in_progress s) (display_done_flag s) (current_chunk s) (total_chunks s)
    (dirty_rect s) (dirty_rect_enabled s) (force_full_redraw s).

Definition set_framebuffer_c (v : option (list Z)) (s : TFT7735V) : TFT7735V :=
  mkTFT (initialized s) (width s) (height s) (x_offset s) (y_offset s) (dc_pin_level s)
    (spi_device s) (framebuffer_a s) (framebuffer_b s) v (current_framebuffer s)
    (buffer_states s) (render_buffer_idx s) (transfer_buffer_idx s) (framebuffer_enabled s)
    (sram_buffer_a s) (sram_buffer_b s) (display_queue s) (display_done_semaphore s)
    (display_in_progress s) (display_done_flag s) (current_chunk s) (total_chunks s)
    (dirty_rect s) (dirty_rect_enabled s) (force_full_redraw s).

Definition set_current_framebuffer (v : option Z) (s : TFT7735V) : TFT7735V :=
  mkTFT (initialized s) (width s) (height s) (x_offset s) (y_offset s) (dc_pin_level s)
    (spi_device s) (framebuffer_a s) (framebuffer_b s) (framebuffer_c s) v (buffer_states s)
    (render_buffer_idx s) (transfer_buffer_idx s) (framebuffer_enabled s) (sram_buffer_a s)
    (sram_buffer_b s) (display_queue s) (display_done_semaphore s) (display_in_progress s)
    (display_done_flag s) (current_chunk s) (total_chunks s) (dirty_rect s)
    (dirty_rect_enabled s) (force_full_redraw s).

Definition set_buffer_states (v : list buffer_state_t) (s : TFT7735V) : TFT7735V :=
  mkTFT (initialized s) (width s) (height s) (x_offset s) (y_offset s) (dc_pin_level s)
    (spi_device s) (framebuffer_a s) (framebuffer_b s) (framebuffer_c s) (current_framebuffer s)
    v (render_buffer_idx s) (transfer_buffer_idx s) (framebuffer_enabled s) (sram_buffer_a s)
    (sram_buffer_b s) (display_queue s) (display_done_semaphore s) (display_in_progress s)
    (display_done_flag s) (current_chunk s) (total_chunks s) (dirty_rect s)
    (dirty_rect_enabled s) (force_full_redraw s).

Definition set_render_buffer_idx (v : Z) (s : TFT7735V) : TFT7735V :=
  mkTFT (initialized s) (width s) (height s) (x_offset s) (y_offset s) (dc_pin_level s)
    (spi_device s) (framebuffer_a s) (framebuffer_b s) (framebuffer_c s) (current_framebuffer s)
    (buffer_states s) v (transfer_buffer_idx s) (framebuffer_enabled s) (sram_buffer_a s)
    (sram_buffer_b s) (display_queue s) (display_done_semaphore s) (display_in_progress s)
    (display_done_flag s) (current_chunk s) (total_chunks s) (dirty_rect s)
    (dirty_rect_enabled s) (force_full_redraw s).

Definition set_transfer_buffer_idx (v : Z) (s : TFT7735V) : TFT7735V :=
  mkTFT (initialized s) (width s) (height s) (x_offset s) (y_offset s) (dc_pin_level s)
    (spi_device s) (framebuffer_a s) (framebuffer_b s) (framebuffer_c s) (current_framebuffer s)
    (buffer_states s) (render_buffer_idx s) v (framebuffer_enabled s) (sram_buffer_a s)
    (sram_buffer_b s) (display_queue s) (display_done_semaphore s) (display_in_progress s)
    (display_done_flag s) (current_chunk s) (total_chunks s) (dirty_rect s)
    (dirty_rect_enabled s) (force_full_redraw s).

Definition set_framebuffer_enabled (v : bool) (s : TFT7735V) : TFT7735V :=
  mkTFT (initialized s) (width s) (height s) (x_offset s) (y_offset s) (dc_pin_level s)
    (spi_device s) (framebuffer_a s) (framebuffer_b s) (framebuffer_c s) (current_framebuffer s)
    (buffer_states s) (render_buffer_idx s) (transfer_buffer_idx s) v (sram_buffer_a s)
    (sram_buffer_b s) (display_queue s) (display_done_semaphore s) (display_in_progress s)
    (display_done_flag s) (current_chunk s) (total_chunks s) (dirty_rect s)
    (dirty_rect_enabled s) (force_full_redraw s).

Definition set_sram_buffer_a (v : option (list Z)) (s : TFT7735V) : TFT7735V :=
  mkTFT (initialized s) (width s) (height s) (x_offset s) (y_offset s) (dc_pin_level s)
    (spi_device s) (framebuffer_a s) (framebuffer_b s) (framebuffer_c s) (current_framebuffer s)
    (buffer_states s) (render_buffer_idx s) (transfer_buffer_idx s) (framebuffer_enabled s) v
    (sram_buffer_b s) (display_queue s) (display_done_semaphore s) (display_in_progress s)
    (display_done_flag s) (current_chunk s) (total_chunks s) (dirty_rect s)
    (dirty_rect_enabled s) (force_full_redraw s).

Definition set_sram_buffer_b (v : option (list Z)) (s : TFT7735V) : TFT7735V :=
  mkTFT (initialized s) (width s) (height s) (x_offset s) (y_offset s) (dc_pin_level s)
    (spi_device s) (framebuffer_a s) (framebuffer_b s) (framebuffer_c s) (current_framebuffer s)
    (buffer_states s) (render_buffer_idx s) (transfer_buffer_idx s) (framebuffer_enabled s)
    (sram_buffer_a s) v (display_queue s) (display_done_semaphore s) (display_in_progress s)
    (display_done_flag s) (current_chunk s) (total_chunks s) (dirty_rect s)
    (dirty_rect_enabled s) (force_full_redraw s).

Definition set_display_queue (v : option (list display_message_t)) (s : TFT7735V) : TFT7735V :=
  mkTFT (initialized s) (width s) (height s) (x_offset s) (y_offset s) (dc_pin_level s)
    (spi_device s) (framebuffer_a s) (framebuffer_b s) (framebuffer_c s) (current_framebuffer s)
    (buffer_states s) (render_buffer_idx s) (transfer_buffer_idx s) (framebuffer_enabled s)
    (sram_buffer_a s) (sram_buffer_b s) v (display_done_semaphore s) (display_in_progress s)
    (display_done_flag s) (current_chunk s) (total_chunks s) (dirty_rect s)
    (dirty_rect_enabled s) (force_full_redraw s).

Definition set_display_done_semaphore (v : option bool) (s : TFT7735V) : TFT7735V :=
  mkTFT (initialized s) (width s) (height s) (x_offset s) (y_offset s) (dc_pin_level s)
    (spi_device s) (framebuffer_a s) (framebuffer_b s) (framebuffer_c s) (current_framebuffer s)
    (buffer_states s) (render_buffer_idx s) (transfer_buffer_idx s) (framebuffer_enabled s)
    (sram_buffer_a s) (sram_buffer_b s) (display_queue s) v (display_in_progress s)
    (display_done_flag s) (current_chunk s) (total_chunks s) (dirty_rect s)
    (dirty_rect_enabled s) (force_full_redraw s).

Definition set_display_in_progress (v : bool) (s : TFT7735V) : TFT7735V :=
  mkTFT (initialized s) (width s) (height s) (x_offset s) (y_offset s) (dc_pin_level s)
    (spi_device s) (framebuffer_a s) (framebuffer_b s) (framebuffer_c s) (current_framebuffer s)
    (buffer_states s) (render_buffer_idx s) (transfer_buffer_idx s) (framebuffer_enabled s)
    (sram_buffer_a s) (sram_buffer_b s) (display_queue s) (display_done_semaphore s) v
    (display_done_flag s) (current_chunk s) (total_chunks s) (dirty_rect s)
    (dirty_rect_enabled s) (force_full_redraw s).

Definition set_display_done_flag (v : bool) (s : TFT7735V) : TFT7735V :=
  mkTFT (initialized s) (width s) (height s) (x_offset s) (y_offset s) (dc_pin_level s)
    (spi_device s) (framebuffer_a s) (framebuffer_b s) (framebuffer_c s) (current_framebuffer s)
    (buffer_states s) (render_buffer_idx s) (transfer_buffer_idx s) (framebuffer_enabled s)
    (sram_buffer_a s) (sram_buffer_b s) (display_queue s) (display_done_semaphore s)
    (display_in_progress s) v (current_chunk s) (total_chunks s) (dirty_rect s)
    (dirty_rect_enabled s) (force_full_redraw s).

Definition set_current_chunk (v : Z) (s : TFT7735V) : TFT7735V :=
  mkTFT (initialized s) (width s) (height s) (x_offset s) (y_offset s) (dc_pin_level s)
    (spi_device s) (framebuffer_a s) (framebuffer_b s) (framebuffer_c s) (current_framebuffer s)
    (buffer_states s) (render_buffer_idx s) (transfer_buffer_idx s) (framebuffer_enabled s)
    (sram_buffer_a s) (sram_buffer_b s) (display_queue s) (display_done_semaphore s)
    (display_in_progress s) (display_done_flag s) v (total_chunks s) (dirty_rect s)
    (dirty_rect_enabled s) (force_full_redraw s).

Definition set_dirty_rect (v : dirty_rect_t) (s : TFT7735V) : TFT7735V :=
  mkTFT (initialized s) (width s) (height s) (x_offset s) (y_offset s) (dc_pin_level s)
    (spi_device s) (framebuffer_a s) (framebuffer_b s) (framebuffer_c s) (current_framebuffer s)
    (buffer_states s) (render_buffer_idx s) (transfer_buffer_idx s) (framebuffer_enabled s)
    (sram_buffer_a s) (sram_buffer_b s) (display_queue s) (display_done_semaphore s)
    (display_in_progress s) (display_done_flag s) (current_chunk s) (total_chunks s) v
    (dirty_rect_enabled s) (force_full_redraw s).

Definition set_dirty_rect_enabled (v : bool) (s : TFT7735V) : TFT7735V :=
  mkTFT (initialized s) (width s) (height s) (x_offset s) (y_offset s) (dc_pin_level s)
    (spi_device s) (framebuffer_a s) (framebuffer_b s) (framebuffer_c s) (current_framebuffer s)
    (buffer_states s) (render_buffer_idx s) (transfer_buffer_idx s) (framebuffer_enabled s)
    (sram_buffer_a s) (sram_buffer_b s) (display_queue s) (display_done_semaphore s)
    (display_in_progress s) (display_done_flag s) (current_chunk s) (total_chunks s)
    (dirty_rect s) v (force_full_redraw s).

Definition set_force_full_redraw (v : bool) (s : TFT7735V) : TFT7735V :=
  mkTFT (initialized s) (width s) (height s) (x_offset s) (y_offset s) (dc_pin_level s)
    (spi_device s) (framebuffer_a s) (framebuffer_b s) (framebuffer_c s) (current_framebuffer s)
    (buffer_states s) (render_buffer_idx s) (transfer_buffer_idx s) (framebuffer_enabled s)
    (sram_buffer_a s) (sram_buffer_b s) (display_queue s) (display_done_semaphore s)
    (display_in_progress s) (display_done_flag s) (current_chunk s) (total_chunks s)
    (dirty_rect s) (dirty_rect_enabled s) v.

Definition set_width (v : Z) (s : TFT7735V) : TFT7735V :=
  mkTFT (initialized s) v (height s) (x_offset s) (y_offset s) (dc_pin_level s) (spi_device s)
    (framebuffer_a s) (framebuffer_b s) (framebuffer_c s) (current_framebuffer s)
    (buffer_states s) (render_buffer_idx s) (transfer_buffer_idx s) (framebuffer_enabled s)
    (sram_buffer_a s) (sram_buffer_b s) (display_queue s) (display_done_semaphore s)
    (display_in_progress s) (display_done_flag s) (current_chunk s) (total_chunks s)
    (dirty_rect s) (dirty_rect_enabled s) (force_full_redraw s).

Definition set_height (v : Z) (s : TFT7735V) : TFT7735V :=
  mkTFT (initialized s) (width s) v (x_offset s) (y_offset s) (dc_pin_level s) (spi_device s)
    (framebuffer_a s) (framebuffer_b s) (framebuffer_c s) (current_framebuffer s)
    (buffer_states s) (render_buffer_idx s) (transfer_buffer_idx s) (framebuffer_enabled s)
    (sram_buffer_a s) (sram_buffer_b s) (display_queue s) (display_done_semaphore s)
    (display_in_progress s) (display_done_flag s) (current_chunk s) (total_chunks s)
    (dirty_rect s) (dirty_rect_enabled s) (force_full_redraw s).

(** ** Arrays and memory blocks *)

Fixpoint list_set {A : Type} (l : list A) (n : nat) (v : A) : list A :=
  match l, n with
  | [], _ => []
  | _ :: r, O => v :: r
  | a :: r, S n' => a :: list_set r n' v
  end.

(** [buffer_states[i]]; an index outside the array is undefined behaviour
    in C++, here a read gives [BUFFER_STATE_IDLE] and a write is dropped. *)
Definition state_at (l : list buffer_state_t) (i : Z) : buffer_state_t :=
  nth (Z.to_nat i) l BUFFER_STATE_IDLE.

Definition state_set (l : list buffer_state_t) (i : Z) (v : buffer_state_t)
  : list buffer_state_t :=
  if i <? 0 then l else list_set l (Z.to_nat i) v.

(** The [n] words from offset [off]. *)
Definition slice (off n : nat) (buf : list Z) : list Z := firstn n (skipn off buf).

(** [memcpy(target, data, ...)]: the head of [target] is overwritten.  The
    words that do not fit the block are not stored here; in C++ a copy
    longer than the block overruns it (undefined behaviour), which the two
    chunk copies do when [width] is 160: a chunk of 32 rows is then 5120
    words and the block holds 4096.  The theorems that go through a chunk
    copy take the 128 x 160 geometry of [panel_ok] and a job [display]
    posted, where every copy fits its block. *)
Fixpoint overwrite (data target : list Z) : list Z :=
  match data, target with
  | d :: ds, _ :: ts => d :: overwrite ds ts
  | [], ts => ts
  | _ :: _, [] => []
  end.

(** [for (i = 0; i < n; i++) buf[off + i] = __builtin_bswap16(buf[off + i])]. *)
Fixpoint bswap_range (off n : nat) (buf : list Z) : list Z :=
  match buf with
  | [] => []
  | v :: r =>
      match off with
      | S off' => v :: bswap_range off' n r
      | O =>
          match n with
          | O => v :: r
          | S n' => bswap16 v :: bswap_range O n' r
          end
      end
  end.

(** The two bounce buffers a [uint16_t* buffer] argument can point to. *)
Inductive sram_ptr : Type := SRAM_A | SRAM_B.

Definition sram_read (p : sram_ptr) (s : TFT7735V) : option (list Z) :=
  match p with SRAM_A => sram_buffer_a s | SRAM_B => sram_buffer_b s end.

(** A write through the pointer; through a null pointer nothing is stored
    (undefined behaviour in C++). *)
Definition sram_update (p : sram_ptr) (f : list Z -> list Z) (s : TFT7735V) : TFT7735V :=
  match p with
  | SRAM_A => set_sram_buffer_a (option_map f (sram_buffer_a s)) s
  | SRAM_B => set_sram_buffer_b (option_map f (sram_buffer_b s)) s
  end.

(** [framebuffer_a], [framebuffer_b] or [framebuffer_c] by index. *)
Definition framebuffer_at (i : Z) (s : TFT7735V) : option (option (list Z)) :=
  if i =? 0 then Some (framebuffer_a s)
  else if i =? 1 then Some (framebuffer_b s)
  else if i =? 2 then Some (framebuffer_c s)
  else None.

(** The [switch (render_buffer_idx)] that redirects [current_framebuffer];
    it has no [default], another index leaves the pointer as it is. *)
Definition update_current_framebuffer (s : TFT7735V) : TFT7735V :=
  set_current_framebuffer
    match framebuffer_at (render_buffer_idx s) s with
    | Some (Some _) => Some (render_buffer_idx s)
    | Some None => None
    | None => current_framebuffer s
    end s.

(** ** FreeRTOS primitives *)

Definition xQueueSend (msg : display_message_t) (s : TFT7735V) : bool * TFT7735V :=
  match display_queue s with
  | Some q =>
      if Z.of_nat (length q) <? DISPLAY_QUEUE_LENGTH
      then (true, set_display_queue (Some (q ++ [msg])) s)
      else (false, s)
  | None => (false, s)
  end.

(** [xSemaphoreTake(display_done_semaphore, 0)]: never blocks. *)
Definition xSemaphoreTake_nowait (s : TFT7735V) : TFT7735V :=
  set_display_done_semaphore
    match display_done_semaphore s with
    | Some _ => Some false
    | None => None
    end s.

Definition xSemaphoreGive (s : TFT7735V) : TFT7735V :=
  set_display_done_semaphore
    match display_done_semaphore s with
    | Some _ => Some true
    | None => None
    end s.

(** ** SPI primitives *)

Definition gpio_set_level_dc (level : bool) (s : TFT7735V) : TFT7735V :=
  set_dc_pin_level level s.

Definition spi_device_polling_transmit (t : spi_transaction_t) (s : TFT7735V)
  : Z * TFT7735V :=
  let dev := spi_device s in
  let ret := spi_fault dev (length (spi_log dev)) in
  (ret, set_spi_device
          (mkDevice (spi_fault dev)
                    (spi_log dev ++ [mkEvent (dc_pin_level s) t ret])) s).

Definition write_command (cmd : Z) (s : TFT7735V) : TFT7735V :=
  let s := gpio_set_level_dc false s in
  snd (spi_device_polling_transmit (mkTrans 8 (USE_TXDATA [cmd])) s).

Definition write_data (data : Z) (s : TFT7735V) : TFT7735V :=
  let s := gpio_set_level_dc true s in
  snd (spi_device_polling_transmit (mkTrans 8 (USE_TXDATA [data])) s).

Definition set_addr_window (x0 y0 x1 y1 : Z) (s : TFT7735V) : TFT7735V :=
  let xo := if x_offset s >=? 0 then u16 (x_offset s) else 0 in
  let yo := if y_offset s >=? 0 then u16 (y_offset s) else 0 in
  let sx0 := u16 (x0 + xo) in
  let sy0 := u16 (y0 + yo) in
  let sx1 := u16 (x1 + xo) in
  let sy1 := u16 (y1 + yo) in
  let s := write_command ST7735_CASET s in
  let s := write_data (u8 (Z.shiftr sx0 8)) s in
  let s := write_data (u8 (Z.land sx0 255)) s in
  let s := write_data (u8 (Z.shiftr sx1 8)) s in
  let s := write_data (u8 (Z.land sx1 255)) s in
  let s := write_command ST7735_RASET s in
  let s := write_data (u8 (Z.shiftr sy0 8)) s in
  let s := write_data (u8 (Z.land sy0 255)) s in
  let s := write_data (u8 (Z.shiftr sy1 8)) s in
  let s := write_data (u8 (Z.land sy1 255)) s in
  write_command ST7735_RAMWR s.

Definition init_sequence (s : TFT7735V) : TFT7735V :=
  let s := write_command ST7735_SWRESET s in
  let s := write_command ST7735_SLPOUT s in
  let s := write_command ST7735_COLMOD s in
  let s := write_data 0x05 s in
  let s := write_command ST7735_MADCTL s in
  let s := write_data 0x00 s in
  let s := write_command ST7735_CASET s in
  let s := write_data 0x00 s in
  let s := write_data 0x00 s in
  let s := write_data 0x00 s in
  let s := write_data 0x7F s in
  let s := write_command ST7735_RASET s in
  let s := write_data 0x00 s in
  let s := write_data 0x00 s in
  let s := write_data 0x00 s in
  let s := write_data 0x9F s in
  let s := write_command ST7735_NORON s in
  write_command ST7735_DISPON s.

(** ** Dirty-rectangle accumulator *)

Definition clearDirty (s : TFT7735V) : TFT7735V :=
  set_force_full_redraw false (set_dirty_rect (Rect.mk 0 0 0 0 false) s).

Definition forceFullRedraw (s : TFT7735V) : TFT7735V :=
  let d := dirty_rect s in
  set_dirty_rect (Rect.mk (Rect.x d) (Rect.y d) (Rect.w d) (Rect.h d) false)
    (set_force_full_redraw true s).

Definition enableDirtyRect (enable : bool) (s : TFT7735V) : TFT7735V :=
  let s := set_dirty_rect_enabled enable s in
  if enable then clearDirty s else s.

Definition expand_dirty_rect (x y w h : Z) (s : TFT7735V) : TFT7735V :=
  if negb (dirty_rect_enabled s) then s
  else if (x >=? width s) || (y >=? height s) then s
  else
    let w := if x + w >? width s then u16 (width s - x) else w in
    let h := if y + h >? height s then u16 (height s - y) else h in
    if (w =? 0) || (h =? 0) then s
    else
      let d := dirty_rect s in
      if negb (Rect.valid d) then set_dirty_rect (Rect.mk x y w h true) s
      else
        let x1 := Z.min (Rect.x d) x in
        let y1 := Z.min (Rect.y d) y in
        let x2 := u16 (Z.max (Rect.x d + Rect.w d) (x + w)) in
        let y2 := u16 (Z.max (Rect.y d + Rect.h d) (y + h)) in
        set_dirty_rect (Rect.mk x1 y1 (u16 (x2 - x1)) (u16 (y2 - y1)) (Rect.valid d)) s.

(** Returns (affected chunks, start_chunk, end_chunk); [/] on [int] is
    [Z.quot]. *)
Definition calculate_dirty_chunks (d : dirty_rect_t) (s : TFT7735V) : Z * Z * Z :=
  if negb (Rect.valid d) then (total_chunks s, 0, u8 (total_chunks s - 1))
  else
    let start_chunk := u8 (Z.quot (Rect.y d) CHUNK_HEIGHT) in
    let end_chunk := u8 (Z.quot (Rect.y d + Rect.h d - 1) CHUNK_HEIGHT) in
    let start_chunk :=
      if start_chunk >=? total_chunks s then u8 (total_chunks s - 1) else start_chunk in
    let end_chunk :=
      if end_chunk >=? total_chunks s then u8 (total_chunks s - 1) else end_chunk in
    (u8 (end_chunk - start_chunk + 1), start_chunk, end_chunk).

(** ** Transfer engine *)

Definition spi_chunk_size : Z := 2048.

Definition is_null {A : Type} (p : option A) : bool :=
  match p with Some _ => false | None => true end.

(** The words a transaction reads at [buffer + off]. *)
Definition sram_slice (buffer : sram_ptr) (off n : Z) (s : TFT7735V) : list Z :=
  match sram_read buffer s with
  | Some buf => slice (Z.to_nat off) (Z.to_nat n) buf
  | None => []
  end.

Definition bswap_in_place (buffer : sram_ptr) (off n : Z) (s : TFT7735V) : TFT7735V :=
  sram_update buffer (bswap_range (Z.to_nat off) (Z.to_nat n)) s.

(** The [for (pixel_offset = 0; pixel_offset < total_pixels; pixel_offset +=
    spi_chunk_size)] loop of [send_chunk_to_display].  The test is the
    loop's own; [fuel] only bounds the recursion and [send_chunk_to_display]
    passes [total_pixels], more than the loop can use. *)
Fixpoint send_chunk_loop (fuel : nat) (buffer : sram_ptr) (total_pixels pixel_offset : Z)
    (s : TFT7735V) : TFT7735V :=
  match fuel with
  | O => s
  | S fuel' =>
      if pixel_offset <? total_pixels then
        let current_pixels :=
          if total_pixels - pixel_offset >? spi_chunk_size
          then spi_chunk_size else total_pixels - pixel_offset in
        let s := bswap_in_place buffer pixel_offset current_pixels s in
        let t := mkTrans (current_pixels * 16)
                         (TX_BUFFER (sram_slice buffer pixel_offset current_pixels s)) in
        let (ret, s) := spi_device_polling_transmit t s in
        if negb (ret =? ESP_OK) then s
        else
          let s := bswap_in_place buffer pixel_offset current_pixels s in
          send_chunk_loop fuel' buffer total_pixels (pixel_offset + spi_chunk_size) s
      else s
  end.

Definition send_chunk_to_display (buffer : sram_ptr) (chunk_idx chunk_height : Z)
    (s : TFT7735V) : TFT7735V :=
  if negb (initialized s) || is_null (sram_read buffer s) then s
  else
    let chunk_start_y := u16 (chunk_idx * CHUNK_HEIGHT) in
    let s := set_addr_window 0 chunk_start_y (u16 (width s - 1))
               (u16 (chunk_start_y + chunk_height - 1)) s in
    let s := gpio_set_level_dc true s in
    let total_pixels := width s * chunk_height in
    send_chunk_loop (Z.to_nat total_pixels) buffer total_pixels 0 s.

Definition copy_chunk_and_send (chunk_idx source_buffer_idx : Z) (s : TFT7735V)
  : TFT7735V :=
  if negb (initialized s) then s
  else
    match framebuffer_at source_buffer_idx s with
    | None => s
    | Some None => s
    | Some (Some source_framebuffer) =>
        let chunk_start_y := u16 (chunk_idx * CHUNK_HEIGHT) in
        let chunk_end_y := u16 ((chunk_idx + 1) * CHUNK_HEIGHT) in
        let chunk_end_y := if chunk_end_y >? height s then height s else chunk_end_y in
        let actual_chunk_height := u16 (chunk_end_y - chunk_start_y) in
        let target_buffer := if Z.rem chunk_idx 2 =? 0 then SRAM_A else SRAM_B in
        let chunk_size_pixels := width s * actual_chunk_height in
        let s := sram_update target_buffer
                   (overwrite (slice (Z.to_nat (chunk_start_y * width s))
                                     (Z.to_nat chunk_size_pixels) source_framebuffer)) s in
        send_chunk_to_display target_buffer chunk_idx actual_chunk_height s
    end.

(** The [for (row = 0; row < dirty_height; row++)] loop of
    [send_dirty_chunk_to_display]: [rows_left] is [dirty_height - row]. *)
Fixpoint send_dirty_rows (rows_left : nat) (buffer : sram_ptr)
    (dirty_offset_y dirty_x dirty_w row : Z) (s : TFT7735V) : TFT7735V :=
  match rows_left with
  | O => s
  | S rows_left' =>
      let line_start := (dirty_offset_y + row) * width s + dirty_x in
      let s := bswap_in_place buffer line_start dirty_w s in
      let t := mkTrans (dirty_w * 16)
                       (TX_BUFFER (sram_slice buffer line_start dirty_w s)) in
      let (ret, s) := spi_device_polling_transmit t s in
      if negb (ret =? ESP_OK) then bswap_in_place buffer line_start dirty_w s
      else
        let s := bswap_in_place buffer line_start dirty_w s in
        send_dirty_rows rows_left' buffer dirty_offset_y dirty_x dirty_w (row + 1) s
  end.

Definition send_dirty_chunk_to_display (buffer : sram_ptr) (chunk_idx chunk_height : Z)
    (d : dirty_rect_t) (s : TFT7735V) : TFT7735V :=
  if negb (initialized s) || is_null (sram_read buffer s) then s
  else
    let chunk_start_y := u16 (chunk_idx * CHUNK_HEIGHT) in
    let dirty_start_y := Z.max (Rect.y d) chunk_start_y in
    let dirty_end_y :=
      Z.min (u16 (Rect.y d + Rect.h d)) (u16 (chunk_start_y + chunk_height)) in
    if dirty_start_y >=? dirty_end_y then s
    else
      let dirty_height := u16 (dirty_end_y - dirty_start_y) in
      let dirty_x := Rect.x d in
      let dirty_w := Rect.w d in
      let s := set_addr_window dirty_x dirty_start_y (u16 (dirty_x + dirty_w - 1))
                 (u16 (dirty_start_y + dirty_height - 1)) s in
      let s := gpio_set_level_dc true s in
      let dirty_offset_y := u16 (dirty_start_y - chunk_start_y) in
      send_dirty_rows (Z.to_nat dirty_height) buffer dirty_offset_y dirty_x dirty_w 0 s.

Definition copy_dirty_chunk_and_send (chunk_idx source_buffer_idx : Z) (d : dirty_rect_t)
    (s : TFT7735V) : TFT7735V :=
  if negb (initialized s) then s
  else
    match framebuffer_at source_buffer_idx s with
    | None => s
    | Some None => s
    | Some (Some source_framebuffer) =>
        let chunk_start_y := u16 (chunk_idx * CHUNK_HEIGHT) in
        let chunk_end_y := u16 ((chunk_idx + 1) * CHUNK_HEIGHT) in
        let chunk_end_y := if chunk_end_y >? height s then height s else chunk_end_y in
        let actual_chunk_height := u16 (chunk_end_y - chunk_start_y) in
        let dirty_start_y := Z.max (Rect.y d) chunk_start_y in
        let dirty_end_y := Z.min (u16 (Rect.y d + Rect.h d)) chunk_end_y in
        if dirty_start_y >=? dirty_end_y then s
        else
          let target_buffer := if Z.rem chunk_idx 2 =? 0 then SRAM_A else SRAM_B in
          let chunk_size_pixels := width s * actual_chunk_height in
          let s := sram_update target_buffer
                     (overwrite (slice (Z.to_nat (chunk_start_y * width s))
                                       (Z.to_nat chunk_size_pixels) source_framebuffer)) s in
          send_dirty_chunk_to_display target_buffer chunk_idx actual_chunk_height d s
    end.

(** ** The transfer worker, [display_task] *)

Definition release_buffer (idx : Z) (s : TFT7735V) : TFT7735V :=
  set_buffer_states (state_set (buffer_states s) idx BUFFER_STATE_IDLE) s.

(** [display_in_progress = false; display_done_flag = true;
    xSemaphoreGive(display_done_semaphore)]. *)
Definition signal_done (s : TFT7735V) : TFT7735V :=
  xSemaphoreGive (set_display_done_flag true (set_display_in_progress false s)).

(** The body of the [while (true)] loop once a message is received, in two
    halves: the chunk is copied and sent, then the coordinator state is
    updated. *)
Definition process_chunk (msg : display_message_t) (s : TFT7735V) : TFT7735V :=
  if Msg.use_dirty_rect msg && Rect.valid (Msg.dirty_rect msg)
  then copy_dirty_chunk_and_send (Msg.chunk_idx msg) (Msg.source_buffer_idx msg)
         (Msg.dirty_rect msg) s
  else copy_chunk_and_send (Msg.chunk_idx msg) (Msg.source_buffer_idx msg) s.

(** Whether the chunk after [msg]'s is past the end of the job. *)
Definition next_is_last (msg : display_message_t) (s : TFT7735V) : bool :=
  let next_chunk_idx := u8 (Msg.chunk_idx msg + 1) in
  if Msg.use_dirty_rect msg && Rect.valid (Msg.dirty_rect msg)
  then
    let '(_, _, end_chunk) := calculate_dirty_chunks (Msg.dirty_rect msg) s in
    next_chunk_idx >? end_chunk
  else next_chunk_idx >=? total_chunks s.

Definition after_chunk (msg : display_message_t) (s : TFT7735V) : TFT7735V :=
  if Msg.is_last_chunk msg then
    signal_done (clearDirty (release_buffer (Msg.source_buffer_idx msg) s))
  else
    let next_chunk_idx := u8 (Msg.chunk_idx msg + 1) in
    let is_last := next_is_last msg s in
    if negb is_last then
      let next_msg :=
        Msg.mk next_chunk_idx is_last (Msg.source_buffer_idx msg)
               (Msg.use_dirty_rect msg) (Msg.dirty_rect msg) in
      let (sent, s) := xQueueSend next_msg s in
      if sent then s
      else signal_done (release_buffer (Msg.source_buffer_idx msg) s)
    else signal_done (clearDirty (release_buffer (Msg.source_buffer_idx msg) s)).

Definition display_task_body (msg : display_message_t) (s : TFT7735V) : TFT7735V :=
  after_chunk msg (process_chunk msg s).

(** One iteration of the worker: [xQueueReceive(..., portMAX_DELAY)] then
    the body.  [None]: the queue is empty and the task stays blocked. *)
Definition display_task_step (s : TFT7735V) : option TFT7735V :=
  match display_queue s with
  | Some (msg :: q) => Some (display_task_body msg (set_display_queue (Some q) s))
  | _ => None
  end.

(** The worker left alone for at most [n] iterations. *)
Fixpoint run_display_task (n : nat) (s : TFT7735V) : TFT7735V :=
  match n with
  | O => s
  | S n' =>
      match display_task_step s with
      | Some s' => run_display_task n' s'
      | None => s
      end
  end.

(** ** Present coordinator *)

(** [for (int i = 0; i < 3; i++) if (buffer_states[i] == IDLE) { next = i;
    break; }] with [next] starting at 255. *)
Fixpoint find_idle_from (n : nat) (i : Z) (states : list buffer_state_t) : Z :=
  match n with
  | O => 255
  | S n' =>
      if buffer_state_eqb (state_at states i) BUFFER_STATE_IDLE then i
      else find_idle_from n' (i + 1) states
  end.

Definition find_idle (states : list buffer_state_t) : Z := find_idle_from 3 0 states.

(** [display()] returns nothing; the tag names the [return] it leaves by,
    after the message it logs there. *)
Inductive display_exit : Type :=
  | exit_framebuffer_not_enabled
  | exit_not_initialized
  | exit_already_in_progress
  | exit_queue_not_initialized
  | exit_no_idle_buffer
  | exit_queue_send_failed
  | exit_started.

(** The first message of a present, built once the buffers are swapped. *)
Definition first_message (s : TFT7735V) : display_message_t :=
  let use_dirty_rect :=
    dirty_rect_enabled s && Rect.valid (dirty_rect s) && negb (force_full_redraw s) in
  let '(chunks_to_send, start_chunk, end_chunk) :=
    if use_dirty_rect then calculate_dirty_chunks (dirty_rect s) s
    else (total_chunks s, 0, u8 (total_chunks s - 1)) in
  Msg.mk start_chunk (chunks_to_send =? 1) (transfer_buffer_idx s) use_dirty_rect
         (if use_dirty_rect then dirty_rect s else Rect.mk 0 0 0 0 false).

(** The buffer swap of [display()]. *)
Definition swap_for_transfer (next_render_idx : Z) (s : TFT7735V) : TFT7735V :=
  let s := set_buffer_states
             (state_set (buffer_states s) (render_buffer_idx s)
                        BUFFER_STATE_TRANSFERRING) s in
  let s := set_transfer_buffer_idx (render_buffer_idx s) s in
  let s := set_render_buffer_idx next_render_idx s in
  let s := set_buffer_states
             (state_set (buffer_states s) (render_buffer_idx s)
                        BUFFER_STATE_RENDERING) s in
  update_current_framebuffer s.

Definition display_traced (s : TFT7735V) : display_exit * TFT7735V :=
  if negb (framebuffer_enabled s) || is_null (current_framebuffer s)
  then (exit_framebuffer_not_enabled, s)
  else if negb (initialized s) then (exit_not_initialized, s)
  else if display_in_progress s then (exit_already_in_progress, s)
  else if is_null (display_queue s) then (exit_queue_not_initialized, s)
  else
    let next_render_idx := find_idle (buffer_states s) in
    if next_render_idx =? 255 then (exit_no_idle_buffer, s)
    else
      let s := swap_for_transfer next_render_idx s in
      let s := set_display_in_progress true s in
      let s := set_display_done_flag false s in
      let s := set_current_chunk 0 s in
      let s := xSemaphoreTake_nowait s in
      let (sent, s) := xQueueSend (first_message s) s in
      if sent then (exit_started, s)
      else
        let s := set_display_in_progress false s in
        let s := set_display_done_flag true s in
        let s := xSemaphoreGive s in
        (exit_queue_send_failed, release_buffer (transfer_buffer_idx s) s).

Definition display (s : TFT7735V) : TFT7735V := snd (display_traced s).

Definition swapBuffers (s : TFT7735V) : TFT7735V :=
  if negb (framebuffer_enabled s) then s
  else
    let next_render_idx := find_idle (buffer_states s) in
    if next_render_idx =? 255 then s
    else
      let old_render_idx := render_buffer_idx s in
      let s := set_render_buffer_idx next_render_idx s in
      let s := set_buffer_states
                 (state_set (buffer_states s) (render_buffer_idx s)
                            BUFFER_STATE_RENDERING) s in
      let s := set_buffer_states
                 (state_set (buffer_states s) old_render_idx BUFFER_STATE_IDLE) s in
      update_current_framebuffer s.

Definition displayDone (s : TFT7735V) : bool := display_done_flag s.

(** [None]: the caller stays blocked in [xSemaphoreTake(..., portMAX_DELAY)]
    until the worker gives the semaphore. *)
Definition waitForDisplayDone (s : TFT7735V) : option TFT7735V :=
  match display_done_semaphore s with
  | Some available =>
      if display_in_progress s then
        if available
        then Some (xSemaphoreGive (set_display_done_semaphore (Some false) s))
        else None
      else Some s
  | None => Some s
  end.

(** ** Construction and [begin] *)

(** What the platform answers to the fallible calls of [begin]: the two SPI
    bus calls, the device the bus hands out, the five [heap_caps_malloc]
    blocks (16-bit words, contents as found), and the three FreeRTOS
    creations. *)
Record platform := mkPlatform {
  spi_bus_initialize_ret : Z;
  spi_bus_add_device_ret : Z;
  attached_device_fault : nat -> Z;
  psram_block_a : option (list Z);
  psram_block_b : option (list Z);
  psram_block_c : option (list Z);
  sram_block_a : option (list Z);
  sram_block_b : option (list Z);
  xQueueCreate_ok : bool;
  xSemaphoreCreateBinary_ok : bool;
  xTaskCreate_ok : bool
}.

(** The constructor assigns every modelled field but [dirty_rect], which it
    leaves as found: [garbage]. *)
Definition TFT7735V_constructor (garbage : dirty_rect_t) : TFT7735V :=
  mkTFT false ST7735_WIDTH ST7735_HEIGHT 0 0 false null_device
        None None None None
        [BUFFER_STATE_IDLE; BUFFER_STATE_IDLE; BUFFER_STATE_IDLE] 0 1 true
        None None None None false true 0 MAX_CHUNKS
        garbage true false.

Definition memset_zero (block : list Z) : list Z := map (fun _ => 0) block.

Definition init_framebuffer (p : platform) (s : TFT7735V) : bool * TFT7735V :=
  if negb (is_null (framebuffer_a s)) || negb (is_null (framebuffer_b s))
     || negb (is_null (framebuffer_c s))
  then (true, s)
  else
    match psram_block_a p with
    | None => (false, s)
    | Some a =>
        match psram_block_b p with
        | None => (false, set_framebuffer_a None s)
        | Some b =>
            match psram_block_c p with
            | None => (false, set_framebuffer_b None (set_framebuffer_a None s))
            | Some c =>
                let s := set_framebuffer_a (Some (memset_zero a)) s in
                let s := set_framebuffer_b (Some (memset_zero b)) s in
                let s := set_framebuffer_c (Some (memset_zero c)) s in
                let s := set_current_framebuffer (Some 0) s in
                (true, set_buffer_states
                         (state_set (buffer_states s) 0 BUFFER_STATE_RENDERING) s)
            end
        end
    end.

Definition free_framebuffer (s : TFT7735V) : TFT7735V :=
  let s := set_framebuffer_a None s in
  let s := set_framebuffer_b None s in
  let s := set_framebuffer_c None s in
  let s := set_current_framebuffer None s in
  set_framebuffer_enabled false s.

Definition init_double_buffering (p : platform) (s : TFT7735V) : bool * TFT7735V :=
  if negb (is_null (sram_buffer_a s)) || negb (is_null (sram_buffer_b s))
  then (true, s)
  else
    match sram_block_a p with
    | None => (false, s)
    | Some a =>
        match sram_block_b p with
        | None => (false, s)
        | Some b =>
            if negb (xQueueCreate_ok p) then (false, set_display_queue None s)
            else if negb (xSemaphoreCreateBinary_ok p)
            then (false, set_display_done_semaphore None (set_display_queue None s))
            else if negb (xTaskCreate_ok p)
            then (false, set_display_done_semaphore None (set_display_queue None s))
            else
              let s := set_sram_buffer_a (Some a) s in
              let s := set_sram_buffer_b (Some b) s in
              let s := set_display_queue (Some []) s in
              let s := set_display_done_semaphore (Some false) s in
              let s := set_display_in_progress false s in
              let s := set_display_done_flag true s in
              let s := set_current_chunk 0 s in
              (true, xSemaphoreGive s)
        end
    end.

Definition begin (p : platform) (s : TFT7735V) : bool * TFT7735V :=
  if initialized s then (true, s)
  else if negb (spi_bus_initialize_ret p =? ESP_OK) then (false, s)
  else if negb (spi_bus_add_device_ret p =? ESP_OK) then (false, s)
  else
    let s := set_spi_device (mkDevice (attached_device_fault p) []) s in
    let s := init_sequence s in
    let (ok, s) := init_framebuffer p s in
    if negb ok then (false, s)
    else
      let (ok, s) := init_double_buffering p s in
      if negb ok then (false, free_framebuffer s)
      else
        let s := set_current_framebuffer
                   (if is_null (framebuffer_a s) then None else Some 0) s in
        (true, set_initialized true s).

(** ** Rasterizers *)

(** A store through [current_framebuffer]. *)
Definition fb_write (f : list Z -> list Z) (s : TFT7735V) : TFT7735V :=
  match current_framebuffer s with
  | Some i =>
      if i =? 0 then set_framebuffer_a (option_map f (framebuffer_a s)) s
      else if i =? 1 then set_framebuffer_b (option_map f (framebuffer_b s)) s
      else if i =? 2 then set_framebuffer_c (option_map f (framebuffer_c s)) s
      else s
  | None => s
  end.

Definition fb_draw_pixel (x y color : Z) (s : TFT7735V) : TFT7735V :=
  if (x >=? width s) || (y >=? height s) || is_null (current_framebuffer s) then s
  else
    let s := fb_write (fun fb => list_set fb (Z.to_nat (y * width s + x)) color) s in
    expand_dirty_rect x y 1 1 s.

Definition fb_fill_screen (color : Z) (s : TFT7735V) : TFT7735V :=
  if is_null (current_framebuffer s) then s
  else
    let s := fb_write (overwrite (repeat color (Z.to_nat (width s * height s)))) s in
    expand_dirty_rect 0 0 (width s) (height s) s.

(** ** Executions *)

(** One atomic action of the steady state: a present, a swap, a wait, a
    rasterizer or dirty-rectangle call of the application thread, or one
    iteration of the transfer worker.  The calls that set the driver up or
    tear it down ([begin] on a used object, [end], [enableFramebuffer],
    [disableFramebuffer]) and [set_rotation] are not steps: [init_framebuffer]
    rewrites [buffer_states[0]] and [current_framebuffer] without the
    render index, and what is proved along [step] does not survive them. *)
Inductive step : TFT7735V -> TFT7735V -> Prop :=
  | step_display : forall s, step s (display s)
  | step_swapBuffers : forall s, step s (swapBuffers s)
  | step_waitForDisplayDone : forall s s',
      waitForDisplayDone s = Some s' -> step s s'
  | step_display_task : forall s s',
      display_task_step s = Some s' -> step s s'
  | step_expand_dirty_rect : forall s x y w h,
      step s (expand_dirty_rect x y w h s)
  | step_fb_draw_pixel : forall s x y color, step s (fb_draw_pixel x y color s)
  | step_fb_fill_screen : forall s color, step s (fb_fill_screen color s)
  | step_clearDirty : forall s, step s (clearDirty s)
  | step_forceFullRedraw : forall s, step s (forceFullRedraw s)
  | step_enableDirtyRect : forall s enable, step s (enableDirtyRect enable s).

Inductive steps : TFT7735V -> TFT7735V -> Prop :=
  | steps_refl : forall s, steps s s
  | steps_next : forall s s' s'', steps s s' -> step s' s'' -> steps s s''.

(** The states reached from a first [begin] on a freshly constructed
    object by steps of the steady state. *)
Definition reachable (s : TFT7735V) : Prop :=
  exists p garbage s0,
    begin p (TFT7735V_constructor garbage) = (true, s0) /\ steps s0 s.

(** ** What went over the wire *)

Definition event_bytes (e : spi_event) : Z :=
  if ev_ret e =? ESP_OK then length_bits (ev_trans e) / 8 else 0.

(** Bytes sent from a pixel buffer, D/C high. *)
Definition pixel_bytes_of (e : spi_event) : Z :=
  match tx (ev_trans e) with
  | TX_BUFFER _ => if ev_dc e then event_bytes e else 0
  | USE_TXDATA _ => 0
  end.

(** Command bytes: inline data, D/C low. *)
Definition command_bytes_of (e : spi_event) : Z :=
  match tx (ev_trans e) with
  | USE_TXDATA _ => if ev_dc e then 0 else event_bytes e
  | TX_BUFFER _ => 0
  end.

(** Argument bytes: inline data, D/C high. *)
Definition argument_bytes_of (e : spi_event) : Z :=
  match tx (ev_trans e) with
  | USE_TXDATA _ => if ev_dc e then event_bytes e else 0
  | TX_BUFFER _ => 0
  end.

Definition sum_over (f : spi_event -> Z) (log : list spi_event) : Z :=
  fold_right (fun e acc => f e + acc) 0 log.

Definition pixel_bytes (s : TFT7735V) : Z := sum_over pixel_bytes_of (spi_log (spi_device s)).
Definition command_bytes (s : TFT7735V) : Z :=
  sum_over command_bytes_of (spi_log (spi_device s)).
Definition argument_bytes (s : TFT7735V) : Z :=
  sum_over argument_bytes_of (spi_log (spi_device s)).

(** ** Properties of states *)

Definition count_state (st : buffer_state_t) (l : list buffer_state_t) : nat :=
  length (filter (buffer_state_eqb st) l).

(** Invariant I1: one buffer is rendered to, at most one is transferred,
    the others are idle. *)
Definition I1 (s : TFT7735V) : Prop :=
  length (buffer_states s) = 3%nat /\
  count_state BUFFER_STATE_RENDERING (buffer_states s) = 1%nat /\
  ((count_state BUFFER_STATE_TRANSFERRING (buffer_states s) = 0%nat /\
    count_state BUFFER_STATE_IDLE (buffer_states s) = 2%nat) \/
   (count_state BUFFER_STATE_TRANSFERRING (buffer_states s) = 1%nat /\
    count_state BUFFER_STATE_IDLE (buffer_states s) = 1%nat)).

Definition no_idle_buffer (s : TFT7735V) : Prop :=
  forall i, 0 <= i < 3 -> state_at (buffer_states s) i <> BUFFER_STATE_IDLE.

(** What the coordinator and the worker keep true between them: the render
    index names the rendering buffer, and a present in progress is exactly
    one queued message whose source is the transferring buffer. *)
Definition coordinator_inv (s : TFT7735V) : Prop :=
  exists a b c q,
    buffer_states s = [a; b; c] /\
    0 <= render_buffer_idx s < 3 /\
    state_at (buffer_states s) (render_buffer_idx s) = BUFFER_STATE_RENDERING /\
    count_state BUFFER_STATE_RENDERING (buffer_states s) = 1%nat /\
    display_queue s = Some q /\
    if display_in_progress s
    then exists msg,
           q = [msg] /\ 0 <= Msg.source_buffer_idx msg < 3 /\
           state_at (buffer_states s) (Msg.source_buffer_idx msg)
             = BUFFER_STATE_TRANSFERRING /\
           count_state BUFFER_STATE_TRANSFERRING (buffer_states s) = 1%nat
    else q = [] /\ count_state BUFFER_STATE_TRANSFERRING (buffer_states s) = 0%nat.

(** The fields the transfer routines write: the two bounce buffers, the SPI
    device and the D/C line. *)
Definition with_io (a b : option (list Z)) (dev : spi_device_t) (dc : bool)
    (s : TFT7735V) : TFT7735V :=
  set_sram_buffer_a a (set_sram_buffer_b b (set_spi_device dev (set_dc_pin_level dc s))).

(** From [s] to [s'] only those fields change, the bounce buffers keep
    their sizes and the device its fault schedule. *)
Definition io_only (s s' : TFT7735V) : Prop :=
  exists a b dev dc,
    s' = with_io a b dev dc s /\
    option_map (@length Z) a = option_map (@length Z) (sram_buffer_a s) /\
    option_map (@length Z) b = option_map (@length Z) (sram_buffer_b s) /\
    spi_fault dev = spi_fault (spi_device s).

(** ** A concrete platform *)

(** A platform on which every call of [begin] succeeds: blocks of the
    requested sizes, filled with [fill], and a device that fails the
    transmits [fault] names. *)
Definition demo_block (words fill : Z) : list Z := repeat fill (Z.to_nat words).

Definition demo_platform (fault : nat -> Z) : platform :=
  mkPlatform ESP_OK ESP_OK fault
    (Some (demo_block 20480 0xBEEF)) (Some (demo_block 20480 0xBEEF))
    (Some (demo_block 20480 0xBEEF))
    (Some (demo_block 4096 0x1234)) (Some (demo_block 4096 0x1234))
    true true true.

Definition no_fault : nat -> Z := fun _ => ESP_OK.

(** The object after [begin] on the demo platform. *)
Definition demo_begun (fault : nat -> Z) : TFT7735V :=
  snd (begin (demo_platform fault) (TFT7735V_constructor (Rect.mk 0 0 0 0 false))).

(** The platform hands out blocks of the sizes [begin] asks for. *)
Definition platform_ok (p : platform) : Prop :=
  (forall l, psram_block_a p = Some l ->
             Z.of_nat (length l) = ST7735_WIDTH * ST7735_HEIGHT) /\
  (forall l, psram_block_b p = Some l ->
             Z.of_nat (length l) = ST7735_WIDTH * ST7735_HEIGHT) /\
  (forall l, psram_block_c p = Some l ->
             Z.of_nat (length l) = ST7735_WIDTH * ST7735_HEIGHT) /\
  (forall l, sram_block_a p = Some l -> Z.of_nat (length l) = SRAM_BUFFER_SIZE / 2) /\
  (forall l, sram_block_b p = Some l -> Z.of_nat (length l) = SRAM_BUFFER_SIZE / 2).

Definition ESP_FAIL : Z := -1.

(** The device fails the transmit number 29 since power-up: after the 18
    transactions of [init_sequence] and the 11 of the first address window,
    it is the first pixel transaction of the first present. *)
Definition first_pixel_fault : nat -> Z :=
  fun n => if Nat.eqb n 29 then ESP_FAIL else ESP_OK.

Definition total_bytes (s : TFT7735V) : Z :=
  pixel_bytes s + command_bytes s + argument_bytes s.

(** Demo objects after [begin]: a 20 x 20 rectangle marked dirty at
    (10, 10); a 1 x 1 rectangle marked after [forceFullRedraw]; a 20 x 20
    rectangle over chunks 0 and 1 on the device that fails its first pixel
    transaction; the screen filled with 0x1234, tracking disabled, on that
    same device. *)
Definition dirty_demo : TFT7735V :=
  expand_dirty_rect 10 10 20 20 (demo_begun no_fault).


Definition transmit_error_demo : TFT7735V :=
  expand_dirty_rect 10 20 20 20 (demo_begun first_pixel_fault).

Definition full_frame_error_demo : TFT7735V :=
  fb_fill_screen 0x1234 (enableDirtyRect false (demo_begun first_pixel_fault)).

(** A state with no IDLE buffer (not a reachable one). *)
Definition no_idle_demo : TFT7735V :=
  set_buffer_states
    [BUFFER_STATE_RENDERING; BUFFER_STATE_TRANSFERRING; BUFFER_STATE_TRANSFERRING]
    (demo_begun no_fault).

(** ** The dirty accumulator against its specification *)

(** A call [expand_dirty_rect(x, y, w, h)]. *)
Definition mark_call : Type := (Z * Z * Z * Z)%type.

Definition mark_dirty (s : TFT7735V) (c : mark_call) : TFT7735V :=
  let '(x, y, w, h) := c in expand_dirty_rect x y w h s.

Definition mark_all (calls : list mark_call) (s : TFT7735V) : TFT7735V :=
  fold_left mark_dirty calls s.

(** The arguments are [uint16_t]. *)
Definition uint16_call (c : mark_call) : Prop :=
  let '(x, y, w, h) := c in
  0 <= x < 65536 /\ 0 <= y < 65536 /\ 0 <= w < 65536 /\ 0 <= h < 65536.

(** Pixel [(px, py)] is on a [W] x [H] screen and inside the rectangle of
    call [c]. *)
Definition touches (W H : Z) (c : mark_call) (px py : Z) : Prop :=
  let '(x, y, w, h) := c in
  x <= px < x + w /\ y <= py < y + h /\ 0 <= px < W /\ 0 <= py < H.

(** The union of the inputs, clipped to the screen. *)
Definition touched (W H : Z) (calls : list mark_call) (px py : Z) : Prop :=
  exists c, In c calls /\ touches W H c px py.

Definition in_rect (d : dirty_rect_t) (px py : Z) : Prop :=
  Rect.x d <= px < Rect.x d + Rect.w d /\ Rect.y d <= py < Rect.y d + Rect.h d.

(** [d] is the axis-aligned bounding box of the pixel set [P]: it covers
    [P], and every rectangle [x0, x1) x [y0, y1) that covers [P] covers
    [d]. *)
Definition bounding_box (d : dirty_rect_t) (P : Z -> Z -> Prop) : Prop :=
  (forall px py, P px py -> in_rect d px py) /\
  (forall x0 y0 x1 y1,
     (forall px py, P px py -> x0 <= px < x1 /\ y0 <= py < y1) ->
     x0 <= Rect.x d /\ y0 <= Rect.y d /\
     Rect.x d + Rect.w d <= x1 /\ Rect.y d + Rect.h d <= y1).

(** The union rule in the specification's words: an input is clipped to the
    screen; a clipped input of zero area is ignored; an invalid rectangle
    adopts the input; a valid one becomes (min x, min y, max (x+w),
    max (y+h)). *)
Definition clip_to_screen (W H : Z) (c : mark_call) : option mark_call :=
  let '(x, y, w, h) := c in
  let w' := Z.min w (W - x) in
  let h' := Z.min h (H - y) in
  if (w' <=? 0) || (h' <=? 0) then None else Some (x, y, w', h').

Definition union_rule (d : dirty_rect_t) (c : mark_call) : dirty_rect_t :=
  let '(x, y, w, h) := c in
  if Rect.valid d then
    let x1 := Z.min (Rect.x d) x in
    let y1 := Z.min (Rect.y d) y in
    let x2 := Z.max (Rect.x d + Rect.w d) (x + w) in
    let y2 := Z.max (Rect.y d + Rect.h d) (y + h) in
    Rect.mk x1 y1 (x2 - x1) (y2 - y1) true
  else Rect.mk x y w h true.

Definition mark_spec (W H : Z) (d : dirty_rect_t) (c : mark_call) : dirty_rect_t :=
  match clip_to_screen W H c with
  | Some c' => union_rule d c'
  | None => d
  end.

(** A valid dirty rectangle lies on the screen and has positive area. *)
Definition rect_on_screen (W H : Z) (d : dirty_rect_t) : Prop :=
  0 <= Rect.x d /\ 0 <= Rect.y d /\ 0 < Rect.w d /\ 0 < Rect.h d /\
  Rect.x d + Rect.w d <= W /\ Rect.y d + Rect.h d <= H.

(** The pure part: folding the union rule over the calls keeps the
    rectangle the bounding box of what was touched so far. *)
Definition represents (W H : Z) (d : dirty_rect_t) (P : Z -> Z -> Prop) : Prop :=
  if Rect.valid d then bounding_box d P /\ rect_on_screen W H d
  else forall px py, ~ P px py.

(** ** Accounting of a transfer *)

(** No transmit fails. *)
Definition fault_free (s : TFT7735V) : Prop :=
  forall n, spi_fault (spi_device s) n = ESP_OK.

(** From [s] to [s'] the device sent [px] pixel bytes, [cmd] command bytes
    and [arg] argument bytes more. *)
Definition io_effect (px cmd arg : Z) (s s' : TFT7735V) : Prop :=
  spi_fault (spi_device s') = spi_fault (spi_device s) /\
  pixel_bytes s' = pixel_bytes s + px /\
  command_bytes s' = command_bytes s + cmd /\
  argument_bytes s' = argument_bytes s + arg.

(** Both bounce buffers are there. *)
Definition sram_allocated (s : TFT7735V) : Prop :=
  sram_buffer_a s <> None /\ sram_buffer_b s <> None.

(** ** A transfer job, from its first message to completion *)

Definition dirty_mode (msg : display_message_t) : bool :=
  Msg.use_dirty_rect msg && Rect.valid (Msg.dirty_rect msg).

(** The last chunk of the job [msg] belongs to, for [total_chunks = 5]. *)
Definition job_end (msg : display_message_t) : Z :=
  if dirty_mode msg then
    let e := u8 (Z.quot (Rect.y (Msg.dirty_rect msg) + Rect.h (Msg.dirty_rect msg) - 1)
                        CHUNK_HEIGHT) in
    if e >=? MAX_CHUNKS then u8 (MAX_CHUNKS - 1) else e
  else MAX_CHUNKS - 1.

(** The message the worker posts after [msg] when the job goes on. *)
Definition next_message (msg : display_message_t) : display_message_t :=
  Msg.mk (Msg.chunk_idx msg + 1) false (Msg.source_buffer_idx msg)
         (Msg.use_dirty_rect msg) (Msg.dirty_rect msg).

(** The coordinator fields once the job of [msg] is done. *)
Definition completed_from (msg : display_message_t) (s : TFT7735V) : TFT7735V :=
  signal_done (clearDirty (release_buffer (Msg.source_buffer_idx msg)
                                          (set_display_queue (Some []) s))).

(** Pixel bytes of the chunk of [msg], and of that chunk and all later ones,
    on the 128 x 160 panel. *)
Definition chunk_pixel_bytes (msg : display_message_t) : Z :=
  let d := Msg.dirty_rect msg in
  let k := Msg.chunk_idx msg in
  if dirty_mode msg
  then 2 * Rect.w d * (Z.min (Rect.y d + Rect.h d) (32 * k + 32) - Z.max (Rect.y d) (32 * k))
  else 8192.

Definition job_pixel_bytes (msg : display_message_t) : Z :=
  let d := Msg.dirty_rect msg in
  let k := Msg.chunk_idx msg in
  if dirty_mode msg
  then 2 * Rect.w d * (Rect.y d + Rect.h d - Z.max (Rect.y d) (32 * k))
  else 2 * ST7735_WIDTH * (ST7735_HEIGHT - 32 * k).

Definition allocated (words : Z) (p : option (list Z)) : Prop :=
  exists l, p = Some l /\ Z.of_nat (length l) = words.

(** The panel as [begin] leaves it: portrait geometry, three frame buffers
    and two bounce buffers of the sizes [begin] asks for. *)
Definition panel_ok (s : TFT7735V) : Prop :=
  initialized s = true /\ framebuffer_enabled s = true /\
  width s = ST7735_WIDTH /\ height s = ST7735_HEIGHT /\
  total_chunks s = MAX_CHUNKS /\
  allocated (ST7735_WIDTH * ST7735_HEIGHT) (framebuffer_a s) /\
  allocated (ST7735_WIDTH * ST7735_HEIGHT) (framebuffer_b s) /\
  allocated (ST7735_WIDTH * ST7735_HEIGHT) (framebuffer_c s) /\
  allocated (SRAM_BUFFER_SIZE / 2) (sram_buffer_a s) /\
  allocated (SRAM_BUFFER_SIZE / 2) (sram_buffer_b s).

(** Between two presents: nothing in flight, a buffer to draw to. *)
Definition ready (s : TFT7735V) : Prop :=
  coordinator_inv s /\ display_in_progress s = false /\
  current_framebuffer s <> None /\ panel_ok s.

(** What [display] decides from the dirty state. *)
Definition use_dirty_rect_of (s : TFT7735V) : bool :=
  dirty_rect_enabled s && Rect.valid (dirty_rect s) && negb (force_full_redraw s).

(** A job whose messages cover exactly the chunks [chunk_idx .. job_end]. *)
Definition job_ok (msg : display_message_t) : Prop :=
  0 <= Msg.chunk_idx msg <= job_end msg /\
  0 <= Msg.source_buffer_idx msg < 3 /\
  (Msg.is_last_chunk msg = true -> Msg.chunk_idx msg = job_end msg) /\
  (dirty_mode msg = true ->
   rect_on_screen ST7735_WIDTH ST7735_HEIGHT (Msg.dirty_rect msg) /\
   Rect.y (Msg.dirty_rect msg) < 32 * Msg.chunk_idx msg + 32).

(** One present run to completion with nobody else touching the object:
    [display], then the worker until its queue is empty (five iterations
    suffice for five chunks). *)
Definition present (s : TFT7735V) : TFT7735V :=
  run_display_task (Z.to_nat MAX_CHUNKS) (display s).

(** The coordinator state [display] reaches before it posts its message. *)
Definition display_armed (s : TFT7735V) : TFT7735V :=
  xSemaphoreTake_nowait
    (set_current_chunk 0
       (set_display_done_flag false
          (set_display_in_progress true
             (swap_for_transfer (find_idle (buffer_states s)) s)))).

(** Four marks on the 128 x 160 panel: one inside, one that sticks out at
    the bottom right, one off the screen, one of zero width. *)
Definition demo_marks : list mark_call :=
  [(10, 10, 20, 20); (120, 150, 20, 20); (200, 5, 4, 4); (3, 3, 0, 7)].


(** ** Words in memory *)

(** A 16-bit word. *)
Definition uint16_word (v : Z) : Prop := 0 <= v < 65536.


(** ** The pixel words on the wire *)

(** The 16-bit words of a pixel transaction the device accepted, in the
    byte order of the memory they were sent from. *)
Definition pixel_words_of (e : spi_event) : list Z :=
  match tx (ev_trans e) with
  | TX_BUFFER ws => if ev_dc e && (ev_ret e =? ESP_OK) then ws else []
  | USE_TXDATA _ => []
  end.

Definition pixel_words (s : TFT7735V) : list Z :=
  flat_map pixel_words_of (spi_log (spi_device s)).

(** From [s] to [s'] the device accepted the pixel words [ws] more. *)
Definition wire_words (ws : list Z) (s s' : TFT7735V) : Prop :=
  spi_fault (spi_device s') = spi_fault (spi_device s) /\
  pixel_words s' = pixel_words s ++ ws.





(** ** The render target *)


(** ** More rasterizers *)

(** The memory [current_framebuffer] points to. *)
Definition current_frame (s : TFT7735V) : option (list Z) :=
  match current_framebuffer s with
  | Some i => match framebuffer_at i s with Some p => p | None => None end
  | None => None
  end.

(** [current_framebuffer[y * width + x]]. *)
Definition pixel_at (x y : Z) (s : TFT7735V) : option Z :=
  match current_frame s with
  | Some fb => nth_error fb (Z.to_nat (y * width s + x))
  | None => None
  end.

(** [current_framebuffer[idx] = color]. *)
Definition fb_store (idx color : Z) (s : TFT7735V) : TFT7735V :=
  fb_write (fun fb => list_set fb (Z.to_nat idx) color) s.

(** [for (uint16_t col = x; col < x + w; col++)
      current_framebuffer[row * width + col] = color;]
    The test is the loop's own, [x_end] is [x + w]; [fuel] bounds the
    recursion and [fb_fill_rect] passes [w], the number of iterations of a
    loop that ends. *)
Fixpoint fb_fill_cols (fuel : nat) (row col x_end color : Z) (s : TFT7735V) : TFT7735V :=
  match fuel with
  | O => s
  | S fuel' =>
      if col <? x_end
      then fb_fill_cols fuel' row (u16 (col + 1)) x_end color
             (fb_store (row * width s + col) color s)
      else s
  end.

(** [for (uint16_t row = y; row < y + h; row++)] around the loop above. *)
Fixpoint fb_fill_rows (fuel : nat) (row y_end x w color : Z) (s : TFT7735V) : TFT7735V :=
  match fuel with
  | O => s
  | S fuel' =>
      if row <? y_end
      then fb_fill_rows fuel' (u16 (row + 1)) y_end x w color
             (fb_fill_cols (Z.to_nat w) row x (x + w) color s)
      else s
  end.

Definition fb_fill_rect (x y w h color : Z) (s : TFT7735V) : TFT7735V :=
  if is_null (current_framebuffer s) then s
  else if (x >=? width s) || (y >=? height s) then s
  else
    let w := if x + w >? width s then u16 (width s - x) else w in
    let h := if y + h >? height s then u16 (height s - y) else h in
    let s := fb_fill_rows (Z.to_nat h) y (y + h) x w color s in
    expand_dirty_rect x y w h s.

Definition fb_draw_fast_hline (x y w color : Z) (s : TFT7735V) : TFT7735V :=
  fb_fill_rect x y w 1 color s.

Definition fb_draw_fast_vline (x y h color : Z) (s : TFT7735V) : TFT7735V :=
  fb_fill_rect x y 1 h color s.

Definition fb_draw_rect (x y w h color : Z) (s : TFT7735V) : TFT7735V :=
  if is_null (current_framebuffer s) || (w =? 0) || (h =? 0) then s
  else
    let s := fb_draw_fast_hline x y w color s in
    let s := fb_draw_fast_hline x (u16 (y + h - 1)) w color s in
    if h >? 2 then
      let s := fb_draw_fast_vline x (u16 (y + 1)) (u16 (h - 2)) color s in
      fb_draw_fast_vline (u16 (x + w - 1)) (u16 (y + 1)) (u16 (h - 2)) color s
    else s.

(** What a rasterizer did to the current frame: [g px py] is the colour
    it left at [(px, py)], [None] where it left the pixel alone.  Nothing
    else of the object changes but the dirty rectangle. *)
Definition paints (g : Z -> Z -> option Z) (s s' : TFT7735V) : Prop :=
  exists F d,
    s' = set_dirty_rect d (fb_write F s) /\
    (forall fb, length (F fb) = length fb) /\
    forall fb px py,
      Z.of_nat (length fb) = width s * height s ->
      0 <= px < width s -> 0 <= py < height s ->
      nth_error (F fb) (Z.to_nat (py * width s + px))
      = match g px py with
        | Some c => Some c
        | None => nth_error fb (Z.to_nat (py * width s + px))
        end.

(** Later paint over earlier paint. *)
Definition paint_over (g1 g2 : Z -> Z -> option Z) (px py : Z) : option Z :=
  match g2 px py with Some c => Some c | None => g1 px py end.

Definition paint_rect (x y w h color : Z) (px py : Z) : option Z :=
  if (x <=? px) && (px <? x + w) && (y <=? py) && (py <? y + h) then Some color else None.

Definition paint_outline (x y w h color : Z) (px py : Z) : option Z :=
  if (x <=? px) && (px <? x + w) && (y <=? py) && (py <? y + h)
     && ((px =? x) || (px =? x + w - 1) || (py =? y) || (py =? y + h - 1))
  then Some color else None.

(** ** Colours *)

(** [color565(r, g, b)]: the operands are [uint8_t] promoted to [int], the
    result is converted to [uint16_t]. *)
Definition color565 (r g b : Z) : Z :=
  u16 (Z.lor (Z.lor (Z.shiftl (Z.land r 0xF8) 8) (Z.shiftl (Z.land g 0xFC) 3))
             (Z.shiftr b 3)).

(** ** Tear-down and framebuffer control *)

(** [free_double_buffering]: [None] when it stays blocked in
    [waitForDisplayDone].  The worker task it deletes is the one that
    reads the queue; with the queue gone [display_task_step] no longer
    runs. *)
Definition free_double_buffering (s : TFT7735V) : option TFT7735V :=
  match (if display_in_progress s then waitForDisplayDone s else Some s) with
  | None => None
  | Some s =>
      let s := set_display_done_semaphore None s in
      let s := set_display_queue None s in
      let s := set_sram_buffer_a None s in
      let s := set_sram_buffer_b None s in
      let s := set_display_in_progress false s in
      Some (set_display_done_flag true s)
  end.

(** [end()].  The device handle becomes null: every later transmit is
    refused; what was sent before stays sent. *)
Definition end_ (s : TFT7735V) : option TFT7735V :=
  if initialized s then
    match free_double_buffering (free_framebuffer s) with
    | None => None
    | Some s =>
        let s := set_spi_device
                   (mkDevice (spi_fault null_device) (spi_log (spi_device s))) s in
        Some (set_initialized false s)
    end
  else Some s.

Definition disableFramebuffer (s : TFT7735V) : TFT7735V :=
  free_framebuffer (set_framebuffer_enabled false s).

Definition enableFramebuffer (p : platform) (s : TFT7735V) : bool * TFT7735V :=
  if framebuffer_enabled s then (true, s)
  else
    let (ok, s) := init_framebuffer p s in
    if ok then
      let (ok, s) := init_double_buffering p s in
      if ok then (true, set_framebuffer_enabled true s)
      else (false, free_framebuffer s)
    else (false, s).

(** ** Direct mode: drawing straight to the panel *)

Definition u32 (z : Z) : Z := z mod 4294967296.

Definition write_data16 (data : Z) (s : TFT7735V) : TFT7735V :=
  let s := gpio_set_level_dc true s in
  snd (spi_device_polling_transmit
         (mkTrans 16 (USE_TXDATA [u8 (Z.shiftr data 8); u8 (Z.land data 255)])) s).

(** The [while (len > 0)] loop of [push_color]; [buffer] is the local array
    of 1024 swapped copies of the colour.  [fuel] bounds the recursion,
    [push_color] passes [len]. *)
Fixpoint push_color_loop (fuel : nat) (buffer : list Z) (len : Z) (s : TFT7735V)
  : TFT7735V :=
  match fuel with
  | O => s
  | S fuel' =>
      if len >? 0 then
        let current_chunk := if len >? 1024 then 1024 else len in
        let t := mkTrans (current_chunk * 16)
                         (TX_BUFFER (firstn (Z.to_nat current_chunk) buffer)) in
        let (ret, s) := spi_device_polling_transmit t s in
        if ret =? ESP_OK then push_color_loop fuel' buffer (len - current_chunk) s
        else s
      else s
  end.

Definition push_color (color len : Z) (s : TFT7735V) : TFT7735V :=
  let s := gpio_set_level_dc true s in
  push_color_loop (Z.to_nat len) (repeat (bswap16 color) 1024) len s.

(** The [while (remaining > 0)] loop of [push_colors]: each round copies up
    to 512 colours from [src], swapped, into the local array and sends
    them. *)
Fixpoint push_colors_loop (fuel : nat) (src : list Z) (remaining : Z) (s : TFT7735V)
  : TFT7735V :=
  match fuel with
  | O => s
  | S fuel' =>
      if remaining >? 0 then
        let current_chunk := if remaining >? 512 then 512 else remaining in
        let buffer := map bswap16 (firstn (Z.to_nat current_chunk) src) in
        let t := mkTrans (current_chunk * 16) (TX_BUFFER buffer) in
        let (ret, s) := spi_device_polling_transmit t s in
        if ret =? ESP_OK
        then push_colors_loop fuel' (skipn (Z.to_nat current_chunk) src)
               (remaining - current_chunk) s
        else s
      else s
  end.

Definition push_colors (colors : list Z) (len : Z) (s : TFT7735V) : TFT7735V :=
  let s := gpio_set_level_dc true s in
  push_colors_loop (Z.to_nat len) colors len s.

Definition fill_rect (x y w h color : Z) (s : TFT7735V) : TFT7735V :=
  if framebuffer_enabled s then fb_fill_rect x y w h color s
  else if (x >=? width s) || (y >=? height s) then s
  else
    let w := if x + w >? width s then u16 (width s - x) else w in
    let h := if y + h >? height s then u16 (height s - y) else h in
    let s := set_addr_window x y (u16 (x + w - 1)) (u16 (y + h - 1)) s in
    push_color color (u32 (w * h)) s.

Definition draw_pixel (x y color : Z) (s : TFT7735V) : TFT7735V :=
  if framebuffer_enabled s then fb_draw_pixel x y color s
  else if (x >=? width s) || (y >=? height s) then s
  else write_data16 color (set_addr_window x y x y s).

Definition fill_screen (color : Z) (s : TFT7735V) : TFT7735V :=
  if framebuffer_enabled s then fb_fill_screen color s
  else fill_rect 0 0 (width s) (height s) color s.

Definition draw_fast_vline (x y h color : Z) (s : TFT7735V) : TFT7735V :=
  if framebuffer_enabled s then fb_draw_fast_vline x y h color s
  else fill_rect x y 1 h color s.

Definition draw_fast_hline (x y w color : Z) (s : TFT7735V) : TFT7735V :=
  if framebuffer_enabled s then fb_draw_fast_hline x y w color s
  else fill_rect x y w 1 color s.

(** The pixel transactions the device accepted, oldest first: the words
    of each. *)
Definition pixel_transaction_of (e : spi_event) : list (list Z) :=
  match tx (ev_trans e) with
  | TX_BUFFER ws => if ev_dc e && (ev_ret e =? ESP_OK) then [ws] else []
  | USE_TXDATA _ => []
  end.

Definition pixel_transactions (s : TFT7735V) : list (list Z) :=
  flat_map pixel_transaction_of (spi_log (spi_device s)).

(** ** Rotation *)

(** [set_rotation(rotation)].  The [rotation] member it stores, read back
    by [getRotation] only, is not among the modelled members; its value
    [rotation % 4] selects the case.  [vTaskDelay] changes nothing here. *)
Definition set_rotation (rotation : Z) (s : TFT7735V) : TFT7735V :=
  let this_rotation := u8 (Z.rem rotation 4) in
  let madctl := 0x00 in
  let '(madctl, s) :=
    if this_rotation =? 0
    then (0x00, set_height ST7735_HEIGHT (set_width ST7735_WIDTH s))
    else if this_rotation =? 1
    then (0x60, set_height ST7735_WIDTH (set_width ST7735_HEIGHT s))
    else if this_rotation =? 2
    then (0xC0, set_height ST7735_HEIGHT (set_width ST7735_WIDTH s))
    else if this_rotation =? 3
    then (0xA0, set_height ST7735_WIDTH (set_width ST7735_HEIGHT s))
    else (madctl, s) in
  let s := write_command ST7735_MADCTL s in
  let s := write_data madctl s in
  set_addr_window 0 0 (u16 (width s - 1)) (u16 (height s - 1)) s.

(** The command and argument bytes handed to the device, in order, each
    with the level of the D/C line it went out with. *)
Definition control_bytes_of (e : spi_event) : list (bool * Z) :=
  match tx (ev_trans e) with
  | USE_TXDATA bs => map (fun b => (ev_dc e, b)) bs
  | TX_BUFFER _ => []
  end.

Definition control_bytes (s : TFT7735V) : list (bool * Z) :=
  flat_map control_bytes_of (spi_log (spi_device s)).

Definition command (c : Z) : bool * Z := (false, c).
Definition argument (b : Z) : bool * Z := (true, b).

(** The offset [set_addr_window] adds to a coordinate. *)
Definition window_offset (o : Z) : Z := if o >=? 0 then u16 o else 0.

(** A 16-bit value as the two argument bytes it is sent as, high first. *)
Definition high_low (v : Z) : list (bool * Z) :=
  [argument (u8 (Z.shiftr v 8)); argument (u8 (Z.land v 255))].

(** The eleven bytes that set the address window [sx0..sx1] x [sy0..sy1]
    and open the memory write. *)
Definition window_bytes (sx0 sy0 sx1 sy1 : Z) : list (bool * Z) :=
  command ST7735_CASET :: high_low sx0 ++ high_low sx1
  ++ command ST7735_RASET :: high_low sy0 ++ high_low sy1
  ++ [command ST7735_RAMWR].

(** From [s] to [s'] only I/O fields changed and the device was handed the
    control bytes [bs] more. *)
Definition control_sent (bs : list (bool * Z)) (s s' : TFT7735V) : Prop :=
  io_only s s' /\ control_bytes s' = control_bytes s ++ bs.

(** ** More demo objects *)

(** The frame [begin] leaves in each buffer on the demo platform. *)
Definition demo_frame : list Z := memset_zero (demo_block 20480 0xBEEF).

(** A platform on which the worker task cannot be created. *)
Definition no_task_platform : platform :=
  mkPlatform ESP_OK ESP_OK no_fault
    (Some (demo_block 20480 0xBEEF)) (Some (demo_block 20480 0xBEEF))
    (Some (demo_block 20480 0xBEEF))
    (Some (demo_block 4096 0x1234)) (Some (demo_block 4096 0x1234))
    true true false.

(** The demo object after [begin] with [garbage] in its dirty rectangle. *)
Definition demo_begun_with (garbage : dirty_rect_t) : TFT7735V :=
  snd (begin (demo_platform no_fault) (TFT7735V_constructor garbage)).


Definition swapped_demo : TFT7735V := swapBuffers (demo_begun no_fault).

Definition direct_demo : TFT7735V := disableFramebuffer (demo_begun no_fault).

Definition ended_demo : TFT7735V :=
  match end_ (demo_begun no_fault) with
  | Some s => s
  | None => demo_begun no_fault
  end.



(** The demo object re-initialised in two ways: after [swapBuffers()],
    [disableFramebuffer()] and [enableFramebuffer()]; and after a present
    run to completion, [end()] and a second [begin]. *)
Definition reenabled_demo : TFT7735V :=
  snd (enableFramebuffer (demo_platform no_fault) (disableFramebuffer swapped_demo)).

Definition ended_after_present_demo : TFT7735V :=
  match end_ (present (demo_begun no_fault)) with
  | Some s => s
  | None => present (demo_begun no_fault)
  end.

Definition rebegun_demo : TFT7735V :=
  snd (begin (demo_platform no_fault) ended_after_present_demo).

(** ** Lines *)






(** ** Characters *)









(** A block painted with [v], or left alone. *)
Definition cell_paint (draws : bool) (v x y w h : Z) (px py : Z) : option Z :=
  if draws then paint_rect x y w h v px py else None.



(** * Proof tools *)

(** Projections through field updates, and nothing else. *)
Ltac tft_simpl :=
  cbn [initialized width height x_offset y_offset dc_pin_level spi_device framebuffer_a
       framebuffer_b framebuffer_c current_framebuffer buffer_states render_buffer_idx
       transfer_buffer_idx framebuffer_enabled sram_buffer_a sram_buffer_b display_queue
       display_done_semaphore display_in_progress display_done_flag current_chunk
       total_chunks dirty_rect dirty_rect_enabled force_full_redraw set_initialized
       set_dc_pin_level set_spi_device set_framebuffer_a set_framebuffer_b
       set_framebuffer_c set_current_framebuffer set_buffer_states set_render_buffer_idx
       set_transfer_buffer_idx set_framebuffer_enabled set_sram_buffer_a set_sram_buffer_b
       set_display_queue set_display_done_semaphore set_display_in_progress
       set_display_done_flag set_current_chunk set_dirty_rect set_dirty_rect_enabled
       set_force_full_redraw set_width set_height with_io gpio_set_level_dc release_buffer
       signal_done clearDirty forceFullRedraw xSemaphoreGive xSemaphoreTake_nowait
       update_current_framebuffer swap_for_transfer fst snd].


Ltac destruct_tft s :=
  destruct s as [ini wd ht xo yo dcl dev fba fbb fbc cfb sts ridx tidx fben sra srb
                 dq sem prog done cchunk tchunks drect den force].

Ltac idx_cases i :=
  let H := fresh in
  assert (H : i = 0 \/ i = 1 \/ i = 2) by lia;
  destruct H as [H | [H | H]]; subst i.

(** * The transfer routines only touch the I/O fields *)

Lemma io_only_refl : forall s, io_only s s.
Proof.
  intros s. exists (sram_buffer_a s), (sram_buffer_b s), (spi_device s), (dc_pin_level s).
  destruct s; repeat split.
Qed.

Lemma io_only_trans : forall s1 s2 s3, io_only s1 s2 -> io_only s2 s3 -> io_only s1 s3.
Proof.
  intros s1 s2 s3 (a & b & dev & dc & -> & La & Lb & F)
    (a' & b' & dev' & dc' & -> & La' & Lb' & F').
  exists a', b', dev', dc'. repeat split.
  - rewrite La'. exact La.
  - rewrite Lb'. exact Lb.
  - rewrite F'. exact F.
Qed.

Lemma io_only_set_dc : forall v s, io_only s (set_dc_pin_level v s).
Proof.
  intros v s. exists (sram_buffer_a s), (sram_buffer_b s), (spi_device s), v.
  destruct s; repeat split.
Qed.

Lemma length_bswap_range : forall buf off n, length (bswap_range off n buf) = length buf.
Proof.
  induction buf as [|v r IH]; intros off n; cbn [bswap_range length].
  - reflexivity.
  - destruct off as [|off']; [destruct n as [|n']|]; cbn [length]; rewrite ?IH; reflexivity.
Qed.

Lemma length_overwrite : forall data target, length (overwrite data target) = length target.
Proof.
  induction data as [|d ds IH]; intros target; destruct target as [|t ts];
    cbn [overwrite length]; rewrite ?IH; reflexivity.
Qed.

Lemma io_only_sram_update : forall p f s,
  (forall buf, length (f buf) = length buf) -> io_only s (sram_update p f s).
Proof.
  intros p f s Hlen. destruct p.
  - exists (option_map f (sram_buffer_a s)), (sram_buffer_b s), (spi_device s),
      (dc_pin_level s).
    destruct s as [? ? ? ? ? ? ? ? ? ? ? ? ? ? ? sra ? ? ? ? ? ? ? ? ? ?].
    repeat split. destruct sra; cbn; rewrite ?Hlen; reflexivity.
  - exists (sram_buffer_a s), (option_map f (sram_buffer_b s)), (spi_device s),
      (dc_pin_level s).
    destruct s as [? ? ? ? ? ? ? ? ? ? ? ? ? ? ? ? srb ? ? ? ? ? ? ? ? ?].
    repeat split. destruct srb; cbn; rewrite ?Hlen; reflexivity.
Qed.

Lemma io_only_bswap_in_place : forall buffer off n s,
  io_only s (bswap_in_place buffer off n s).
Proof.
  intros. apply io_only_sram_update. intros buf. apply length_bswap_range.
Qed.

Lemma io_only_memcpy : forall buffer data s,
  io_only s (sram_update buffer (overwrite data) s).
Proof.
  intros. apply io_only_sram_update. intros buf. apply length_overwrite.
Qed.

Lemma io_only_transmit : forall t s, io_only s (snd (spi_device_polling_transmit t s)).
Proof.
  intros t s. unfold spi_device_polling_transmit. cbv zeta. cbn [snd].
  exists (sram_buffer_a s), (sram_buffer_b s),
    (mkDevice (spi_fault (spi_device s))
       (spi_log (spi_device s)
        ++ [mkEvent (dc_pin_level s) t
              (spi_fault (spi_device s) (length (spi_log (spi_device s))))])),
    (dc_pin_level s).
  destruct s; repeat split.
Qed.

Lemma io_only_write_command : forall c s, io_only s (write_command c s).
Proof.
  intros c s. unfold write_command.
  eapply io_only_trans; [apply io_only_set_dc | apply io_only_transmit].
Qed.

Lemma io_only_write_data : forall c s, io_only s (write_data c s).
Proof.
  intros c s. unfold write_data.
  eapply io_only_trans; [apply io_only_set_dc | apply io_only_transmit].
Qed.

Ltac io_chain :=
  repeat lazymatch goal with
    | |- io_only _ (write_command _ _) =>
        eapply io_only_trans; [ | apply io_only_write_command ]
    | |- io_only _ (write_data _ _) =>
        eapply io_only_trans; [ | apply io_only_write_data ]
    end;
  apply io_only_refl.

Lemma io_only_set_addr_window : forall x0 y0 x1 y1 s,
  io_only s (set_addr_window x0 y0 x1 y1 s).
Proof. intros. unfold set_addr_window. cbv zeta. io_chain. Qed.

Lemma io_only_init_sequence : forall s, io_only s (init_sequence s).
Proof. intros. unfold init_sequence. cbv zeta. io_chain. Qed.

Lemma io_only_send_chunk_loop : forall fuel buffer total off s,
  io_only s (send_chunk_loop fuel buffer total off s).
Proof.
  induction fuel as [|fuel IH]; intros buffer total off s; cbn [send_chunk_loop]; cbv zeta.
  - apply io_only_refl.
  - destruct (off <? total); [|apply io_only_refl].
    match goal with
    | |- context [spi_device_polling_transmit ?t ?s1] =>
        pose proof (io_only_transmit t s1) as Ht;
        destruct (spi_device_polling_transmit t s1) as [ret s2]
    end.
    cbn [snd] in Ht.
    assert (Hs2 : io_only s s2).
    { eapply io_only_trans; [|exact Ht]. apply io_only_bswap_in_place. }
    destruct (negb (ret =? ESP_OK)); [exact Hs2|].
    eapply io_only_trans; [|apply IH].
    eapply io_only_trans; [exact Hs2|apply io_only_bswap_in_place].
Qed.

Lemma io_only_send_dirty_rows : forall n buffer oy dx dw row s,
  io_only s (send_dirty_rows n buffer oy dx dw row s).
Proof.
  induction n as [|n IH]; intros buffer oy dx dw row s; cbn [send_dirty_rows]; cbv zeta.
  - apply io_only_refl.
  - match goal with
    | |- context [spi_device_polling_transmit ?t ?s1] =>
        pose proof (io_only_transmit t s1) as Ht;
        destruct (spi_device_polling_transmit t s1) as [ret s2]
    end.
    cbn [snd] in Ht.
    assert (Hs2 : io_only s s2).
    { eapply io_only_trans; [|exact Ht]. apply io_only_bswap_in_place. }
    destruct (negb (ret =? ESP_OK)).
    + eapply io_only_trans; [exact Hs2|apply io_only_bswap_in_place].
    + eapply io_only_trans; [|apply IH].
      eapply io_only_trans; [exact Hs2|apply io_only_bswap_in_place].
Qed.

Lemma io_only_send_chunk_to_display : forall buffer k hgt s,
  io_only s (send_chunk_to_display buffer k hgt s).
Proof.
  intros. unfold send_chunk_to_display.
  destruct (negb (initialized s) || is_null (sram_read buffer s)); [apply io_only_refl|].
  cbv zeta. eapply io_only_trans; [|apply io_only_send_chunk_loop].
  eapply io_only_trans; [apply io_only_set_addr_window|apply io_only_set_dc].
Qed.

Lemma io_only_send_dirty_chunk_to_display : forall buffer k hgt d s,
  io_only s (send_dirty_chunk_to_display buffer k hgt d s).
Proof.
  intros. unfold send_dirty_chunk_to_display.
  destruct (negb (initialized s) || is_null (sram_read buffer s)); [apply io_only_refl|].
  cbv zeta.
  match goal with |- context [if ?c then _ else _] => destruct c end;
    [apply io_only_refl|].
  eapply io_only_trans; [|apply io_only_send_dirty_rows].
  eapply io_only_trans; [apply io_only_set_addr_window|apply io_only_set_dc].
Qed.

Lemma io_only_copy_chunk_and_send : forall k src s,
  io_only s (copy_chunk_and_send k src s).
Proof.
  intros. unfold copy_chunk_and_send.
  destruct (negb (initialized s)); [apply io_only_refl|].
  destruct (framebuffer_at src s) as [[fb|]|]; try apply io_only_refl.
  cbv zeta.
  eapply io_only_trans; [apply io_only_memcpy|apply io_only_send_chunk_to_display].
Qed.

Lemma io_only_copy_dirty_chunk_and_send : forall k src d s,
  io_only s (copy_dirty_chunk_and_send k src d s).
Proof.
  intros. unfold copy_dirty_chunk_and_send.
  destruct (negb (initialized s)); [apply io_only_refl|].
  destruct (framebuffer_at src s) as [[fb|]|]; try apply io_only_refl.
  cbv zeta.
  match goal with |- context [if ?c then _ else _] => destruct c end;
    [apply io_only_refl|].
  eapply io_only_trans;
    [apply io_only_memcpy|apply io_only_send_dirty_chunk_to_display].
Qed.

Lemma io_only_process_chunk : forall msg s, io_only s (process_chunk msg s).
Proof.
  intros. unfold process_chunk.
  destruct (Msg.use_dirty_rect msg && Rect.valid (Msg.dirty_rect msg)).
  - apply io_only_copy_dirty_chunk_and_send.
  - apply io_only_copy_chunk_and_send.
Qed.

(** * The coordinator invariant *)

Lemma xQueueSend_ok : forall msg s q,
  display_queue s = Some q -> Z.of_nat (length q) < DISPLAY_QUEUE_LENGTH ->
  xQueueSend msg s = (true, set_display_queue (Some (q ++ [msg])) s).
Proof.
  intros msg s q Hq Hlen. unfold xQueueSend. rewrite Hq.
  destruct (Z.ltb_spec (Z.of_nat (length q)) DISPLAY_QUEUE_LENGTH); [reflexivity|lia].
Qed.

(** The buffer swap of [display] on a state array with one rendering buffer
    and no transfer. *)
Lemma swap_for_transfer_states : forall a b c r,
  0 <= r < 3 ->
  state_at [a; b; c] r = BUFFER_STATE_RENDERING ->
  count_state BUFFER_STATE_RENDERING [a; b; c] = 1%nat ->
  count_state BUFFER_STATE_TRANSFERRING [a; b; c] = 0%nat ->
  let n := find_idle [a; b; c] in
  let l' := state_set (state_set [a; b; c] r BUFFER_STATE_TRANSFERRING) n
              BUFFER_STATE_RENDERING in
  0 <= n < 3 /\
  (exists a' b' c', l' = [a'; b'; c']) /\
  state_at l' n = BUFFER_STATE_RENDERING /\
  count_state BUFFER_STATE_RENDERING l' = 1%nat /\
  state_at l' r = BUFFER_STATE_TRANSFERRING /\
  count_state BUFFER_STATE_TRANSFERRING l' = 1%nat.
Proof.
  intros a b c r Hr Hat HcR HcT.
  idx_cases r; destruct a, b, c; vm_compute in Hat, HcR, HcT; try discriminate;
    vm_compute; repeat split; try discriminate; do 3 eexists; reflexivity.
Qed.

Lemma swapBuffers_states : forall a b c r,
  0 <= r < 3 ->
  state_at [a; b; c] r = BUFFER_STATE_RENDERING ->
  count_state BUFFER_STATE_RENDERING [a; b; c] = 1%nat ->
  let n := find_idle [a; b; c] in
  n = 255 \/
  let l' := state_set (state_set [a; b; c] n BUFFER_STATE_RENDERING) r
              BUFFER_STATE_IDLE in
  0 <= n < 3 /\
  (exists a' b' c', l' = [a'; b'; c']) /\
  state_at l' n = BUFFER_STATE_RENDERING /\
  count_state BUFFER_STATE_RENDERING l' = 1%nat /\
  count_state BUFFER_STATE_TRANSFERRING l'
    = count_state BUFFER_STATE_TRANSFERRING [a; b; c] /\
  forall i, 0 <= i < 3 -> state_at [a; b; c] i = BUFFER_STATE_TRANSFERRING ->
            state_at l' i = BUFFER_STATE_TRANSFERRING.
Proof.
  intros a b c r Hr Hat HcR.
  idx_cases r; destruct a, b, c; vm_compute in Hat, HcR; try discriminate;
    try (left; reflexivity); right;
    (repeat split; try (vm_compute; discriminate); try reflexivity;
     [do 3 eexists; reflexivity
     | intros i Hi; idx_cases i; vm_compute; intros; congruence]).
Qed.

Lemma release_states : forall a b c r i,
  0 <= r < 3 -> 0 <= i < 3 ->
  state_at [a; b; c] r = BUFFER_STATE_RENDERING ->
  count_state BUFFER_STATE_RENDERING [a; b; c] = 1%nat ->
  state_at [a; b; c] i = BUFFER_STATE_TRANSFERRING ->
  count_state BUFFER_STATE_TRANSFERRING [a; b; c] = 1%nat ->
  let l' := state_set [a; b; c] i BUFFER_STATE_IDLE in
  (exists a' b' c', l' = [a'; b'; c']) /\
  state_at l' r = BUFFER_STATE_RENDERING /\
  count_state BUFFER_STATE_RENDERING l' = 1%nat /\
  count_state BUFFER_STATE_TRANSFERRING l' = 0%nat.
Proof.
  intros a b c r i Hr Hi Hat HcR Hti HcT.
  idx_cases r; idx_cases i; destruct a, b, c;
    vm_compute in Hat, HcR, Hti, HcT; try discriminate;
    vm_compute; repeat split; do 3 eexists; reflexivity.
Qed.

Lemma display_inv : forall s, coordinator_inv s -> coordinator_inv (display s).
Proof.
  intros s Hinv.
  unfold display, display_traced.
  destruct (negb (framebuffer_enabled s) || is_null (current_framebuffer s)); [exact Hinv|].
  destruct (negb (initialized s)); [exact Hinv|].
  destruct (display_in_progress s) eqn:Hprog; [exact Hinv|].
  destruct (is_null (display_queue s)); [exact Hinv|].
  destruct (find_idle (buffer_states s) =? 255) eqn:Hidle; [exact Hinv|].
  destruct Hinv as (a & b & c & q & Hst & Hr & Hat & HcR & Hq & Hrest).
  rewrite Hprog in Hrest. destruct Hrest as [-> HcT].
  cbv zeta.
  erewrite xQueueSend_ok; [|tft_simpl; exact Hq|cbn; unfold DISPLAY_QUEUE_LENGTH; lia].
  rewrite Hst in *.
  destruct (swap_for_transfer_states a b c _ Hr Hat HcR HcT)
    as (Hn & (a' & b' & c' & Hl') & Hatn & HcR' & Hatr & HcT').
  unfold coordinator_inv. tft_simpl. rewrite Hst.
  exists a', b', c'. eexists.
  repeat split; try eassumption; try lia.
  eexists; split; [reflexivity|].
  unfold first_message.
  match goal with |- context [if ?c then calculate_dirty_chunks ?d ?s else ?e] =>
    destruct (if c then calculate_dirty_chunks d s else e) as [[n1 n2] n3] end.
  cbn [Msg.source_buffer_idx]. tft_simpl. repeat split; try assumption; lia.
Qed.

Lemma swapBuffers_inv : forall s, coordinator_inv s -> coordinator_inv (swapBuffers s).
Proof.
  intros s Hinv. unfold swapBuffers.
  destruct (negb (framebuffer_enabled s)); [exact Hinv|].
  destruct (find_idle (buffer_states s) =? 255) eqn:Hidle; [exact Hinv|].
  destruct Hinv as (a & b & c & q & Hst & Hr & Hat & HcR & Hq & Hrest).
  cbv zeta. rewrite Hst in *.
  destruct (swapBuffers_states a b c _ Hr Hat HcR) as [H255|H].
  { rewrite H255 in Hidle. discriminate. }
  cbv zeta in H.
  destruct H as (Hn & (a' & b' & c' & Hl') & Hatn & HcR' & HcT' & Hkeep).
  unfold coordinator_inv. tft_simpl. rewrite Hst.
  exists a', b', c', q.
  repeat split; try eassumption; try lia.
  destruct (display_in_progress s).
  - destruct Hrest as (msg & -> & Hsrc & Hatsrc & HcT).
    exists msg. repeat split; try lia;
      try (apply Hkeep; assumption); try (rewrite HcT'; exact HcT).
  - destruct Hrest as [-> HcT]. split; [reflexivity|]. rewrite HcT'. exact HcT.
Qed.

Lemma process_chunk_inv : forall msg s,
  coordinator_inv s -> coordinator_inv (process_chunk msg s).
Proof.
  intros msg s Hinv.
  destruct (io_only_process_chunk msg s) as (a & b & dev & dc & -> & _).
  exact Hinv.
Qed.

Lemma display_task_inv : forall s s',
  coordinator_inv s -> display_task_step s = Some s' -> coordinator_inv s'.
Proof.
  intros s s' Hinv Hstep. unfold display_task_step in Hstep.
  destruct Hinv as (a & b & c & q & Hst & Hr & Hat & HcR & Hq & Hrest).
  rewrite Hq in Hstep. destruct q as [|msg q]; [discriminate|].
  injection Hstep as <-.
  destruct (display_in_progress s) eqn:Hprog; [|destruct Hrest; discriminate].
  destruct Hrest as (msg' & Heq & Hsrc & Hatsrc & HcT).
  injection Heq as <- ->.
  unfold display_task_body.
  destruct (io_only_process_chunk msg (set_display_queue (Some []) s))
    as (ba & bb & dev & dc & -> & _).
  rewrite Hst in *.
  destruct (release_states a b c _ _ Hr Hsrc Hat HcR Hatsrc HcT)
    as ((a' & b' & c' & Hl') & Hatr' & HcR' & HcT').
  assert (Hdone : forall t,
    buffer_states t = state_set [a; b; c] (Msg.source_buffer_idx msg) BUFFER_STATE_IDLE ->
    render_buffer_idx t = render_buffer_idx s ->
    display_queue t = Some [] ->
    coordinator_inv (signal_done t)).
  { intros t Ht1 Ht2 Ht3. unfold coordinator_inv. tft_simpl.
    rewrite Ht1, Ht2, Ht3. exists a', b', c', [].
    repeat split; try eassumption; try lia. }
  unfold after_chunk.
  destruct (Msg.is_last_chunk msg).
  { apply Hdone; tft_simpl; rewrite ?Hst; reflexivity. }
  cbv zeta.
  destruct (negb (next_is_last msg _)).
  2: { apply Hdone; tft_simpl; rewrite ?Hst; reflexivity. }
  erewrite xQueueSend_ok;
    [|tft_simpl; reflexivity|cbn; unfold DISPLAY_QUEUE_LENGTH; lia].
  unfold coordinator_inv. tft_simpl. rewrite Hst, Hprog.
  exists a, b, c. eexists.
  repeat split; try eassumption; try lia.
  eexists; split; [reflexivity|].
  cbn [Msg.source_buffer_idx]. repeat split; try assumption; lia.
Qed.

Lemma expand_dirty_rect_inv : forall x y w h s,
  coordinator_inv s -> coordinator_inv (expand_dirty_rect x y w h s).
Proof.
  intros x y w h s Hinv. unfold expand_dirty_rect.
  repeat match goal with
         | |- context [if ?c then _ else _] => destruct c
         end; exact Hinv.
Qed.

Lemma fb_write_inv : forall f s, coordinator_inv s -> coordinator_inv (fb_write f s).
Proof.
  intros f s Hinv. unfold fb_write.
  destruct (current_framebuffer s) as [i|]; [|exact Hinv].
  destruct (i =? 0); [exact Hinv|].
  destruct (i =? 1); [exact Hinv|].
  destruct (i =? 2); exact Hinv.
Qed.

Lemma step_inv : forall s s', coordinator_inv s -> step s s' -> coordinator_inv s'.
Proof.
  intros s s' Hinv Hstep. destruct Hstep.
  - apply display_inv; assumption.
  - apply swapBuffers_inv; assumption.
  - unfold waitForDisplayDone in H.
    destruct (display_done_semaphore s) as [av|]; [|injection H as <-; assumption].
    destruct (display_in_progress s) eqn:Hp; [|injection H as <-; assumption].
    destruct av; [|discriminate]. injection H as <-.
    unfold coordinator_inv in *. tft_simpl. rewrite Hp in *. exact Hinv.
  - eapply display_task_inv; eassumption.
  - apply expand_dirty_rect_inv; exact Hinv.
  - unfold fb_draw_pixel.
    destruct ((x >=? width s) || (y >=? height s) || is_null (current_framebuffer s));
      [exact Hinv|].
    cbv zeta. apply expand_dirty_rect_inv. apply fb_write_inv. exact Hinv.
  - unfold fb_fill_screen.
    destruct (is_null (current_framebuffer s)); [exact Hinv|].
    cbv zeta. apply expand_dirty_rect_inv. apply fb_write_inv. exact Hinv.
  - exact Hinv.
  - exact Hinv.
  - unfold enableDirtyRect. destruct enable; exact Hinv.
Qed.

Lemma coordinator_inv_I1 : forall s, coordinator_inv s -> I1 s.
Proof.
  intros s (a & b & c & q & Hst & Hr & Hat & HcR & Hq & Hrest).
  unfold I1. rewrite Hst in *.
  assert (HcT : count_state BUFFER_STATE_TRANSFERRING [a; b; c] = 0%nat \/
                count_state BUFFER_STATE_TRANSFERRING [a; b; c] = 1%nat).
  { destruct (display_in_progress s).
    - destruct Hrest as (msg & _ & _ & _ & H). right; exact H.
    - destruct Hrest as [_ H]. left; exact H. }
  clear Hrest Hat.
  split; [reflexivity|]. split; [exact HcR|].
  destruct a, b, c; vm_compute in HcR; try discriminate;
    destruct HcT as [HcT|HcT]; vm_compute in HcT; try discriminate;
    vm_compute; auto.
Qed.

Lemma begin_inv : forall p g s0,
  begin p (TFT7735V_constructor g) = (true, s0) -> coordinator_inv s0.
Proof.
  intros [r1 r2 fault pa pb pc sa sb qok semok tok] g s0.
  unfold begin, init_framebuffer, init_double_buffering. cbn.
  destruct (r1 =? ESP_OK); cbn; [|discriminate].
  destruct (r2 =? ESP_OK); cbn; [|discriminate].
  destruct pa as [a|]; cbn; [|discriminate].
  destruct pb as [b|]; cbn; [|discriminate].
  destruct pc as [c|]; cbn; [|discriminate].
  destruct sa as [a'|]; cbn; [|discriminate].
  destruct sb as [b'|]; cbn; [|discriminate].
  destruct qok; cbn; [|discriminate].
  destruct semok; cbn; [|discriminate].
  destruct tok; cbn; [|discriminate].
  intros H. inversion H; subst; clear H.
  unfold coordinator_inv. cbn.
  exists BUFFER_STATE_RENDERING, BUFFER_STATE_IDLE, BUFFER_STATE_IDLE, [].
  repeat split; try reflexivity; try lia.
Qed.

Lemma steps_inv : forall s s', coordinator_inv s -> steps s s' -> coordinator_inv s'.
Proof.
  intros s s' Hinv Hsteps. induction Hsteps as [|s s' s'' _ IH Hstep].
  - exact Hinv.
  - eapply step_inv; [apply IH; exact Hinv|exact Hstep].
Qed.

Lemma reachable_inv : forall s, reachable s -> coordinator_inv s.
Proof.
  intros s (p & g & s0 & Hbegin & Hsteps).
  eapply steps_inv; [eapply begin_inv; exact Hbegin|exact Hsteps].
Qed.

Lemma find_idle_none : forall l,
  (forall i, 0 <= i < 3 -> state_at l i <> BUFFER_STATE_IDLE) -> find_idle l = 255.
Proof.
  intros l H. unfold find_idle. cbn [find_idle_from].
  pose proof (H 0 ltac:(lia)) as H0.
  pose proof (H 1 ltac:(lia)) as H1.
  pose proof (H 2 ltac:(lia)) as H2.
  change (0 + 1) with 1. change (1 + 1) with 2.
  destruct (state_at l 0); try congruence;
    destruct (state_at l 1); try congruence;
    destruct (state_at l 2); try congruence; reflexivity.
Qed.

(** * Present coordinator: claims C9, C10 *)

(** Along the steps of the steady state, from a first [begin] on: after
    every [display], [swapBuffers], [waitForDisplayDone], dirty-rectangle
    call and every iteration of the transfer worker, exactly one of the
    three buffers is RENDERING, at most one is TRANSFERRING and the others
    are IDLE. *)
Lemma buffer_states_invariant_I1 : forall s, reachable s -> I1 s.
Proof.
  intros s Hreach. apply coordinator_inv_I1. apply reachable_inv. exact Hreach.
Qed.

Lemma demo_begin_succeeds : forall fault,
  begin (demo_platform fault) (TFT7735V_constructor (Rect.mk 0 0 0 0 false))
  = (true, demo_begun fault).
Proof.
  intros fault. unfold demo_begun.
  assert (Hok : fst (begin (demo_platform fault)
                           (TFT7735V_constructor (Rect.mk 0 0 0 0 false))) = true)
    by (vm_compute; reflexivity).
  destruct (begin (demo_platform fault) (TFT7735V_constructor (Rect.mk 0 0 0 0 false)))
    as [ok s0].
  cbn [fst snd] in *. rewrite Hok. reflexivity.
Qed.

(** C9.  [display()] called when no buffer is IDLE leaves by a [return]
    that is not the started one and changes nothing: the whole object, so
    the buffer states, the render index, [current_framebuffer], the dirty
    rectangle, the completion flags and the queue, is as before; when the
    earlier guards pass the [return] taken is the "No idle buffer
    available for swap" one. *)
Theorem display_without_idle_buffer : forall s,
  no_idle_buffer s ->
  display s = s /\
  fst (display_traced s) <> exit_started /\
  (framebuffer_enabled s = true -> current_framebuffer s <> None ->
   initialized s = true -> display_in_progress s = false ->
   display_queue s <> None ->
   fst (display_traced s) = exit_no_idle_buffer).
Proof.
  intros s H. apply find_idle_none in H.
  unfold display, display_traced. rewrite H.
  change (255 =? 255) with true.
  destruct (framebuffer_enabled s), (current_framebuffer s), (initialized s),
    (display_in_progress s), (display_queue s);
    cbn; repeat split; try congruence; intros; congruence.
Qed.

(** C10.  [display()] called while [display_in_progress] is set returns
    without starting anything and leaves the whole object as it is; and in
    every reachable state with a present in progress there is exactly one
    message in the queue, so one job chain at most is in flight. *)
Theorem display_while_in_progress : forall s,
  display_in_progress s = true ->
  display s = s /\
  fst (display_traced s) <> exit_started /\
  (reachable s -> exists msg, display_queue s = Some [msg]).
Proof.
  intros s Hprog. unfold display, display_traced. rewrite Hprog.
  destruct (negb (framebuffer_enabled s) || is_null (current_framebuffer s));
    [|destruct (negb (initialized s))];
    cbn; (split; [reflexivity|]); (split; [discriminate|]);
    intros Hreach; apply reachable_inv in Hreach;
    destruct Hreach as (a & b & c & q & _ & _ & _ & _ & Hq & Hrest);
    rewrite Hprog in Hrest; destruct Hrest as (msg & -> & _);
    exists msg; exact Hq.
Qed.

(** * Dirty accumulator: claim C5 *)

Lemma u16_small : forall z, 0 <= z < 65536 -> u16 z = z.
Proof. intros. unfold u16. apply Z.mod_small. lia. Qed.

Lemma u8_small : forall z, 0 <= z < 256 -> u8 z = z.
Proof. intros. unfold u8. apply Z.mod_small. lia. Qed.

Ltac u16_elim :=
  repeat match goal with
         | |- context [u16 ?e] => rewrite (u16_small e) by lia
         end.

(** One call follows the union rule and touches nothing but the rectangle. *)
Lemma expand_dirty_rect_step : forall s x y w h,
  dirty_rect_enabled s = true ->
  0 <= width s < 65536 -> 0 <= height s < 65536 ->
  uint16_call (x, y, w, h) ->
  (Rect.valid (dirty_rect s) = true -> rect_on_screen (width s) (height s) (dirty_rect s)) ->
  expand_dirty_rect x y w h s
  = set_dirty_rect (mark_spec (width s) (height s) (dirty_rect s) (x, y, w, h)) s /\
  (Rect.valid (mark_spec (width s) (height s) (dirty_rect s) (x, y, w, h)) = true ->
   rect_on_screen (width s) (height s)
     (mark_spec (width s) (height s) (dirty_rect s) (x, y, w, h))).
Proof.
  intros s x y w h Hen HW HH (Hx & Hy & Hw & Hh) Hd.
  unfold expand_dirty_rect, mark_spec, clip_to_screen, union_rule, rect_on_screen in *.
  rewrite Hen. cbn [negb].
  destruct (dirty_rect s) as [dx dy dw dh dv] eqn:Ed. cbn [Rect.x Rect.y Rect.w Rect.h Rect.valid] in *.
  assert (Hset : s = set_dirty_rect (dirty_rect s) s) by (destruct s; reflexivity).
  destruct (Z.geb_spec x (width s)), (Z.geb_spec y (height s)); cbn [orb].
  1-3: destruct (Z.leb_spec (Z.min w (width s - x)) 0), (Z.leb_spec (Z.min h (height s - y)) 0);
       cbn [orb]; try lia; (split; [rewrite <- Ed; exact Hset|exact Hd]).
  destruct (Z.gtb_spec (x + w) (width s)), (Z.gtb_spec (y + h) (height s));
    u16_elim.
  all: destruct (Z.eqb_spec (width s - x) 0), (Z.eqb_spec (height s - y) 0),
        (Z.eqb_spec w 0), (Z.eqb_spec h 0); cbn [orb]; try lia.
  all: destruct (Z.leb_spec (Z.min w (width s - x)) 0), (Z.leb_spec (Z.min h (height s - y)) 0);
       cbn [orb]; try lia.
  all: try (split; [rewrite <- Ed; exact Hset|exact Hd]).
  all: destruct dv; cbn [negb].
  all: try specialize (Hd eq_refl).
  all: u16_elim.
  all: split; [f_equal; f_equal; lia | intros _; cbn [Rect.x Rect.y Rect.w Rect.h]; lia].
Qed.

Lemma mark_all_spec : forall calls s,
  dirty_rect_enabled s = true ->
  0 <= width s < 65536 -> 0 <= height s < 65536 ->
  Forall uint16_call calls ->
  (Rect.valid (dirty_rect s) = true -> rect_on_screen (width s) (height s) (dirty_rect s)) ->
  mark_all calls s
  = set_dirty_rect (fold_left (mark_spec (width s) (height s)) calls (dirty_rect s)) s.
Proof.
  induction calls as [|[[[x y] w] h] calls IH]; intros s Hen HW HH Hcalls Hd.
  - destruct s; reflexivity.
  - inversion Hcalls as [|c cs Hc Hcs]; subst.
    destruct (expand_dirty_rect_step s x y w h Hen HW HH Hc Hd) as [Heq Hd'].
    unfold mark_all in *. cbn [fold_left mark_dirty]. rewrite Heq.
    rewrite IH; tft_simpl; try assumption.
    reflexivity.
Qed.

Lemma mark_spec_represents : forall W H d P c,
  uint16_call c ->
  represents W H d P ->
  represents W H (mark_spec W H d c)
    (fun px py => P px py \/ touches W H c px py).
Proof.
  intros W H d P [[[x y] w] h] (Hx & Hy & Hw & Hh) Hrep.
  unfold mark_spec, clip_to_screen.
  destruct (Z.leb_spec (Z.min w (W - x)) 0) as [Hw0|Hw0];
    [|destruct (Z.leb_spec (Z.min h (H - y)) 0) as [Hh0|Hh0]]; cbn [orb].
  1-2: unfold represents in *; destruct (Rect.valid d).
  1,3: destruct Hrep as [[Hcov Htight] Hon]; split; [split|exact Hon].
  1,3: intros px py [HP|Ht]; [apply Hcov; exact HP|exfalso].
  1,2: cbv beta iota delta [touches] in Ht; lia.
  1,2: intros x0 y0 x1 y1 Hall; apply Htight; intros px py HP; apply Hall; left; exact HP.
  1,2: intros px py [HP|Ht]; [exact (Hrep px py HP)|].
  1,2: cbv beta iota delta [touches] in Ht; lia.
  (* the clipped input has positive area: its corners are touched *)
  assert (Hc1 : touches W H (x, y, w, h) x y) by (cbv beta iota delta [touches]; lia).
  assert (Hc2 : touches W H (x, y, w, h)
                  (x + Z.min w (W - x) - 1) (y + Z.min h (H - y) - 1))
    by (cbv beta iota delta [touches]; lia).
  unfold represents in *. unfold union_rule.
  destruct (Rect.valid d) eqn:Hv; cbn [Rect.valid].
  - destruct Hrep as [[Hcov Htight] Hon]. unfold rect_on_screen in *.
    split; [split|cbn [Rect.x Rect.y Rect.w Rect.h]; lia].
    + intros px py [HP|Ht].
      * specialize (Hcov px py HP). unfold in_rect in *.
        cbn [Rect.x Rect.y Rect.w Rect.h]. lia.
      * cbv beta iota delta [touches] in Ht. unfold in_rect.
        cbn [Rect.x Rect.y Rect.w Rect.h]. lia.
    + intros x0 y0 x1 y1 Hall. cbn [Rect.x Rect.y Rect.w Rect.h].
      assert (Hd : x0 <= Rect.x d /\ y0 <= Rect.y d /\
                   Rect.x d + Rect.w d <= x1 /\ Rect.y d + Rect.h d <= y1).
      { apply Htight. intros px py HP. apply Hall. left; exact HP. }
      pose proof (Hall _ _ (or_intror Hc1)).
      pose proof (Hall _ _ (or_intror Hc2)).
      lia.
  - split; [split|unfold rect_on_screen; cbn [Rect.x Rect.y Rect.w Rect.h]; lia].
    + intros px py [HP|Ht]; [destruct (Hrep px py HP)|].
      cbv beta iota delta [touches] in Ht. unfold in_rect.
      cbn [Rect.x Rect.y Rect.w Rect.h]. lia.
    + intros x0 y0 x1 y1 Hall. cbn [Rect.x Rect.y Rect.w Rect.h].
      pose proof (Hall _ _ (or_intror Hc1)).
      pose proof (Hall _ _ (or_intror Hc2)).
      lia.
Qed.

Lemma represents_ext : forall W H d (P Q : Z -> Z -> Prop),
  (forall px py, P px py <-> Q px py) -> represents W H d P -> represents W H d Q.
Proof.
  intros W H d P Q Hext. unfold represents, bounding_box.
  destruct (Rect.valid d).
  - intros [[Hcov Htight] Hon]. split; [split|exact Hon].
    + intros px py HQ. apply Hcov. apply Hext. exact HQ.
    + intros x0 y0 x1 y1 Hall. apply Htight. intros px py HP. apply Hall.
      apply Hext. exact HP.
  - intros Hnone px py HQ. apply (Hnone px py). apply Hext. exact HQ.
Qed.

Lemma fold_mark_spec_represents : forall W H calls d P,
  Forall uint16_call calls ->
  represents W H d P ->
  represents W H (fold_left (mark_spec W H) calls d)
    (fun px py => P px py \/ touched W H calls px py).
Proof.
  induction calls as [|c calls IH]; intros d P Hcalls Hrep; cbn [fold_left].
  - eapply represents_ext; [|exact Hrep].
    intros px py. split; [auto|]. intros [HP|(c & [] & _)]. exact HP.
  - inversion Hcalls as [|c0 cs Hc Hcs]; subst.
    eapply represents_ext;
      [|apply IH; [exact Hcs|apply mark_spec_represents; [exact Hc|exact Hrep]]].
    intros px py. unfold touched. cbn [In]. split.
    + intros [[HP|Ht]|(c' & Hin & Ht)]; eauto 6.
    + intros [HP|(c' & [<-|Hin] & Ht)]; eauto 6.
Qed.

Lemma fold_mark_spec_untouched : forall W H calls d,
  Forall uint16_call calls ->
  (forall px py, ~ touched W H calls px py) ->
  fold_left (mark_spec W H) calls d = d.
Proof.
  induction calls as [|[[[x y] w] h] calls IH]; intros d Hcalls Hnone; cbn [fold_left].
  - reflexivity.
  - inversion Hcalls as [|c0 cs Hc Hcs]; subst.
    cbv beta iota delta [uint16_call] in Hc. destruct Hc as (Hx & Hy & Hw & Hh).
    assert (Hclip : mark_spec W H d (x, y, w, h) = d).
    { unfold mark_spec, clip_to_screen.
      destruct (Z.leb_spec (Z.min w (W - x)) 0) as [Hw0|Hw0]; [reflexivity|].
      destruct (Z.leb_spec (Z.min h (H - y)) 0) as [Hh0|Hh0]; [reflexivity|].
      exfalso. apply (Hnone x y). exists (x, y, w, h). split; [left; reflexivity|].
      cbv beta iota delta [touches]. lia. }
    rewrite Hclip. apply IH; [exact Hcs|].
    intros px py (c & Hin & Ht). apply (Hnone px py).
    exists c. split; [right; exact Hin|exact Ht].
Qed.

(** C5.  With dirty tracking enabled and starting from an invalid
    rectangle, a sequence of [expand_dirty_rect] calls computes the fold of
    the specification's union rule (clip to the screen, ignore zero area,
    adopt when invalid, else min/min/max/max); when the inputs touch no
    pixel of the screen the rectangle is unchanged, otherwise it is valid
    and is the axis-aligned bounding box of the union of the inputs
    clipped to the screen. *)
Theorem expand_dirty_rect_bounding_box : forall s calls,
  dirty_rect_enabled s = true ->
  Rect.valid (dirty_rect s) = false ->
  0 <= width s < 65536 -> 0 <= height s < 65536 ->
  Forall uint16_call calls ->
  dirty_rect (mark_all calls s)
  = fold_left (mark_spec (width s) (height s)) calls (dirty_rect s) /\
  ((forall px py, ~ touched (width s) (height s) calls px py) ->
   dirty_rect (mark_all calls s) = dirty_rect s) /\
  ((exists px py, touched (width s) (height s) calls px py) ->
   Rect.valid (dirty_rect (mark_all calls s)) = true /\
   bounding_box (dirty_rect (mark_all calls s)) (touched (width s) (height s) calls)).
Proof.
  intros s calls Hen Hinv HW HH Hcalls.
  assert (Heq : dirty_rect (mark_all calls s)
                = fold_left (mark_spec (width s) (height s)) calls (dirty_rect s)).
  { rewrite mark_all_spec; try assumption; [reflexivity|].
    rewrite Hinv. discriminate. }
  split; [exact Heq|]. rewrite Heq. split.
  - intros Hnone. apply fold_mark_spec_untouched; assumption.
  - intros (px & py & Ht).
    assert (Hrep : represents (width s) (height s)
                     (fold_left (mark_spec (width s) (height s)) calls (dirty_rect s))
                     (touched (width s) (height s) calls)).
    { eapply represents_ext;
        [|apply (fold_mark_spec_represents _ _ calls (dirty_rect s) (fun _ _ => False));
          [exact Hcalls|]].
      - intros qx qy. split; [intros [[]|Hq]; exact Hq|intros Hq; right; exact Hq].
      - unfold represents. rewrite Hinv. intros _ _ []. }
    unfold represents in Hrep.
    destruct (Rect.valid (fold_left _ calls (dirty_rect s))).
    + split; [reflexivity|apply Hrep].
    + destruct (Hrep px py Ht).
Qed.

(** * Bytes sent by the transfer routines *)

Lemma sum_over_app : forall f l1 l2, sum_over f (l1 ++ l2) = sum_over f l1 + sum_over f l2.
Proof.
  intros f l1 l2. unfold sum_over. induction l1 as [|e l1 IH]; cbn [app fold_right].
  - lia.
  - rewrite IH. lia.
Qed.

Lemma io_effect_refl : forall s, io_effect 0 0 0 s s.
Proof. intros s. unfold io_effect. repeat split; lia. Qed.

Lemma io_effect_trans : forall px cmd arg px' cmd' arg' s1 s2 s3,
  io_effect px cmd arg s1 s2 -> io_effect px' cmd' arg' s2 s3 ->
  io_effect (px + px') (cmd + cmd') (arg + arg') s1 s3.
Proof.
  unfold io_effect.
  intros px cmd arg px' cmd' arg' s1 s2 s3 (F1 & P1 & C1 & A1)
    (F2 & P2 & C2 & A2).
  repeat split; try congruence; lia.
Qed.

Lemma io_effect_fault_free : forall px cmd arg s s',
  io_effect px cmd arg s s' -> fault_free s -> fault_free s'.
Proof.
  intros px cmd arg s s' (F & _) Hff n. rewrite F. apply Hff.
Qed.

Lemma io_effect_eq : forall px cmd arg px' cmd' arg' s s',
  io_effect px cmd arg s s' -> px = px' -> cmd = cmd' -> arg = arg' ->
  io_effect px' cmd' arg' s s'.
Proof. intros; subst; assumption. Qed.

Lemma io_effect_set_dc : forall v s, io_effect 0 0 0 s (gpio_set_level_dc v s).
Proof.
  intros v s. unfold io_effect, pixel_bytes, command_bytes, argument_bytes. tft_simpl.
  repeat split; lia.
Qed.

Lemma io_effect_sram_update : forall p f s, io_effect 0 0 0 s (sram_update p f s).
Proof.
  intros p f s.
  unfold io_effect, pixel_bytes, command_bytes, argument_bytes, sram_update.
  destruct p; tft_simpl; repeat split; lia.
Qed.

Lemma bytes_of_bits : forall n, n * 16 / 8 = 2 * n.
Proof. intros n. replace (n * 16) with (2 * n * 8) by lia. apply Z.div_mul. lia. Qed.

(** A pixel transaction on a healthy device with D/C high. *)
Lemma transmit_pixels : forall n words s ret s',
  fault_free s -> dc_pin_level s = true ->
  spi_device_polling_transmit (mkTrans (n * 16) (TX_BUFFER words)) s = (ret, s') ->
  ret = ESP_OK /\ io_effect (2 * n) 0 0 s s' /\ dc_pin_level s' = true.
Proof.
  intros n words s ret s' Hff Hdc. unfold spi_device_polling_transmit.
  cbv zeta. rewrite Hff. intros H. injection H as <- <-.
  split; [reflexivity|]. split; [|exact Hdc].
  unfold io_effect, pixel_bytes, command_bytes, argument_bytes. tft_simpl.
  cbn [spi_fault spi_log]. rewrite !sum_over_app.
  unfold sum_over at 2 4 6. cbn [fold_right].
  unfold pixel_bytes_of, command_bytes_of, argument_bytes_of, event_bytes.
  cbn [ev_trans ev_dc ev_ret tx length_bits]. rewrite Hdc.
  change (ESP_OK =? ESP_OK) with true. cbv iota. rewrite bytes_of_bits.
  repeat split; lia.
Qed.

Lemma write_command_effect : forall c s,
  fault_free s -> io_effect 0 1 0 s (write_command c s).
Proof.
  intros c s Hff. unfold write_command, spi_device_polling_transmit, gpio_set_level_dc.
  cbv zeta. tft_simpl. rewrite Hff.
  unfold io_effect, pixel_bytes, command_bytes, argument_bytes. tft_simpl.
  cbn [spi_fault spi_log]. rewrite !sum_over_app.
  unfold sum_over at 2 4 6. cbn [fold_right].
  unfold pixel_bytes_of, command_bytes_of, argument_bytes_of, event_bytes.
  cbn [ev_trans ev_dc ev_ret tx length_bits].
  change (ESP_OK =? ESP_OK) with true. cbv iota. change (8 / 8) with 1.
  repeat split; lia.
Qed.

Lemma write_data_effect : forall c s,
  fault_free s -> io_effect 0 0 1 s (write_data c s).
Proof.
  intros c s Hff. unfold write_data, spi_device_polling_transmit, gpio_set_level_dc.
  cbv zeta. tft_simpl. rewrite Hff.
  unfold io_effect, pixel_bytes, command_bytes, argument_bytes. tft_simpl.
  cbn [spi_fault spi_log]. rewrite !sum_over_app.
  unfold sum_over at 2 4 6. cbn [fold_right].
  unfold pixel_bytes_of, command_bytes_of, argument_bytes_of, event_bytes.
  cbn [ev_trans ev_dc ev_ret tx length_bits].
  change (ESP_OK =? ESP_OK) with true. cbv iota. change (8 / 8) with 1.
  repeat split; lia.
Qed.

Ltac effect_step Eprev lem :=
  eapply io_effect_eq;
  [ eapply io_effect_trans; [ exact Eprev | apply lem ] | .. ];
  [ eapply io_effect_fault_free; eassumption | lia .. ].

Lemma set_addr_window_effect : forall x0 y0 x1 y1 s,
  fault_free s -> io_effect 0 3 8 s (set_addr_window x0 y0 x1 y1 s).
Proof.
  intros x0 y0 x1 y1 s Hff. unfold set_addr_window. cbv zeta.
  set (s1 := write_command ST7735_CASET s).
  assert (E1 : io_effect 0 1 0 s s1) by (apply write_command_effect; exact Hff).
  set (s2 := write_data _ s1).
  assert (E2 : io_effect 0 1 1 s s2) by effect_step E1 write_data_effect.
  set (s3 := write_data _ s2).
  assert (E3 : io_effect 0 1 2 s s3) by effect_step E2 write_data_effect.
  set (s4 := write_data _ s3).
  assert (E4 : io_effect 0 1 3 s s4) by effect_step E3 write_data_effect.
  set (s5 := write_data _ s4).
  assert (E5 : io_effect 0 1 4 s s5) by effect_step E4 write_data_effect.
  set (s6 := write_command ST7735_RASET s5).
  assert (E6 : io_effect 0 2 4 s s6) by effect_step E5 write_command_effect.
  set (s7 := write_data _ s6).
  assert (E7 : io_effect 0 2 5 s s7) by effect_step E6 write_data_effect.
  set (s8 := write_data _ s7).
  assert (E8 : io_effect 0 2 6 s s8) by effect_step E7 write_data_effect.
  set (s9 := write_data _ s8).
  assert (E9 : io_effect 0 2 7 s s9) by effect_step E8 write_data_effect.
  set (s10 := write_data _ s9).
  assert (E10 : io_effect 0 2 8 s s10) by effect_step E9 write_data_effect.
  effect_step E10 write_command_effect.
Qed.

Lemma bswap_in_place_effect : forall buffer off n s,
  io_effect 0 0 0 s (bswap_in_place buffer off n s) /\
  dc_pin_level (bswap_in_place buffer off n s) = dc_pin_level s.
Proof.
  intros. split.
  - apply io_effect_sram_update.
  - unfold bswap_in_place, sram_update. destruct buffer; reflexivity.
Qed.

Lemma send_chunk_loop_effect : forall fuel buffer total off s,
  fault_free s -> dc_pin_level s = true ->
  total - off <= spi_chunk_size * Z.of_nat fuel ->
  io_effect (2 * Z.max 0 (total - off)) 0 0 s (send_chunk_loop fuel buffer total off s).
Proof.
  induction fuel as [|fuel IH]; intros buffer total off s Hff Hdc Hfuel;
    cbn [send_chunk_loop].
  - eapply io_effect_eq; [apply io_effect_refl|unfold spi_chunk_size in *; lia..].
  - destruct (Z.ltb_spec off total) as [Hlt|Hge].
    2: { eapply io_effect_eq; [apply io_effect_refl|lia..]. }
    cbv zeta.
    set (cur := if total - off >? spi_chunk_size then spi_chunk_size else total - off).
    destruct (bswap_in_place_effect buffer off cur s) as [E1 D1].
    set (s1 := bswap_in_place buffer off cur s) in *.
    destruct (spi_device_polling_transmit _ s1) as [ret s2] eqn:Etx.
    apply transmit_pixels in Etx;
      [|eapply io_effect_fault_free; eassumption|congruence].
    destruct Etx as (-> & E2 & D2).
    change (negb (ESP_OK =? ESP_OK)) with false. cbv iota.
    destruct (bswap_in_place_effect buffer off cur s2) as [E3 D3].
    set (s3 := bswap_in_place buffer off cur s2) in *.
    assert (E13 : io_effect (2 * cur) 0 0 s s3).
    { eapply io_effect_eq;
        [eapply io_effect_trans; [eapply io_effect_trans; [exact E1|exact E2]|exact E3]
        |lia..]. }
    eapply io_effect_eq; [eapply io_effect_trans; [exact E13|apply IH]|..].
    + eapply io_effect_fault_free; eassumption.
    + congruence.
    + unfold spi_chunk_size in *. lia.
    + subst cur. unfold spi_chunk_size in *.
      destruct (Z.gtb_spec (total - off) 2048); lia.
    + lia.
    + lia.
Qed.

Lemma send_dirty_rows_effect : forall n buffer oy dx dw row s,
  fault_free s -> dc_pin_level s = true ->
  io_effect (2 * dw * Z.of_nat n) 0 0 s (send_dirty_rows n buffer oy dx dw row s).
Proof.
  induction n as [|n IH]; intros buffer oy dx dw row s Hff Hdc; cbn [send_dirty_rows].
  - eapply io_effect_eq; [apply io_effect_refl|lia..].
  - cbv zeta.
    set (line := (oy + row) * width s + dx).
    destruct (bswap_in_place_effect buffer line dw s) as [E1 D1].
    set (s1 := bswap_in_place buffer line dw s) in *.
    destruct (spi_device_polling_transmit _ s1) as [ret s2] eqn:Etx.
    apply transmit_pixels in Etx;
      [|eapply io_effect_fault_free; eassumption|congruence].
    destruct Etx as (-> & E2 & D2).
    change (negb (ESP_OK =? ESP_OK)) with false. cbv iota.
    destruct (bswap_in_place_effect buffer line dw s2) as [E3 D3].
    set (s3 := bswap_in_place buffer line dw s2) in *.
    assert (E13 : io_effect (2 * dw) 0 0 s s3).
    { eapply io_effect_eq;
        [eapply io_effect_trans; [eapply io_effect_trans; [exact E1|exact E2]|exact E3]
        |lia..]. }
    eapply io_effect_eq; [eapply io_effect_trans; [exact E13|apply IH]|..].
    + eapply io_effect_fault_free; eassumption.
    + congruence.
    + lia.
    + lia.
    + lia.
Qed.

Lemma CHUNK_HEIGHT_eq : CHUNK_HEIGHT = 32.
Proof. reflexivity. Qed.

Lemma MAX_CHUNKS_eq : MAX_CHUNKS = 5.
Proof. reflexivity. Qed.

Lemma send_chunk_to_display_effect : forall buffer k hgt s,
  initialized s = true -> sram_read buffer s <> None -> fault_free s ->
  0 <= width s * hgt ->
  io_effect (2 * (width s * hgt)) 3 8 s (send_chunk_to_display buffer k hgt s).
Proof.
  intros buffer k hgt s Hini Hbuf Hff Hpos. unfold send_chunk_to_display.
  rewrite Hini. destruct (sram_read buffer s) eqn:Eb; [|congruence].
  cbn [negb orb is_null]. cbv zeta.
  set (s1 := set_addr_window _ _ _ _ s).
  assert (E1 : io_effect 0 3 8 s s1) by (apply set_addr_window_effect; exact Hff).
  assert (W1 : width (gpio_set_level_dc true s1) = width s).
  { subst s1. destruct (io_only_set_addr_window 0 (u16 (k * CHUNK_HEIGHT))
      (u16 (width s - 1)) (u16 (u16 (k * CHUNK_HEIGHT) + hgt - 1)) s)
      as (a & b & dev & dc & -> & _). reflexivity. }
  rewrite W1.
  eapply io_effect_eq;
    [eapply io_effect_trans;
       [eapply io_effect_trans; [exact E1|apply (io_effect_set_dc true)]
       |apply send_chunk_loop_effect]|..].
  - eapply io_effect_fault_free; [apply (io_effect_set_dc true)|].
    eapply io_effect_fault_free; eassumption.
  - reflexivity.
  - unfold spi_chunk_size. lia.
  - lia.
  - lia.
  - lia.
Qed.

Lemma send_dirty_chunk_to_display_effect : forall buffer k hgt d s,
  initialized s = true -> sram_read buffer s <> None -> fault_free s ->
  0 <= k <= 4 -> hgt = 32 -> rect_on_screen 128 160 d ->
  0 < Z.min (Rect.y d + Rect.h d) (32 * k + 32) - Z.max (Rect.y d) (32 * k) ->
  io_effect
    (2 * Rect.w d * (Z.min (Rect.y d + Rect.h d) (32 * k + 32) - Z.max (Rect.y d) (32 * k)))
    3 8 s (send_dirty_chunk_to_display buffer k hgt d s).
Proof.
  intros buffer k hgt d s Hini Hbuf Hff Hk -> Hon Hrows.
  unfold rect_on_screen in Hon.
  unfold send_dirty_chunk_to_display.
  rewrite Hini. destruct (sram_read buffer s) eqn:Eb; [|congruence].
  cbn [negb orb is_null]. cbv zeta. rewrite CHUNK_HEIGHT_eq.
  u16_elim.
  destruct (Z.geb_spec (Z.max (Rect.y d) (k * 32))
              (Z.min (Rect.y d + Rect.h d) (k * 32 + 32))) as [Hbad|Hok]; [lia|].
  u16_elim.
  set (s1 := set_addr_window _ _ _ _ s).
  assert (E1 : io_effect 0 3 8 s s1) by (apply set_addr_window_effect; exact Hff).
  eapply io_effect_eq;
    [eapply io_effect_trans;
       [eapply io_effect_trans; [exact E1|apply (io_effect_set_dc true)]
       |apply send_dirty_rows_effect]|..].
  - eapply io_effect_fault_free; [apply (io_effect_set_dc true)|].
    eapply io_effect_fault_free; eassumption.
  - reflexivity.
  - rewrite Z2Nat.id by lia. lia.
  - lia.
  - lia.
Qed.

Lemma sram_update_read : forall p q f s,
  sram_allocated s -> sram_read q (sram_update p f s) <> None.
Proof.
  intros p q f s [Ha Hb]. unfold sram_read, sram_update.
  destruct p, q; tft_simpl; try assumption.
  - destruct (sram_buffer_a s); [discriminate|congruence].
  - destruct (sram_buffer_b s); [discriminate|congruence].
Qed.

Lemma sram_update_frame : forall p f s,
  initialized (sram_update p f s) = initialized s /\
  width (sram_update p f s) = width s /\
  height (sram_update p f s) = height s.
Proof. intros p f s. unfold sram_update. destruct p; repeat split. Qed.

Lemma copy_chunk_and_send_effect : forall k src fb s,
  initialized s = true -> framebuffer_at src s = Some (Some fb) ->
  sram_allocated s -> fault_free s ->
  width s = 128 -> height s = 160 -> 0 <= k <= 4 ->
  io_effect 8192 3 8 s (copy_chunk_and_send k src s).
Proof.
  intros k src fb s Hini Hfb Hsram Hff HW HH Hk. unfold copy_chunk_and_send.
  rewrite Hini, Hfb. cbn [negb]. cbv zeta. rewrite CHUNK_HEIGHT_eq, HW, HH.
  u16_elim.
  destruct (Z.gtb_spec ((k + 1) * 32) 160) as [Hbad|_]; [lia|].
  u16_elim.
  set (target := if Z.rem k 2 =? 0 then SRAM_A else SRAM_B).
  set (f := overwrite _).
  destruct (sram_update_frame target f s) as (I1 & W1 & _).
  eapply io_effect_eq;
    [eapply io_effect_trans;
       [apply (io_effect_sram_update target f)
       |apply send_chunk_to_display_effect]|..].
  - congruence.
  - apply sram_update_read; exact Hsram.
  - eapply io_effect_fault_free; [|exact Hff].
    apply (io_effect_sram_update target f).
  - rewrite W1, HW. lia.
  - rewrite W1, HW. lia.
  - lia.
  - lia.
Qed.

Lemma copy_dirty_chunk_and_send_effect : forall k src fb d s,
  initialized s = true -> framebuffer_at src s = Some (Some fb) ->
  sram_allocated s -> fault_free s ->
  width s = 128 -> height s = 160 -> 0 <= k <= 4 ->
  rect_on_screen 128 160 d ->
  0 < Z.min (Rect.y d + Rect.h d) (32 * k + 32) - Z.max (Rect.y d) (32 * k) ->
  io_effect
    (2 * Rect.w d * (Z.min (Rect.y d + Rect.h d) (32 * k + 32) - Z.max (Rect.y d) (32 * k)))
    3 8 s (copy_dirty_chunk_and_send k src d s).
Proof.
  intros k src fb d s Hini Hfb Hsram Hff HW HH Hk Hon Hrows.
  pose proof Hon as Hon'. unfold rect_on_screen in Hon'.
  unfold copy_dirty_chunk_and_send.
  rewrite Hini, Hfb. cbn [negb]. cbv zeta. rewrite CHUNK_HEIGHT_eq, HW, HH.
  u16_elim.
  destruct (Z.gtb_spec ((k + 1) * 32) 160) as [Hbad|_]; [lia|].
  u16_elim.
  destruct (Z.geb_spec (Z.max (Rect.y d) (k * 32))
              (Z.min (Rect.y d + Rect.h d) ((k + 1) * 32))) as [Hbad|Hok]; [lia|].
  set (target := if Z.rem k 2 =? 0 then SRAM_A else SRAM_B).
  set (f := overwrite _).
  destruct (sram_update_frame target f s) as (I1 & W1 & _).
  eapply io_effect_eq;
    [eapply io_effect_trans;
       [apply (io_effect_sram_update target f)
       |apply send_dirty_chunk_to_display_effect]|..].
  - congruence.
  - apply sram_update_read; exact Hsram.
  - eapply io_effect_fault_free; [|exact Hff].
    apply (io_effect_sram_update target f).
  - exact Hk.
  - lia.
  - exact Hon.
  - exact Hrows.
  - lia.
  - lia.
  - lia.
Qed.
(** * A present, from [display] to completion *)

Lemma job_end_bound : forall msg, job_end msg <= 4.
Proof.
  intros msg. unfold job_end. rewrite MAX_CHUNKS_eq.
  destruct (dirty_mode msg); [|lia].
  cbv zeta. change (u8 (5 - 1)) with 4.
  match goal with |- context [if ?e >=? 5 then _ else _] =>
    destruct (Z.geb_spec e 5) end; lia.
Qed.

Lemma next_is_last_eq : forall msg s,
  total_chunks s = MAX_CHUNKS -> 0 <= Msg.chunk_idx msg <= 4 ->
  next_is_last msg s = (Msg.chunk_idx msg + 1 >? job_end msg).
Proof.
  intros msg s Htot Hk. unfold next_is_last, job_end, dirty_mode. cbv zeta.
  rewrite (u8_small (Msg.chunk_idx msg + 1)) by lia.
  destruct (Msg.use_dirty_rect msg && Rect.valid (Msg.dirty_rect msg)) eqn:Hmode.
  - apply andb_prop in Hmode. destruct Hmode as [_ Hv].
    unfold calculate_dirty_chunks. rewrite Hv, Htot. cbn [negb]. cbv zeta.
    reflexivity.
  - rewrite Htot, MAX_CHUNKS_eq.
    destruct (Z.geb_spec (Msg.chunk_idx msg + 1) 5),
      (Z.gtb_spec (Msg.chunk_idx msg + 1) (5 - 1)); try reflexivity; lia.
Qed.

Lemma display_task_step_shape : forall s msg,
  display_queue s = Some [msg] -> total_chunks s = MAX_CHUNKS ->
  0 <= Msg.chunk_idx msg <= 4 ->
  display_task_step s
  = Some (let s_io := process_chunk msg (set_display_queue (Some []) s) in
          if Msg.is_last_chunk msg || (Msg.chunk_idx msg + 1 >? job_end msg)
          then signal_done (clearDirty
                 (release_buffer (Msg.source_buffer_idx msg) s_io))
          else set_display_queue (Some [next_message msg]) s_io).
Proof.
  intros s msg Hq Htot Hk. unfold display_task_step. rewrite Hq.
  unfold display_task_body. cbv zeta.
  set (s_io := process_chunk msg (set_display_queue (Some []) s)).
  destruct (io_only_process_chunk msg (set_display_queue (Some []) s))
    as (a & b & dev & dc & Hio & _).
  fold s_io in Hio.
  assert (Htot' : total_chunks s_io = MAX_CHUNKS) by (rewrite Hio; exact Htot).
  assert (Hq' : display_queue s_io = Some []) by (rewrite Hio; reflexivity).
  unfold after_chunk.
  destruct (Msg.is_last_chunk msg); [reflexivity|].
  cbv zeta. rewrite (next_is_last_eq msg s_io Htot' Hk). cbn [orb].
  destruct (Msg.chunk_idx msg + 1 >? job_end msg); cbn [negb]; [reflexivity|].
  rewrite (xQueueSend_ok _ _ [] Hq') by (cbn; unfold DISPLAY_QUEUE_LENGTH; lia).
  rewrite (u8_small (Msg.chunk_idx msg + 1)) by lia.
  reflexivity.
Qed.

Lemma run_display_task_idle : forall n s,
  display_queue s = Some [] -> run_display_task n s = s.
Proof.
  intros n s Hq. destruct n as [|n]; [reflexivity|].
  cbn [run_display_task]. unfold display_task_step. rewrite Hq. reflexivity.
Qed.

(** The chain of chunk jobs always completes, whatever the device does. *)
Lemma run_job_completes : forall n s msg fuel,
  display_queue s = Some [msg] -> total_chunks s = MAX_CHUNKS ->
  0 <= Msg.chunk_idx msg <= 4 ->
  4 - Msg.chunk_idx msg <= Z.of_nat n -> (n < fuel)%nat ->
  exists a b dev dc,
    run_display_task fuel s = with_io a b dev dc (completed_from msg s) /\
    option_map (@length Z) a = option_map (@length Z) (sram_buffer_a s) /\
    option_map (@length Z) b = option_map (@length Z) (sram_buffer_b s) /\
    spi_fault dev = spi_fault (spi_device s).
Proof.
  induction n as [|n IH]; intros s msg fuel Hq Htot Hk Hn Hfuel;
    (destruct fuel as [|fuel]; [lia|]);
    cbn [run_display_task];
    rewrite (display_task_step_shape s msg Hq Htot Hk); cbv zeta;
    destruct (io_only_process_chunk msg (set_display_queue (Some []) s))
      as (a & b & dev & dc & Hio & La & Lb & Fd); rewrite Hio.
  - pose proof (job_end_bound msg).
    destruct (Z.gtb_spec (Msg.chunk_idx msg + 1) (job_end msg)); [|lia].
    rewrite orb_true_r.
    rewrite run_display_task_idle by reflexivity.
    exists a, b, dev, dc. repeat split; assumption.
  - destruct (Msg.is_last_chunk msg || (Msg.chunk_idx msg + 1 >? job_end msg)) eqn:Hlast.
    + rewrite run_display_task_idle by reflexivity.
      exists a, b, dev, dc. repeat split; assumption.
    + apply orb_false_elim in Hlast. destruct Hlast as [_ Hgt].
      pose proof (job_end_bound msg).
      destruct (Z.gtb_spec (Msg.chunk_idx msg + 1) (job_end msg)); [discriminate|].
      destruct (IH (set_display_queue (Some [next_message msg])
                     (with_io a b dev dc (set_display_queue (Some []) s)))
                  (next_message msg) fuel)
        as (a' & b' & dev' & dc' & Hrun & La' & Lb' & Fd');
        try reflexivity; try exact Htot;
        try (cbn [next_message Msg.chunk_idx]; lia).
      rewrite Hrun. exists a', b', dev', dc'.
      split; [reflexivity|].
      split; [rewrite La'; exact La|]. split; [rewrite Lb'; exact Lb|rewrite Fd'; exact Fd].
Qed.

Lemma allocated_length : forall n p q,
  allocated n p -> option_map (@length Z) q = option_map (@length Z) p -> allocated n q.
Proof.
  intros n p q (l & -> & Hl) Hq. destruct q as [l'|]; [|discriminate].
  cbn in Hq. injection Hq as Hq. exists l'. split; [reflexivity|]. rewrite Hq. exact Hl.
Qed.

Lemma panel_ok_io : forall s s', panel_ok s -> io_only s s' -> panel_ok s'.
Proof.
  intros s s' (Hi & He & Hw & Hh & Ht & Ha & Hb & Hc & Hsa & Hsb)
    (a & b & dev & dc & -> & La & Lb & _).
  unfold panel_ok. tft_simpl. repeat split; try assumption.
  - exact (allocated_length _ _ _ Hsa La).
  - exact (allocated_length _ _ _ Hsb Lb).
Qed.

Lemma panel_ok_framebuffer_at : forall s src,
  panel_ok s -> 0 <= src < 3 -> exists fb, framebuffer_at src s = Some (Some fb).
Proof.
  intros s src (_ & _ & _ & _ & _ & (la & Ha & _) & (lb & Hb & _) & (lc & Hc & _) & _) Hsrc.
  idx_cases src; cbv [framebuffer_at Z.eqb Pos.eqb]; rewrite ?Ha, ?Hb, ?Hc; eauto.
Qed.

Lemma panel_ok_sram : forall s, panel_ok s -> sram_allocated s.
Proof.
  intros s (_ & _ & _ & _ & _ & _ & _ & _ & (la & Ha & _) & (lb & Hb & _)).
  split; congruence.
Qed.

Lemma job_end_dirty : forall msg,
  dirty_mode msg = true ->
  rect_on_screen ST7735_WIDTH ST7735_HEIGHT (Msg.dirty_rect msg) ->
  job_end msg = (Rect.y (Msg.dirty_rect msg) + Rect.h (Msg.dirty_rect msg) - 1) / 32.
Proof.
  intros msg Hmode Hon. unfold job_end. rewrite Hmode. cbv zeta.
  unfold rect_on_screen, ST7735_WIDTH, ST7735_HEIGHT in Hon.
  rewrite CHUNK_HEIGHT_eq, MAX_CHUNKS_eq.
  rewrite Z.quot_div_nonneg by lia.
  assert (0 <= (Rect.y (Msg.dirty_rect msg) + Rect.h (Msg.dirty_rect msg) - 1) / 32 <= 4).
  { split; [apply Z.div_pos; lia|].
    assert ((Rect.y (Msg.dirty_rect msg) + Rect.h (Msg.dirty_rect msg) - 1) / 32 < 5)
      by (apply Z.div_lt_upper_bound; lia).
    lia. }
  rewrite u8_small by lia.
  destruct (Z.geb_spec ((Rect.y (Msg.dirty_rect msg) + Rect.h (Msg.dirty_rect msg) - 1) / 32) 5);
    [lia|reflexivity].
Qed.

(** In dirty mode the chunks of a job are those the rectangle meets. *)
Lemma job_ok_rows : forall msg,
  job_ok msg -> dirty_mode msg = true ->
  let d := Msg.dirty_rect msg in
  let k := Msg.chunk_idx msg in
  rect_on_screen 128 160 d /\ Rect.y d < 32 * k + 32 /\ 32 * k < Rect.y d + Rect.h d /\
  (k = job_end msg -> Rect.y d + Rect.h d <= 32 * k + 32) /\
  (k < job_end msg -> 32 * k + 32 < Rect.y d + Rect.h d).
Proof.
  intros msg (Hk & Hsrc & Hlast & Hd) Hmode. cbv zeta.
  destruct (Hd Hmode) as [Hon Hy].
  rewrite (job_end_dirty msg Hmode Hon) in *.
  pose proof Hon as Hon'. unfold rect_on_screen, ST7735_WIDTH, ST7735_HEIGHT in Hon'.
  set (e := Rect.y (Msg.dirty_rect msg) + Rect.h (Msg.dirty_rect msg) - 1) in *.
  pose proof (Z.div_mod e 32 ltac:(lia)) as Hdm.
  pose proof (Z.mod_pos_bound e 32 ltac:(lia)) as Hmb.
  repeat split; try exact Hon; try lia.
Qed.

Lemma process_chunk_effect : forall msg s,
  panel_ok s -> job_ok msg -> fault_free s ->
  io_effect (chunk_pixel_bytes msg) 3 8 s (process_chunk msg s).
Proof.
  intros msg s Hp Hjob Hff.
  pose proof (job_end_bound msg) as Hend.
  pose proof Hjob as (Hk & Hsrc & Hlast & Hd).
  destruct (panel_ok_framebuffer_at s _ Hp Hsrc) as [fb Hfb].
  pose proof (panel_ok_sram s Hp) as Hsram.
  destruct Hp as (Hi & He & Hw & Hh & _).
  unfold process_chunk, chunk_pixel_bytes. fold (dirty_mode msg). cbv zeta.
  destruct (dirty_mode msg) eqn:Hmode.
  - destruct (job_ok_rows msg Hjob Hmode) as (Hon & Hy1 & Hy2 & _).
    pose proof Hon as Hon'. unfold rect_on_screen in Hon'.
    eapply copy_dirty_chunk_and_send_effect; try eassumption; lia.
  - eapply copy_chunk_and_send_effect; try eassumption; lia.
Qed.

Lemma job_ok_next : forall msg,
  job_ok msg -> Msg.chunk_idx msg < job_end msg -> job_ok (next_message msg).
Proof.
  intros msg (Hk & Hsrc & Hlast & Hd) Hlt.
  unfold job_ok.
  change (job_end (next_message msg)) with (job_end msg).
  change (dirty_mode (next_message msg)) with (dirty_mode msg).
  cbn [next_message Msg.chunk_idx Msg.source_buffer_idx Msg.is_last_chunk Msg.dirty_rect].
  split; [lia|]. split; [exact Hsrc|]. split; [discriminate|].
  intros Hmode. destruct (Hd Hmode) as [Hon Hy]. split; [exact Hon|lia].
Qed.

Lemma job_pixel_bytes_last : forall msg,
  job_ok msg -> Msg.chunk_idx msg = job_end msg ->
  chunk_pixel_bytes msg = job_pixel_bytes msg.
Proof.
  intros msg Hjob Hk. unfold chunk_pixel_bytes, job_pixel_bytes. cbv zeta.
  destruct (dirty_mode msg) eqn:Hmode.
  - destruct (job_ok_rows msg Hjob Hmode) as (Hon & Hy1 & Hy2 & Hlast & _).
    pose proof Hon as Hon'. unfold rect_on_screen in Hon'.
    specialize (Hlast Hk). f_equal. lia.
  - unfold job_end in Hk. rewrite Hmode in Hk. rewrite Hk.
    reflexivity.
Qed.

Lemma job_pixel_bytes_next : forall msg,
  job_ok msg -> Msg.chunk_idx msg < job_end msg ->
  chunk_pixel_bytes msg + job_pixel_bytes (next_message msg) = job_pixel_bytes msg.
Proof.
  intros msg Hjob Hk. unfold chunk_pixel_bytes, job_pixel_bytes. cbv zeta.
  change (dirty_mode (next_message msg)) with (dirty_mode msg).
  cbn [next_message Msg.chunk_idx Msg.dirty_rect].
  destruct (dirty_mode msg) eqn:Hmode.
  - destruct (job_ok_rows msg Hjob Hmode) as (Hon & Hy1 & Hy2 & _ & Hmore).
    specialize (Hmore Hk).
    pose proof Hon as Hon'. unfold rect_on_screen in Hon'.
    rewrite <- Z.mul_add_distr_l. f_equal. lia.
  - unfold ST7735_WIDTH, ST7735_HEIGHT. lia.
Qed.

Lemma io_effect_ctl : forall px cmd arg s s' t t',
  io_effect px cmd arg s s' ->
  spi_device t = spi_device s -> spi_device t' = spi_device s' ->
  io_effect px cmd arg t t'.
Proof.
  unfold io_effect, pixel_bytes, command_bytes, argument_bytes.
  intros px cmd arg s s' t t' H -> ->. exact H.
Qed.

(** On a healthy device a job sends the pixel bytes of all its remaining
    chunks and one address window per chunk. *)
Lemma run_job_bytes : forall n s msg fuel,
  display_queue s = Some [msg] -> panel_ok s -> job_ok msg -> fault_free s ->
  job_end msg - Msg.chunk_idx msg <= Z.of_nat n -> (n < fuel)%nat ->
  io_effect (job_pixel_bytes msg)
            (3 * (job_end msg - Msg.chunk_idx msg + 1))
            (8 * (job_end msg - Msg.chunk_idx msg + 1))
            s (run_display_task fuel s).
Proof.
  induction n as [|n IH]; intros s msg fuel Hq Hp Hjob Hff Hn Hfuel;
    (destruct fuel as [|fuel]; [lia|]);
    pose proof (job_end_bound msg) as Hend;
    pose proof Hjob as (Hk & Hsrc & Hlast & Hd);
    pose proof Hp as (_ & _ & _ & _ & Htot & _);
    cbn [run_display_task];
    rewrite (display_task_step_shape s msg Hq Htot ltac:(lia)); cbv zeta;
    assert (Hp0 : panel_ok (set_display_queue (Some []) s)) by exact Hp;
    assert (Hff0 : fault_free (set_display_queue (Some []) s)) by exact Hff;
    pose proof (process_chunk_effect msg _ Hp0 Hjob Hff0) as E1;
    pose proof (io_only_process_chunk msg (set_display_queue (Some []) s)) as F1;
    set (s_io := process_chunk msg (set_display_queue (Some []) s)) in *;
    assert (Hqio : display_queue s_io = Some [])
      by (destruct F1 as (a & b & dev & dc & -> & _); reflexivity).
  - assert (Hke : Msg.chunk_idx msg = job_end msg) by lia.
    destruct (Z.gtb_spec (Msg.chunk_idx msg + 1) (job_end msg)); [|lia].
    rewrite orb_true_r.
    rewrite run_display_task_idle by exact Hqio.
    eapply io_effect_eq; [eapply io_effect_ctl; [exact E1|reflexivity..]|..];
      [apply job_pixel_bytes_last; assumption|lia..].
  - destruct (Msg.is_last_chunk msg || (Msg.chunk_idx msg + 1 >? job_end msg)) eqn:Hl.
    + assert (Hke : Msg.chunk_idx msg = job_end msg).
      { apply orb_prop in Hl. destruct Hl as [Hl|Hl]; [apply Hlast; exact Hl|].
        destruct (Z.gtb_spec (Msg.chunk_idx msg + 1) (job_end msg)); [lia|discriminate]. }
      rewrite run_display_task_idle by exact Hqio.
      eapply io_effect_eq; [eapply io_effect_ctl; [exact E1|reflexivity..]|..];
        [apply job_pixel_bytes_last; assumption|lia..].
    + apply orb_false_elim in Hl. destruct Hl as [_ Hgt].
      destruct (Z.gtb_spec (Msg.chunk_idx msg + 1) (job_end msg)); [discriminate|].
      assert (Hlt : Msg.chunk_idx msg < job_end msg) by lia.
      set (s1 := set_display_queue (Some [next_message msg]) s_io).
      assert (E2 : io_effect (job_pixel_bytes (next_message msg))
                     (3 * (job_end msg - Msg.chunk_idx msg))
                     (8 * (job_end msg - Msg.chunk_idx msg))
                     s1 (run_display_task fuel s1)).
      { eapply io_effect_eq; [apply (IH s1 (next_message msg) fuel)|..].
        - reflexivity.
        - apply (panel_ok_io _ s_io Hp0) in F1. exact F1.
        - apply job_ok_next; assumption.
        - eapply io_effect_fault_free; [exact E1|exact Hff0].
        - change (job_end (next_message msg)) with (job_end msg).
          cbn [next_message Msg.chunk_idx]. lia.
        - lia.
        - reflexivity.
        - change (job_end (next_message msg)) with (job_end msg).
          cbn [next_message Msg.chunk_idx]. lia.
        - change (job_end (next_message msg)) with (job_end msg).
          cbn [next_message Msg.chunk_idx]. lia. }
      eapply io_effect_eq;
        [eapply io_effect_trans;
           [eapply (io_effect_ctl _ _ _ _ _ s s1); [exact E1|reflexivity..]|exact E2]|..].
      * apply job_pixel_bytes_next; assumption.
      * lia.
      * lia.
Qed.

Lemma run_display_task_inv : forall n s,
  coordinator_inv s -> coordinator_inv (run_display_task n s).
Proof.
  induction n as [|n IH]; intros s Hinv; cbn [run_display_task]; [exact Hinv|].
  destruct (display_task_step s) as [s'|] eqn:Hstep; [|exact Hinv].
  apply IH. eapply display_task_inv; eassumption.
Qed.

Lemma ready_find_idle : forall s, ready s -> 0 <= find_idle (buffer_states s) < 3.
Proof.
  intros s ((a & b & c & q & Hst & Hr & Hat & HcR & Hq & Hrest) & Hprog & _).
  rewrite Hprog in Hrest. destruct Hrest as [_ HcT]. rewrite Hst in *.
  apply (swap_for_transfer_states a b c _ Hr Hat HcR HcT).
Qed.

Lemma display_ready : forall s,
  ready s ->
  display_traced s
  = (exit_started,
     set_display_queue (Some [first_message (display_armed s)]) (display_armed s)).
Proof.
  intros s Hready. pose proof (ready_find_idle s Hready) as Hidle.
  destruct Hready as ((a & b & c & q & Hst & Hr & Hat & HcR & Hq & Hrest) & Hprog & Hcur
                      & (Hini & Hen & _)).
  rewrite Hprog in Hrest. destruct Hrest as [-> HcT].
  unfold display_traced. rewrite Hen, Hini, Hprog, Hq.
  destruct (current_framebuffer s); [|congruence].
  cbn [negb orb is_null].
  destruct (Z.eqb_spec (find_idle (buffer_states s)) 255) as [E|_]; [lia|].
  cbv zeta. fold (display_armed s).
  assert (Hq' : display_queue (display_armed s) = Some []) by exact Hq.
  rewrite (xQueueSend_ok _ _ [] Hq') by (cbn; unfold DISPLAY_QUEUE_LENGTH; lia).
  reflexivity.
Qed.

Lemma first_message_chunk : forall s,
  total_chunks s = MAX_CHUNKS ->
  0 <= Msg.chunk_idx (first_message s) <= 4 /\
  Msg.source_buffer_idx (first_message s) = transfer_buffer_idx s.
Proof.
  intros s Htot. unfold first_message. cbv zeta.
  destruct (dirty_rect_enabled s && Rect.valid (dirty_rect s) && negb (force_full_redraw s))
    eqn:Hmode.
  - apply andb_prop in Hmode. destruct Hmode as [Hmode _].
    apply andb_prop in Hmode. destruct Hmode as [_ Hv].
    unfold calculate_dirty_chunks. rewrite Hv, Htot, MAX_CHUNKS_eq.
    cbn [negb Msg.chunk_idx Msg.source_buffer_idx]. cbv zeta.
    cbn [Msg.chunk_idx Msg.source_buffer_idx].
    split; [|reflexivity]. change (u8 (5 - 1)) with 4.
    match goal with |- context [if ?e >=? 5 then _ else _] =>
      assert (0 <= e < 256) by (apply Z.mod_pos_bound; lia);
      destruct (Z.geb_spec e 5) end; lia.
  - cbn [Msg.chunk_idx Msg.source_buffer_idx]. split; [lia|reflexivity].
Qed.

Lemma div32_bounds : forall z, 0 <= z < 160 -> 0 <= z / 32 <= 4 /\ 32 * (z / 32) <= z < 32 * (z / 32) + 32.
Proof.
  intros z Hz.
  pose proof (Z.div_mod z 32 ltac:(lia)).
  pose proof (Z.mod_pos_bound z 32 ltac:(lia)).
  lia.
Qed.

(** The first message of a present, on the 128 x 160 panel. *)
Lemma first_message_job : forall s,
  total_chunks s = MAX_CHUNKS -> 0 <= transfer_buffer_idx s < 3 ->
  (use_dirty_rect_of s = true ->
   rect_on_screen ST7735_WIDTH ST7735_HEIGHT (dirty_rect s)) ->
  job_ok (first_message s) /\
  job_pixel_bytes (first_message s)
  = (if use_dirty_rect_of s then 2 * Rect.w (dirty_rect s) * Rect.h (dirty_rect s)
     else 2 * ST7735_WIDTH * ST7735_HEIGHT) /\
  job_end (first_message s) - Msg.chunk_idx (first_message s) + 1
  = (if use_dirty_rect_of s
     then (Rect.y (dirty_rect s) + Rect.h (dirty_rect s) - 1) / 32
          - Rect.y (dirty_rect s) / 32 + 1
     else MAX_CHUNKS).
Proof.
  intros s Htot Htidx Hon.
  unfold use_dirty_rect_of in *. unfold first_message. cbv zeta.
  destruct (dirty_rect_enabled s && Rect.valid (dirty_rect s) && negb (force_full_redraw s))
    eqn:Hmode.
  - specialize (Hon eq_refl).
    pose proof Hon as Hon'.
    unfold rect_on_screen, ST7735_WIDTH, ST7735_HEIGHT in Hon'.
    apply andb_prop in Hmode. destruct Hmode as [Hmode _].
    apply andb_prop in Hmode. destruct Hmode as [_ Hv].
    unfold calculate_dirty_chunks. rewrite Hv, Htot, MAX_CHUNKS_eq, CHUNK_HEIGHT_eq.
    cbn [negb]. cbv zeta.
    rewrite !Z.quot_div_nonneg by lia.
    destruct (div32_bounds (Rect.y (dirty_rect s)) ltac:(lia)) as [Hs1 Hs2].
    destruct (div32_bounds (Rect.y (dirty_rect s) + Rect.h (dirty_rect s) - 1) ltac:(lia))
      as [He1 He2].
    set (sc := Rect.y (dirty_rect s) / 32) in *.
    set (ec := (Rect.y (dirty_rect s) + Rect.h (dirty_rect s) - 1) / 32) in *.
    rewrite (u8_small sc), (u8_small ec) by lia.
    destruct (Z.geb_spec sc 5); [lia|]. destruct (Z.geb_spec ec 5); [lia|].
    assert (Hse : sc <= ec) by lia.
    rewrite (u8_small (ec - sc + 1)) by lia.
    set (m := Msg.mk sc (ec - sc + 1 =? 1) (transfer_buffer_idx s) true (dirty_rect s)).
    assert (Hdm : dirty_mode m = true) by (unfold dirty_mode, m; cbn; exact Hv).
    assert (Hje : job_end m = ec).
    { rewrite (job_end_dirty m Hdm Hon). reflexivity. }
    split; [|split].
    + unfold job_ok. rewrite Hje, Hdm. subst m.
      cbn [Msg.chunk_idx Msg.source_buffer_idx Msg.is_last_chunk Msg.dirty_rect].
      split; [lia|]. split; [exact Htidx|]. split.
      * intros Hl. destruct (Z.eqb_spec (ec - sc + 1) 1); [lia|discriminate].
      * intros _. split; [exact Hon|lia].
    + unfold job_pixel_bytes. rewrite Hdm. subst m.
      cbn [Msg.chunk_idx Msg.dirty_rect]. cbv zeta. f_equal. lia.
    + rewrite Hje. reflexivity.
  - rewrite Htot.
    set (m := Msg.mk 0 (MAX_CHUNKS =? 1) (transfer_buffer_idx s) false
                     (Rect.mk 0 0 0 0 false)).
    assert (Hdm : dirty_mode m = false) by reflexivity.
    assert (Hje : job_end m = 4) by reflexivity.
    split; [|split].
    + unfold job_ok. rewrite Hje, Hdm. subst m.
      cbn [Msg.chunk_idx Msg.source_buffer_idx Msg.is_last_chunk Msg.dirty_rect].
      split; [lia|]. split; [exact Htidx|]. split; discriminate.
    + reflexivity.
    + reflexivity.
Qed.

Lemma completed_from_queue : forall msg q s,
  completed_from msg (set_display_queue q s) = completed_from msg s.
Proof. intros. reflexivity. Qed.

(** What [display] leaves untouched up to the point where it posts. *)
Lemma display_armed_frame : forall s,
  total_chunks (display_armed s) = total_chunks s /\
  sram_buffer_a (display_armed s) = sram_buffer_a s /\
  sram_buffer_b (display_armed s) = sram_buffer_b s /\
  spi_device (display_armed s) = spi_device s /\
  dirty_rect (display_armed s) = dirty_rect s /\
  dirty_rect_enabled (display_armed s) = dirty_rect_enabled s /\
  force_full_redraw (display_armed s) = force_full_redraw s /\
  transfer_buffer_idx (display_armed s) = render_buffer_idx s /\
  render_buffer_idx (display_armed s) = find_idle (buffer_states s) /\
  display_queue (display_armed s) = display_queue s /\
  framebuffer_a (display_armed s) = framebuffer_a s /\
  framebuffer_b (display_armed s) = framebuffer_b s /\
  framebuffer_c (display_armed s) = framebuffer_c s /\
  initialized (display_armed s) = initialized s /\
  framebuffer_enabled (display_armed s) = framebuffer_enabled s /\
  width (display_armed s) = width s /\
  height (display_armed s) = height s.
Proof. intros s. repeat split. Qed.

Lemma run_first_message : forall t m,
  total_chunks t = MAX_CHUNKS -> 0 <= Msg.chunk_idx m <= 4 ->
  exists a b dev dc,
    run_display_task (Z.to_nat MAX_CHUNKS) (set_display_queue (Some [m]) t)
    = with_io a b dev dc (completed_from m t) /\
    option_map (@length Z) a = option_map (@length Z) (sram_buffer_a t) /\
    option_map (@length Z) b = option_map (@length Z) (sram_buffer_b t) /\
    spi_fault dev = spi_fault (spi_device t).
Proof.
  intros t m Htot Hk.
  assert (Hfuel : (4 < Z.to_nat MAX_CHUNKS)%nat)
    by (change (Z.to_nat MAX_CHUNKS) with 5%nat; lia).
  assert (Hn : 4 - Msg.chunk_idx m <= Z.of_nat 4) by lia.
  destruct (run_job_completes 4 (set_display_queue (Some [m]) t) m
              (Z.to_nat MAX_CHUNKS) eq_refl Htot Hk Hn Hfuel)
    as (a & b & dev & dc & Hrun & La & Lb & Fd).
  exists a, b, dev, dc. rewrite Hrun, completed_from_queue.
  split; [reflexivity|]. split; [exact La|]. split; [exact Lb|exact Fd].
Qed.

Lemma present_shape : forall s,
  ready s ->
  exists a b dev dc,
    present s
    = with_io a b dev dc
        (completed_from (first_message (display_armed s)) (display_armed s)) /\
    option_map (@length Z) a = option_map (@length Z) (sram_buffer_a s) /\
    option_map (@length Z) b = option_map (@length Z) (sram_buffer_b s) /\
    spi_fault dev = spi_fault (spi_device s).
Proof.
  intros s Hready. unfold present, display. rewrite (display_ready s Hready).
  change (snd (exit_started, ?x)) with x.
  pose proof Hready as (_ & _ & _ & (_ & _ & _ & _ & Htot & _)).
  destruct (display_armed_frame s) as (Ft & Fa & Fb & Fspi & _).
  rewrite <- Ft in Htot. rewrite <- Fa, <- Fb, <- Fspi.
  destruct (first_message_chunk (display_armed s) Htot) as [Hk _].
  exact (run_first_message (display_armed s) (first_message (display_armed s)) Htot Hk).
Qed.

Lemma completed_from_frame : forall m t,
  display_in_progress (completed_from m t) = false /\
  display_done_flag (completed_from m t) = true /\
  display_queue (completed_from m t) = Some [] /\
  dirty_rect (completed_from m t) = Rect.mk 0 0 0 0 false /\
  force_full_redraw (completed_from m t) = false /\
  dirty_rect_enabled (completed_from m t) = dirty_rect_enabled t /\
  framebuffer_a (completed_from m t) = framebuffer_a t /\
  framebuffer_b (completed_from m t) = framebuffer_b t /\
  framebuffer_c (completed_from m t) = framebuffer_c t /\
  current_framebuffer (completed_from m t) = current_framebuffer t /\
  spi_device (completed_from m t) = spi_device t.
Proof. intros m t. repeat split. Qed.

Lemma with_io_frame : forall a b dev dc t,
  display_in_progress (with_io a b dev dc t) = display_in_progress t /\
  display_done_flag (with_io a b dev dc t) = display_done_flag t /\
  display_queue (with_io a b dev dc t) = display_queue t /\
  dirty_rect (with_io a b dev dc t) = dirty_rect t /\
  force_full_redraw (with_io a b dev dc t) = force_full_redraw t /\
  dirty_rect_enabled (with_io a b dev dc t) = dirty_rect_enabled t /\
  framebuffer_a (with_io a b dev dc t) = framebuffer_a t /\
  framebuffer_b (with_io a b dev dc t) = framebuffer_b t /\
  framebuffer_c (with_io a b dev dc t) = framebuffer_c t /\
  current_framebuffer (with_io a b dev dc t) = current_framebuffer t /\
  spi_device (with_io a b dev dc t) = dev.
Proof. intros. repeat split. Qed.

Lemma panel_ok_completed : forall m t, panel_ok t -> panel_ok (completed_from m t).
Proof. intros m t H. exact H. Qed.

Lemma panel_ok_armed : forall s, panel_ok s -> panel_ok (display_armed s).
Proof. intros s H. exact H. Qed.

Lemma current_framebuffer_armed : forall s,
  panel_ok s -> 0 <= find_idle (buffer_states s) < 3 ->
  current_framebuffer (display_armed s) <> None.
Proof.
  intros s Hp Hidle.
  destruct (panel_ok_framebuffer_at s _ Hp Hidle) as [fb Hfb].
  unfold display_armed. tft_simpl. unfold framebuffer_at in *. tft_simpl.
  rewrite Hfb. discriminate.
Qed.

(** A present always completes, and leaves the driver ready for the next
    one with the dirty state cleared. *)
Lemma present_ready : forall s,
  ready s ->
  ready (present s) /\
  display_done_flag (present s) = true /\
  display_queue (present s) = Some [] /\
  dirty_rect (present s) = Rect.mk 0 0 0 0 false /\
  force_full_redraw (present s) = false /\
  dirty_rect_enabled (present s) = dirty_rect_enabled s /\
  framebuffer_a (present s) = framebuffer_a s /\
  framebuffer_b (present s) = framebuffer_b s /\
  framebuffer_c (present s) = framebuffer_c s /\
  spi_fault (spi_device (present s)) = spi_fault (spi_device s).
Proof.
  intros s Hready.
  destruct (present_shape s Hready) as (a & b & dev & dc & Hshape & La & Lb & Fd).
  pose proof (ready_find_idle s Hready) as Hidle.
  assert (Hinv : coordinator_inv (present s)).
  { unfold present. apply run_display_task_inv. apply display_inv. apply Hready. }
  destruct Hready as (_ & Hprog & Hcur & Hp).
  pose proof (current_framebuffer_armed s Hp Hidle) as Hcur'.
  pose proof (panel_ok_armed s Hp) as Hp'.
  destruct (display_armed_frame s)
    as (_ & Fa & Fb & Fspi & _ & Fen & _ & _ & _ & _ & Ffa & Ffb & Ffc & _).
  rewrite <- Fa in La. rewrite <- Fb in Lb. rewrite <- Fspi in Fd.
  rewrite <- Fen, <- Ffa, <- Ffb, <- Ffc, <- Fspi.
  revert Hinv La Lb Fd Hcur' Hp'. rewrite Hshape. clear Hshape.
  generalize (display_armed s). intros t.
  generalize (first_message t). intros m Hinv La Lb Fd Hcur' Hp'.
  destruct (completed_from_frame m t)
    as (C1 & C2 & C3 & C4 & C5 & C6 & C7 & C8 & C9 & C10 & C11).
  destruct (with_io_frame a b dev dc (completed_from m t))
    as (W1 & W2 & W3 & W4 & W5 & W6 & W7 & W8 & W9 & W10 & W11).
  assert (Hpf : panel_ok (with_io a b dev dc (completed_from m t))).
  { apply (panel_ok_io (completed_from m t)).
    - apply panel_ok_completed. exact Hp'.
    - exists a, b, dev, dc. split; [reflexivity|]. split; [exact La|].
      split; [exact Lb|rewrite C11; exact Fd]. }
  rewrite W2, W3, W4, W5, W6, W7, W8, W9, W11, C2, C3, C4, C5, C6, C7, C8, C9.
  split; [|repeat split; exact Fd].
  split; [exact Hinv|]. split; [rewrite W1; exact C1|].
  split; [rewrite W10, C10; exact Hcur'|exact Hpf].
Qed.

Lemma run_first_message_bytes : forall t m,
  panel_ok t -> job_ok m -> fault_free t ->
  io_effect (job_pixel_bytes m)
            (3 * (job_end m - Msg.chunk_idx m + 1))
            (8 * (job_end m - Msg.chunk_idx m + 1))
            t (run_display_task (Z.to_nat MAX_CHUNKS) (set_display_queue (Some [m]) t)).
Proof.
  intros t m Hp Hjob Hff.
  pose proof (job_end_bound m) as Hend.
  pose proof Hjob as (Hk & _).
  assert (Hfuel : (4 < Z.to_nat MAX_CHUNKS)%nat)
    by (change (Z.to_nat MAX_CHUNKS) with 5%nat; lia).
  assert (Hn : job_end m - Msg.chunk_idx m <= Z.of_nat 4) by lia.
  eapply io_effect_ctl;
    [exact (run_job_bytes 4 (set_display_queue (Some [m]) t) m (Z.to_nat MAX_CHUNKS)
              eq_refl Hp Hjob Hff Hn Hfuel)
    |reflexivity|reflexivity].
Qed.

Lemma use_dirty_rect_of_armed : forall s,
  use_dirty_rect_of (display_armed s) = use_dirty_rect_of s.
Proof. intros s. reflexivity. Qed.

Lemma fault_free_armed : forall s, fault_free s -> fault_free (display_armed s).
Proof. intros s H. exact H. Qed.

(** What one present sends on a healthy device: the dirty rectangle's
    pixels, or the whole frame; and one address window (three command
    bytes, eight argument bytes) for each chunk it touches. *)
Lemma present_bytes : forall s,
  ready s -> fault_free s ->
  (use_dirty_rect_of s = true ->
   rect_on_screen ST7735_WIDTH ST7735_HEIGHT (dirty_rect s)) ->
  let chunks :=
    if use_dirty_rect_of s
    then (Rect.y (dirty_rect s) + Rect.h (dirty_rect s) - 1) / 32
         - Rect.y (dirty_rect s) / 32 + 1
    else MAX_CHUNKS in
  io_effect
    (if use_dirty_rect_of s then 2 * Rect.w (dirty_rect s) * Rect.h (dirty_rect s)
     else 2 * ST7735_WIDTH * ST7735_HEIGHT)
    (3 * chunks) (8 * chunks) s (present s).
Proof.
  intros s Hready Hff Hon. cbv zeta.
  unfold present, display. rewrite (display_ready s Hready).
  change (snd (exit_started, ?x)) with x.
  destruct Hready as ((a & b & c & q & Hst & Hr & _) & _ & _ & Hp).
  pose proof Hp as (_ & _ & _ & _ & Htot & _).
  apply panel_ok_armed in Hp. apply fault_free_armed in Hff.
  destruct (display_armed_frame s) as (Ft & _ & _ & Fspi & Fd & _ & _ & Ftidx & _).
  rewrite <- Ft in Htot. rewrite <- Ftidx in Hr.
  rewrite <- (use_dirty_rect_of_armed s) in *. rewrite <- Fd in *.
  destruct (first_message_job (display_armed s) Htot Hr Hon) as (Hjob & Hpx & Hch).
  rewrite <- Hpx, <- Hch.
  eapply io_effect_ctl;
    [exact (run_first_message_bytes (display_armed s) _ Hp Hjob Hff)
    |exact Fspi|reflexivity].
Qed.

(** * Ready states *)

Lemma begin_ready : forall p g s0,
  begin p (TFT7735V_constructor g) = (true, s0) -> platform_ok p ->
  ready s0 /\
  spi_fault (spi_device s0) = attached_device_fault p /\
  dirty_rect s0 = g /\ dirty_rect_enabled s0 = true /\ force_full_redraw s0 = false.
Proof.
  intros p g s0 Hbegin Hp.
  pose proof (begin_inv p g s0 Hbegin) as Hinv.
  split; [split; [exact Hinv|]|]; clear Hinv; revert Hbegin Hp;
    destruct p as [r1 r2 fault pa pb pc sa sb qok semok tok];
    unfold begin, init_framebuffer, init_double_buffering, platform_ok; cbn;
    (destruct (r1 =? ESP_OK); cbn; [|discriminate]);
    (destruct (r2 =? ESP_OK); cbn; [|discriminate]);
    (destruct pa as [a|]; cbn; [|discriminate]);
    (destruct pb as [b|]; cbn; [|discriminate]);
    (destruct pc as [c|]; cbn; [|discriminate]);
    (destruct sa as [a'|]; cbn; [|discriminate]);
    (destruct sb as [b'|]; cbn; [|discriminate]);
    (destruct qok; cbn; [|discriminate]);
    (destruct semok; cbn; [|discriminate]);
    (destruct tok; cbn; [|discriminate]);
    intros H (Ha & Hb & Hc & Hsa & Hsb); inversion H; subst; clear H.
  - split; [reflexivity|]. split; [discriminate|].
    unfold panel_ok, allocated. cbn.
    repeat split; try reflexivity;
      eexists; (split; [reflexivity|]); unfold memset_zero; rewrite ?length_map; auto.
  - cbn. repeat split.
Qed.

Lemma length_demo_block : forall n v, 0 <= n -> Z.of_nat (length (demo_block n v)) = n.
Proof. intros n v Hn. unfold demo_block. rewrite repeat_length. apply Z2Nat.id. exact Hn. Qed.

Lemma demo_platform_ok : forall fault, platform_ok (demo_platform fault).
Proof.
  intros fault. unfold platform_ok, demo_platform. cbn [psram_block_a psram_block_b psram_block_c sram_block_a sram_block_b].
  repeat split; intros l H; injection H as <-;
    rewrite length_demo_block by lia; reflexivity.
Qed.

Lemma ready_expand_dirty_rect : forall x y w h s,
  ready s -> ready (expand_dirty_rect x y w h s).
Proof.
  intros x y w h s H. unfold expand_dirty_rect.
  repeat match goal with
         | |- context [if ?c then _ else _] => destruct c
         end; exact H.
Qed.


Lemma ready_enableDirtyRect : forall enable s, ready s -> ready (enableDirtyRect enable s).
Proof. intros enable s H. destruct enable; exact H. Qed.

Lemma allocated_map : forall n f p,
  (forall l, length (f l) = length l) -> allocated n p -> allocated n (option_map f p).
Proof.
  intros n f p Hf (l & -> & Hl). exists (f l). split; [reflexivity|].
  rewrite Hf. exact Hl.
Qed.

Lemma ready_fb_write : forall f s,
  (forall l, length (f l) = length l) -> ready s -> ready (fb_write f s).
Proof.
  intros f s Hf (Hinv & Hprog & Hcur & Hp).
  destruct Hp as (Hi & He & Hw & Hh & Ht & Ha & Hb & Hc & Hsa & Hsb).
  unfold fb_write. destruct (current_framebuffer s) as [i|] eqn:Ecur; [|congruence].
  destruct (i =? 0); [|destruct (i =? 1); [|destruct (i =? 2)]];
    (split; [exact Hinv|]); (split; [exact Hprog|]);
    (split; [tft_simpl; congruence|]);
    unfold panel_ok; tft_simpl; repeat split; try assumption;
    apply allocated_map; assumption.
Qed.

Lemma ready_fb_fill_screen : forall color s, ready s -> ready (fb_fill_screen color s).
Proof.
  intros color s H. unfold fb_fill_screen.
  destruct (is_null (current_framebuffer s)); [exact H|].
  cbv zeta. apply ready_expand_dirty_rect. apply ready_fb_write; [|exact H].
  intros l. apply length_overwrite.
Qed.

Lemma demo_begun_ready : forall fault,
  ready (demo_begun fault) /\
  spi_fault (spi_device (demo_begun fault)) = fault /\
  dirty_rect (demo_begun fault) = Rect.mk 0 0 0 0 false /\
  dirty_rect_enabled (demo_begun fault) = true /\
  force_full_redraw (demo_begun fault) = false.
Proof.
  intros fault.
  exact (begin_ready _ _ _ (demo_begin_succeeds fault) (demo_platform_ok fault)).
Qed.

(** * The transfer claims: C2, C3, C6, C7, C8 *)

Lemma fault_free_no_fault : fault_free (demo_begun no_fault).
Proof.
  intros n. destruct (demo_begun_ready no_fault) as (_ & -> & _). reflexivity.
Qed.

Lemma fault_free_expand_dirty_rect : forall x y w h s,
  fault_free s -> fault_free (expand_dirty_rect x y w h s).
Proof.
  intros x y w h s H. unfold expand_dirty_rect.
  repeat match goal with
         | |- context [if ?c then _ else _] => destruct c
         end; exact H.
Qed.


Lemma dirty_demo_facts :
  ready dirty_demo /\ fault_free dirty_demo /\
  dirty_rect_enabled dirty_demo = true /\
  dirty_rect dirty_demo = Rect.mk 10 10 20 20 true /\
  force_full_redraw dirty_demo = false.
Proof.
  split; [apply ready_expand_dirty_rect; apply demo_begun_ready|].
  split; [apply fault_free_expand_dirty_rect; apply fault_free_no_fault|].
  repeat split; vm_compute; reflexivity.
Qed.


(** A present reports completion. *)
Lemma present_completes : forall s,
  ready s ->
  display_in_progress (present s) = false /\ display_done_flag (present s) = true.
Proof.
  intros s Hready.
  destruct (present_ready s Hready) as ((_ & Hprog & _) & Hdone & _).
  split; assumption.
Qed.

(** C6.  A present in dirty mode (tracking enabled, the rectangle valid
    and on the screen, no forced redraw) on a device that fails no
    transmit completes, and the pixel bytes it sends, over the row
    transfers of all the chunks it touches, are [2 * dw * dh]. *)
Theorem dirty_present_pixel_bytes : forall s,
  ready s -> fault_free s ->
  dirty_rect_enabled s = true -> Rect.valid (dirty_rect s) = true ->
  force_full_redraw s = false ->
  rect_on_screen ST7735_WIDTH ST7735_HEIGHT (dirty_rect s) ->
  display_in_progress (present s) = false /\
  display_done_flag (present s) = true /\
  pixel_bytes (present s)
  = pixel_bytes s + 2 * Rect.w (dirty_rect s) * Rect.h (dirty_rect s).
Proof.
  intros s Hready Hff Hen Hv Hforce Hon.
  destruct (present_completes s Hready) as [Hprog Hdone].
  split; [exact Hprog|]. split; [exact Hdone|].
  assert (Hmode : use_dirty_rect_of s = true)
    by (unfold use_dirty_rect_of; rewrite Hen, Hv, Hforce; reflexivity).
  pose proof (present_bytes s Hready Hff (fun _ => Hon)) as Hbytes.
  cbv zeta in Hbytes. rewrite Hmode in Hbytes.
  destruct Hbytes as (_ & Hpx & _). exact Hpx.
Qed.

Lemma dirty_present_pixel_bytes_witness :
  pixel_bytes (present dirty_demo) = pixel_bytes dirty_demo + 2 * 20 * 20.
Proof.
  destruct dirty_demo_facts as (Hready & Hff & Hen & Hd & Hforce).
  pose proof (dirty_present_pixel_bytes dirty_demo Hready Hff Hen) as H.
  rewrite Hd in H. apply H.
  - reflexivity.
  - exact Hforce.
  - unfold rect_on_screen, ST7735_WIDTH, ST7735_HEIGHT. cbn. lia.
Defined.

(** A present that takes the full-frame path sends the frame and one
    address window per chunk. *)
Lemma present_full_frame_effect : forall s,
  ready s -> fault_free s -> use_dirty_rect_of s = false ->
  io_effect (2 * ST7735_WIDTH * ST7735_HEIGHT) (3 * MAX_CHUNKS) (8 * MAX_CHUNKS)
            s (present s).
Proof.
  intros s Hready Hff Hmode.
  assert (Hon : use_dirty_rect_of s = true ->
                rect_on_screen ST7735_WIDTH ST7735_HEIGHT (dirty_rect s))
    by (rewrite Hmode; discriminate).
  pose proof (present_bytes s Hready Hff Hon) as Hbytes.
  cbv zeta in Hbytes. rewrite Hmode in Hbytes. exact Hbytes.
Qed.

(** C7, as the code has it.  A full-frame present on a device that fails
    no transmit completes and sends [2 * W * H] pixel bytes, and for each
    of the [MAX_CHUNKS] chunks one CASET, one RASET and one RAMWR: 3
    command bytes and 8 argument bytes per chunk, 55 bytes of overhead in
    all. *)
Theorem full_frame_present_bytes : forall s,
  ready s -> fault_free s -> use_dirty_rect_of s = false ->
  display_in_progress (present s) = false /\
  display_done_flag (present s) = true /\
  pixel_bytes (present s) = pixel_bytes s + 2 * ST7735_WIDTH * ST7735_HEIGHT /\
  command_bytes (present s) = command_bytes s + 3 * MAX_CHUNKS /\
  argument_bytes (present s) = argument_bytes s + 8 * MAX_CHUNKS.
Proof.
  intros s Hready Hff Hmode.
  destruct (present_completes s Hready) as [Hprog Hdone].
  split; [exact Hprog|]. split; [exact Hdone|].
  destruct (present_full_frame_effect s Hready Hff Hmode) as (_ & Hpx & Hcmd & Harg).
  repeat split; assumption.
Qed.

Lemma full_frame_present_bytes_witness :
  pixel_bytes (present (demo_begun no_fault))
  = pixel_bytes (demo_begun no_fault) + 2 * ST7735_WIDTH * ST7735_HEIGHT /\
  command_bytes (present (demo_begun no_fault))
  = command_bytes (demo_begun no_fault) + 3 * MAX_CHUNKS /\
  argument_bytes (present (demo_begun no_fault))
  = argument_bytes (demo_begun no_fault) + 8 * MAX_CHUNKS.
Proof.
  apply (full_frame_present_bytes (demo_begun no_fault)).
  - apply demo_begun_ready.
  - exact fault_free_no_fault.
  - vm_compute. reflexivity.
Defined.

(** C7 as stated fails: the overhead of a full-frame present is 55 bytes,
    not 11. *)
Lemma full_frame_overhead_counterexample :
  use_dirty_rect_of (demo_begun no_fault) = false /\
  total_bytes (present (demo_begun no_fault)) - total_bytes (demo_begun no_fault)
  <> 2 * ST7735_WIDTH * ST7735_HEIGHT + 11.
Proof.
  split; [vm_compute; reflexivity|]. vm_compute. discriminate.
Qed.






(** C3, the code at the failing input.  The device fails the first row of
    chunk 0 of a dirty present over chunks 0 and 1.  The job is not
    stopped: chunk 1 is sent (8 rows of 20 pixels, 320 bytes, of the 800
    of the rectangle).  The buffer is released and completion is
    signalled; but the dirty rectangle is cleared. *)
Theorem transmit_error_clears_dirty :
  dirty_rect transmit_error_demo = Rect.mk 10 20 20 20 true /\
  map ev_ret (firstn 1 (skipn 29 (spi_log (spi_device (present transmit_error_demo)))))
  = [ESP_FAIL] /\
  pixel_bytes (present transmit_error_demo) = 320 /\
  buffer_states (present transmit_error_demo)
  = [BUFFER_STATE_IDLE; BUFFER_STATE_RENDERING; BUFFER_STATE_IDLE] /\
  display_done_flag (present transmit_error_demo) = true /\
  display_done_semaphore (present transmit_error_demo) = Some true /\
  dirty_rect (present transmit_error_demo) = Rect.mk 0 0 0 0 false.
Proof. repeat split; vm_compute; reflexivity. Qed.

(** The transfer engine never writes a frame buffer. *)
Lemma process_chunk_keeps_framebuffers : forall msg s,
  framebuffer_a (process_chunk msg s) = framebuffer_a s /\
  framebuffer_b (process_chunk msg s) = framebuffer_b s /\
  framebuffer_c (process_chunk msg s) = framebuffer_c s.
Proof.
  intros msg s.
  destruct (io_only_process_chunk msg s) as (a & b & dev & dc & -> & _).
  repeat split.
Qed.

(** C8, the code at the failing input.  A full-frame present of a screen
    filled with 0x1234 on the device that fails the first pixel
    transaction: after the worker's first iteration the source frame
    buffer still holds 0x1234, and the first 2048 words of bounce buffer A
    are left byte-swapped, 0x3412, the rest as copied. *)
Theorem full_frame_error_leaves_buffer_swapped :
  Msg.use_dirty_rect (first_message (display_armed full_frame_error_demo)) = false /\
  option_map (firstn 2) (framebuffer_a (run_display_task 1 (display full_frame_error_demo)))
  = Some [0x1234; 0x1234] /\
  option_map (fun b => (firstn 2 b, firstn 2 (skipn 2047 b)))
    (sram_buffer_a (run_display_task 1 (display full_frame_error_demo)))
  = Some ([0x3412; 0x3412], [0x3412; 0x1234]).
Proof. repeat split; vm_compute; reflexivity. Qed.

(** * The claims of the coordinator and of the accumulator at the demo panel *)

Lemma set_buffer_states_guards : forall l s,
  buffer_states (set_buffer_states l s) = l /\
  framebuffer_enabled (set_buffer_states l s) = framebuffer_enabled s /\
  current_framebuffer (set_buffer_states l s) = current_framebuffer s /\
  initialized (set_buffer_states l s) = initialized s /\
  display_in_progress (set_buffer_states l s) = display_in_progress s /\
  display_queue (set_buffer_states l s) = display_queue s.
Proof. intros l s. repeat split. Qed.

Lemma no_idle_demo_facts : no_idle_buffer no_idle_demo.
Proof.
  intros i Hi. unfold no_idle_demo.
  destruct (set_buffer_states_guards
              [BUFFER_STATE_RENDERING; BUFFER_STATE_TRANSFERRING;
               BUFFER_STATE_TRANSFERRING] (demo_begun no_fault)) as (-> & _).
  assert (Hcases : i = 0 \/ i = 1 \/ i = 2) by lia.
  destruct Hcases as [->|[->| ->]]; vm_compute; discriminate.
Qed.

Lemma display_without_idle_buffer_witness :
  display no_idle_demo = no_idle_demo /\
  fst (display_traced no_idle_demo) = exit_no_idle_buffer.
Proof.
  destruct (display_without_idle_buffer no_idle_demo no_idle_demo_facts)
    as (Hsame & _ & Hexit).
  split; [exact Hsame|].
  destruct (demo_begun_ready no_fault) as ((Hinv & Hprog & Hfb & Hpanel) & _).
  destruct Hpanel as (Hini & Hen & _).
  destruct Hinv as (a & b & c & q & _ & _ & _ & _ & Hq & _).
  pose proof (set_buffer_states_guards
                [BUFFER_STATE_RENDERING; BUFFER_STATE_TRANSFERRING;
                 BUFFER_STATE_TRANSFERRING] (demo_begun no_fault))
    as (_ & Gen & Gfb & Gini & Gprog & Gq).
  fold no_idle_demo in Gen, Gfb, Gini, Gprog, Gq.
  apply Hexit.
  - rewrite Gen. exact Hen.
  - rewrite Gfb. exact Hfb.
  - rewrite Gini. exact Hini.
  - rewrite Gprog. exact Hprog.
  - rewrite Gq, Hq. discriminate.
Defined.

Lemma display_while_in_progress_witness :
  display (display (demo_begun no_fault)) = display (demo_begun no_fault) /\
  exists msg, display_queue (display (demo_begun no_fault)) = Some [msg].
Proof.
  assert (Hprog : display_in_progress (display (demo_begun no_fault)) = true)
    by (vm_compute; reflexivity).
  destruct (display_while_in_progress _ Hprog) as (Hsame & _ & Hqueue).
  split; [exact Hsame|]. apply Hqueue.
  exists (demo_platform no_fault), (Rect.mk 0 0 0 0 false), (demo_begun no_fault).
  split.
  - exact (demo_begin_succeeds no_fault).
  - eapply steps_next; [apply steps_refl|apply step_display].
Defined.

Lemma expand_dirty_rect_bounding_box_witness :
  dirty_rect (mark_all demo_marks (demo_begun no_fault)) = Rect.mk 10 10 118 150 true /\
  bounding_box (dirty_rect (mark_all demo_marks (demo_begun no_fault)))
               (touched ST7735_WIDTH ST7735_HEIGHT demo_marks).
Proof.
  destruct (demo_begun_ready no_fault) as ((_ & _ & _ & Hpanel) & _ & Hd & Hen & _).
  destruct Hpanel as (_ & _ & HW & HH & _).
  assert (Hinv : Rect.valid (dirty_rect (demo_begun no_fault)) = false)
    by (rewrite Hd; reflexivity).
  assert (Hcalls : Forall uint16_call demo_marks)
    by (repeat constructor; cbn; lia).
  destruct (expand_dirty_rect_bounding_box (demo_begun no_fault) demo_marks Hen Hinv)
    as (Hfold & _ & Hbox).
  - rewrite HW. unfold ST7735_WIDTH. lia.
  - rewrite HH. unfold ST7735_HEIGHT. lia.
  - exact Hcalls.
  - rewrite HW, HH in Hbox. rewrite HW, HH, Hd in Hfold. split.
    + rewrite Hfold. vm_compute. reflexivity.
    + apply Hbox. exists 10, 10, (10, 10, 20, 20).
      split; [left; reflexivity|].
      unfold touches, ST7735_WIDTH, ST7735_HEIGHT. lia.
Defined.

(** * Byte order *)

Lemma lor_shiftl_add : forall a b k,
  0 <= k -> 0 <= b < 2 ^ k -> Z.lor (Z.shiftl a k) b = a * 2 ^ k + b.
Proof.
  intros a b k Hk Hb.
  pose proof (Z.add_lor_land (Z.shiftl a k) b) as Hadd.
  assert (Hland : Z.land (Z.shiftl a k) b = 0).
  { apply Z.bits_inj'. intros n Hn.
    rewrite Z.land_spec, Z.bits_0.
    destruct (Z.lt_ge_cases n k) as [Hlt|Hge].
    - rewrite Z.shiftl_spec_low by assumption. reflexivity.
    - destruct (Z.eq_dec b 0) as [->|Hnz].
      + rewrite Z.bits_0. apply andb_false_r.
      + rewrite (Z.bits_above_log2 b n); [apply andb_false_r|lia|].
        apply Z.lt_le_trans with k; [|exact Hge].
        apply Z.log2_lt_pow2; lia. }
  rewrite Hland, Z.add_0_r in Hadd. rewrite Hadd.
  rewrite Z.shiftl_mul_pow2 by assumption. reflexivity.
Qed.

Lemma bswap16_bytes : forall v,
  uint16_word v -> bswap16 v = (v mod 256) * 256 + v / 256.
Proof.
  intros v Hv. unfold uint16_word in Hv. unfold bswap16.
  change 255 with (Z.ones 8).
  rewrite !Z.land_ones by lia. rewrite Z.shiftr_div_pow2 by lia.
  change (2 ^ 8) with 256.
  assert (Hhi : 0 <= v / 256 < 256)
    by (split; [apply Z.div_pos; lia|apply Z.div_lt_upper_bound; lia]).
  rewrite (Z.mod_small (v / 256)) by exact Hhi.
  rewrite lor_shiftl_add; [reflexivity|lia|exact Hhi].
Qed.

Lemma bswap16_uint16 : forall v, uint16_word v -> uint16_word (bswap16 v).
Proof.
  intros v Hv. rewrite bswap16_bytes by exact Hv. unfold uint16_word in *.
  pose proof (Z.mod_pos_bound v 256 ltac:(lia)).
  assert (0 <= v / 256 < 256)
    by (split; [apply Z.div_pos; lia|apply Z.div_lt_upper_bound; lia]).
  lia.
Qed.



Lemma bswap_range_uint16 : forall buf off n,
  Forall uint16_word buf -> Forall uint16_word (bswap_range off n buf).
Proof.
  induction buf as [|v r IH]; intros off n Hbuf; cbn [bswap_range].
  - constructor.
  - inversion Hbuf as [|? ? Hv Hr]; subst.
    destruct off as [|off']; [destruct n as [|n']|].
    + exact Hbuf.
    + constructor; [apply bswap16_uint16; exact Hv|apply IH; exact Hr].
    + constructor; [exact Hv|apply IH; exact Hr].
Qed.


(** * The pixel words a transfer sends *)

Lemma wire_words_refl : forall s, wire_words [] s s.
Proof. intros s. split; [reflexivity|]. rewrite app_nil_r. reflexivity. Qed.

Lemma wire_words_trans : forall ws ws' s1 s2 s3,
  wire_words ws s1 s2 -> wire_words ws' s2 s3 -> wire_words (ws ++ ws') s1 s3.
Proof.
  intros ws ws' s1 s2 s3 [F1 W1] [F2 W2]. split.
  - rewrite F2. exact F1.
  - rewrite W2, W1, app_assoc. reflexivity.
Qed.

Lemma wire_words_eq : forall ws ws' s s',
  wire_words ws s s' -> ws = ws' -> wire_words ws' s s'.
Proof. intros ws ws' s s' H <-. exact H. Qed.

Lemma wire_words_fault_free : forall ws s s',
  wire_words ws s s' -> fault_free s -> fault_free s'.
Proof. intros ws s s' [F _] Hff n. rewrite F. apply Hff. Qed.


Lemma pixel_words_transmit : forall t s,
  pixel_words (snd (spi_device_polling_transmit t s))
  = pixel_words s
    ++ pixel_words_of (mkEvent (dc_pin_level s) t
                         (spi_fault (spi_device s) (length (spi_log (spi_device s))))).
Proof.
  intros t s. unfold spi_device_polling_transmit, pixel_words. cbv zeta. tft_simpl.
  cbn [spi_log]. rewrite flat_map_app. cbn [flat_map]. rewrite app_nil_r. reflexivity.
Qed.

Lemma write_command_words : forall c s, wire_words [] s (write_command c s).
Proof.
  intros c s. unfold write_command. cbv zeta. split.
  - reflexivity.
  - rewrite pixel_words_transmit. reflexivity.
Qed.

Lemma write_data_words : forall c s, wire_words [] s (write_data c s).
Proof.
  intros c s. unfold write_data. cbv zeta. split.
  - reflexivity.
  - rewrite pixel_words_transmit. reflexivity.
Qed.

Ltac words_chain :=
  repeat lazymatch goal with
    | |- wire_words [] _ (write_command _ _) =>
        eapply (wire_words_trans [] []); [ | apply write_command_words ]
    | |- wire_words [] _ (write_data _ _) =>
        eapply (wire_words_trans [] []); [ | apply write_data_words ]
    end;
  apply wire_words_refl.

Lemma set_addr_window_words : forall x0 y0 x1 y1 s,
  wire_words [] s (set_addr_window x0 y0 x1 y1 s).
Proof. intros. unfold set_addr_window. cbv zeta. words_chain. Qed.








Lemma gpio_set_level_dc_frame : forall v s,
  wire_words [] s (gpio_set_level_dc v s) /\
  sram_buffer_a (gpio_set_level_dc v s) = sram_buffer_a s /\
  sram_buffer_b (gpio_set_level_dc v s) = sram_buffer_b s /\
  width (gpio_set_level_dc v s) = width s /\
  dc_pin_level (gpio_set_level_dc v s) = v.
Proof.
  intros v s. split; [|repeat split].
  split; [reflexivity|]. unfold pixel_words. tft_simpl. rewrite app_nil_r. reflexivity.
Qed.
























(** * Claim C4: a present with a forced full redraw *)





(** * The bounce buffers after a send *)



(** * The worker and the frames *)

Lemma after_chunk_frame : forall msg s,
  framebuffer_a (after_chunk msg s) = framebuffer_a s /\
  framebuffer_b (after_chunk msg s) = framebuffer_b s /\
  framebuffer_c (after_chunk msg s) = framebuffer_c s /\
  current_framebuffer (after_chunk msg s) = current_framebuffer s /\
  render_buffer_idx (after_chunk msg s) = render_buffer_idx s /\
  width (after_chunk msg s) = width s /\
  height (after_chunk msg s) = height s /\
  dirty_rect_enabled (after_chunk msg s) = dirty_rect_enabled s.
Proof.
  intros msg s. unfold after_chunk.
  destruct (Msg.is_last_chunk msg); [repeat split|].
  cbv zeta. destruct (negb (next_is_last msg s)); [|repeat split].
  unfold xQueueSend. destruct (display_queue s) as [q|]; [|repeat split].
  destruct (Z.of_nat (length q) <? DISPLAY_QUEUE_LENGTH); repeat split.
Qed.

Lemma display_task_step_frame : forall s s',
  display_task_step s = Some s' ->
  framebuffer_a s' = framebuffer_a s /\
  framebuffer_b s' = framebuffer_b s /\
  framebuffer_c s' = framebuffer_c s /\
  current_framebuffer s' = current_framebuffer s /\
  render_buffer_idx s' = render_buffer_idx s /\
  width s' = width s /\
  height s' = height s /\
  dirty_rect_enabled s' = dirty_rect_enabled s.
Proof.
  intros s s' Hstep. unfold display_task_step in Hstep.
  destruct (display_queue s) as [[|msg q]|]; try discriminate.
  injection Hstep as <-. unfold display_task_body.
  destruct (io_only_process_chunk msg (set_display_queue (Some q) s))
    as (a & b & dev & dc & Hio & _).
  destruct (after_chunk_frame msg (process_chunk msg (set_display_queue (Some q) s)))
    as (Fa & Fb & Fc & Fcur & Fr & Fw & Fh & Fe).
  rewrite Fa, Fb, Fc, Fcur, Fr, Fw, Fh, Fe, Hio. repeat split.
Qed.

Lemma run_display_task_frame : forall n s,
  framebuffer_a (run_display_task n s) = framebuffer_a s /\
  framebuffer_b (run_display_task n s) = framebuffer_b s /\
  framebuffer_c (run_display_task n s) = framebuffer_c s /\
  current_framebuffer (run_display_task n s) = current_framebuffer s /\
  render_buffer_idx (run_display_task n s) = render_buffer_idx s /\
  width (run_display_task n s) = width s /\
  height (run_display_task n s) = height s /\
  dirty_rect_enabled (run_display_task n s) = dirty_rect_enabled s.
Proof.
  induction n as [|n IH]; intros s; cbn [run_display_task]; [repeat split|].
  destruct (display_task_step s) as [s'|] eqn:Hstep; [|repeat split].
  destruct (display_task_step_frame s s' Hstep) as (Fa & Fb & Fc & Fcur & Fr & Fw & Fh & Fe).
  destruct (IH s') as (Ga & Gb & Gc & Gcur & Gr & Gw & Gh & Ge).
  repeat split; congruence.
Qed.

(** X2.  On the 128 x 160 panel, from a state with no present in progress
    and a dirty rectangle that lies on the screen when it is used (the
    states in which every chunk copy and every in-place swap stays inside
    its bounce buffer): [display()] followed by any number of iterations
    of the transfer worker, whatever the SPI device answers, writes no
    frame buffer, and the worker does not move the render target:
    [current_framebuffer] and the render index stay where [display()] put
    them, the geometry and the tracking switch are as before. *)
Theorem present_writes_no_frame_buffer : forall n s,
  ready s ->
  (use_dirty_rect_of s = true ->
   rect_on_screen ST7735_WIDTH ST7735_HEIGHT (dirty_rect s)) ->
  let s' := run_display_task n (display s) in
  framebuffer_a s' = framebuffer_a s /\
  framebuffer_b s' = framebuffer_b s /\
  framebuffer_c s' = framebuffer_c s /\
  current_framebuffer s' = current_framebuffer (display s) /\
  render_buffer_idx s' = render_buffer_idx (display s) /\
  width s' = width s /\ height s' = height s /\
  dirty_rect_enabled s' = dirty_rect_enabled s.
Proof.
  intros n s Hready _. cbv zeta.
  destruct (run_display_task_frame n (display s))
    as (Fa & Fb & Fc & Fcur & Fr & Fw & Fh & Fe).
  rewrite Fa, Fb, Fc, Fcur, Fr, Fw, Fh, Fe.
  unfold display. rewrite (display_ready s Hready). cbn [snd].
  repeat split.
Qed.

(** X3.  In a state reached after [begin], [display()] never fails to post
    its message: the queue holds at most the one message of the present
    in progress, so the "Failed to send display message" return is never
    taken. *)
Theorem display_queue_send_never_fails : forall s,
  reachable s -> fst (display_traced s) <> exit_queue_send_failed.
Proof.
  intros s Hreach. apply reachable_inv in Hreach.
  unfold display_traced.
  destruct (negb (framebuffer_enabled s) || is_null (current_framebuffer s));
    [discriminate|].
  destruct (negb (initialized s)); [discriminate|].
  destruct (display_in_progress s) eqn:Hprog; [discriminate|].
  destruct (is_null (display_queue s)); [discriminate|].
  destruct (find_idle (buffer_states s) =? 255); [discriminate|].
  destruct Hreach as (a & b & c & q & _ & _ & _ & _ & Hq & Hrest).
  rewrite Hprog in Hrest. destruct Hrest as [-> _].
  cbv zeta.
  erewrite xQueueSend_ok; [|tft_simpl; exact Hq|cbn; unfold DISPLAY_QUEUE_LENGTH; lia].
  discriminate.
Qed.

Lemma waitForDisplayDone_same : forall s s', waitForDisplayDone s = Some s' -> s' = s.
Proof.
  intros s s'. destruct_tft s. unfold waitForDisplayDone. tft_simpl.
  destruct sem as [[|]|], prog; intros H; try discriminate H; injection H as <-;
    reflexivity.
Qed.

(** X4.  [waitForDisplayDone()], when it returns, has changed nothing (the
    semaphore it took is given back); it stays blocked exactly when a
    present is in progress and the semaphore has not been given. *)
Theorem waitForDisplayDone_changes_nothing : forall s,
  (forall s', waitForDisplayDone s = Some s' -> s' = s) /\
  (waitForDisplayDone s = None <->
   display_in_progress s = true /\ display_done_semaphore s = Some false).
Proof.
  intros s. split; [apply waitForDisplayDone_same|].
  unfold waitForDisplayDone.
  destruct (display_done_semaphore s) as [[|]|], (display_in_progress s);
    (split; [intros H; try discriminate H; split; reflexivity
            |intros [H1 H2]; try discriminate H1; try discriminate H2; reflexivity]).
Qed.

Ltac begin_failed :=
  let H := fresh in
  intros H; injection H as <-; repeat split;
  try reflexivity; try discriminate; try (intros; discriminate).

(** X5.  When [begin] on a freshly constructed object returns [false],
    the object stays uninitialized and no memory block, queue or semaphore
    stays allocated: the three frame buffers, the two bounce buffers, the
    queue and the semaphore are null, and so is [current_framebuffer].
    The SPI device is not released: when the failure comes after
    [spi_bus_add_device], the handle still is the attached device, which
    has received the 18 transactions of [init_sequence]; and [end()] does
    nothing on the object, so nothing releases it later.  When
    [spi_bus_initialize] or [spi_bus_add_device] fails the handle stays
    null. *)
Theorem begin_failure_frees_memory_not_the_spi_device : forall p garbage s,
  begin p (TFT7735V_constructor garbage) = (false, s) ->
  initialized s = false /\
  framebuffer_a s = None /\ framebuffer_b s = None /\ framebuffer_c s = None /\
  current_framebuffer s = None /\
  sram_buffer_a s = None /\ sram_buffer_b s = None /\
  display_queue s = None /\ display_done_semaphore s = None /\
  end_ s = Some s /\
  ((spi_bus_initialize_ret p =? ESP_OK) && (spi_bus_add_device_ret p =? ESP_OK) = true ->
   spi_fault (spi_device s) = attached_device_fault p /\
   length (spi_log (spi_device s)) = 18%nat) /\
  ((spi_bus_initialize_ret p =? ESP_OK) && (spi_bus_add_device_ret p =? ESP_OK) = false ->
   spi_device s = null_device).
Proof.
  intros [r1 r2 fault pa pb pc sa sb qok semok tok] g s.
  unfold begin, init_framebuffer, init_double_buffering, end_. cbn.
  destruct (r1 =? ESP_OK); cbn; [|begin_failed].
  destruct (r2 =? ESP_OK); cbn; [|begin_failed].
  destruct pa as [a|]; cbn; [|begin_failed].
  destruct pb as [b|]; cbn; [|begin_failed].
  destruct pc as [c|]; cbn; [|begin_failed].
  destruct sa as [a'|]; cbn; [|begin_failed].
  destruct sb as [b'|]; cbn; [|begin_failed].
  destruct qok; cbn; [|begin_failed].
  destruct semok; cbn; [|begin_failed].
  destruct tok; cbn; [|begin_failed].
  discriminate.
Qed.

(** X6.  For a valid dirty rectangle on the 128 x 160 screen,
    [calculate_dirty_chunks] returns the chunks of its first and of its
    last row, in order and below [MAX_CHUNKS], and their count; every row
    of the rectangle lies in one of them. *)
Theorem calculate_dirty_chunks_covers : forall d s,
  total_chunks s = MAX_CHUNKS -> Rect.valid d = true ->
  rect_on_screen ST7735_WIDTH ST7735_HEIGHT d ->
  exists n sc ec,
    calculate_dirty_chunks d s = (n, sc, ec) /\
    sc = Rect.y d / CHUNK_HEIGHT /\ ec = (Rect.y d + Rect.h d - 1) / CHUNK_HEIGHT /\
    0 <= sc <= ec /\ ec < MAX_CHUNKS /\ n = ec - sc + 1 /\
    forall row, Rect.y d <= row < Rect.y d + Rect.h d ->
                sc * CHUNK_HEIGHT <= row < (ec + 1) * CHUNK_HEIGHT.
Proof.
  intros d s Htot Hv Hon.
  unfold rect_on_screen, ST7735_WIDTH, ST7735_HEIGHT in Hon.
  unfold calculate_dirty_chunks. rewrite Hv, Htot, MAX_CHUNKS_eq, CHUNK_HEIGHT_eq.
  cbn [negb]. cbv zeta.
  rewrite !Z.quot_div_nonneg by lia.
  destruct (div32_bounds (Rect.y d) ltac:(lia)) as [Hs1 Hs2].
  destruct (div32_bounds (Rect.y d + Rect.h d - 1) ltac:(lia)) as [He1 He2].
  set (sc := Rect.y d / 32) in *.
  set (ec := (Rect.y d + Rect.h d - 1) / 32) in *.
  rewrite (u8_small sc), (u8_small ec) by lia.
  destruct (Z.geb_spec sc 5); [lia|]. destruct (Z.geb_spec ec 5); [lia|].
  assert (Hse : sc <= ec) by lia.
  rewrite (u8_small (ec - sc + 1)) by lia.
  exists (ec - sc + 1), sc, ec.
  repeat split; try reflexivity; try lia.
Qed.

(** * The render target is never the frame in flight *)

Lemma update_current_framebuffer_ok : forall s,
  0 <= render_buffer_idx s < 3 ->
  framebuffer_a s <> None -> framebuffer_b s <> None -> framebuffer_c s <> None ->
  current_framebuffer (update_current_framebuffer s) = Some (render_buffer_idx s).
Proof.
  intros s Hr Ha Hb Hc. unfold update_current_framebuffer, framebuffer_at. tft_simpl.
  destruct (framebuffer_a s) as [fa|]; [|congruence].
  destruct (framebuffer_b s) as [fb|]; [|congruence].
  destruct (framebuffer_c s) as [fc|]; [|congruence].
  set (r := render_buffer_idx s) in *. clearbody r.
  idx_cases r; reflexivity.
Qed.








Lemma fb_write_other_frame : forall f s i,
  current_framebuffer s <> Some i -> framebuffer_at i (fb_write f s) = framebuffer_at i s.
Proof.
  intros f s i Hne. unfold fb_write.
  destruct (current_framebuffer s) as [j|]; [|reflexivity].
  assert (Hij : j <> i) by congruence.
  unfold framebuffer_at.
  destruct (Z.eqb_spec j 0) as [->|]; [|destruct (Z.eqb_spec j 1) as [->|];
    [|destruct (Z.eqb_spec j 2) as [->|]; [|reflexivity]]]; tft_simpl;
    destruct (Z.eqb_spec i 0); destruct (Z.eqb_spec i 1); destruct (Z.eqb_spec i 2);
    try lia; reflexivity.
Qed.


(** * A present always completes *)






(** X11.  On a device that fails no transmit, a present in dirty mode sends
    one address window, 3 command bytes and 8 argument bytes, for each
    chunk the rectangle meets: with the [2 * dw * dh] pixel bytes,
    [11 * ((dy + dh - 1) / 32 - dy / 32 + 1)] bytes of overhead. *)
Theorem dirty_present_total_bytes : forall s,
  ready s -> fault_free s -> use_dirty_rect_of s = true ->
  rect_on_screen ST7735_WIDTH ST7735_HEIGHT (dirty_rect s) ->
  let d := dirty_rect s in
  let chunks := (Rect.y d + Rect.h d - 1) / CHUNK_HEIGHT - Rect.y d / CHUNK_HEIGHT + 1 in
  command_bytes (present s) = command_bytes s + 3 * chunks /\
  argument_bytes (present s) = argument_bytes s + 8 * chunks /\
  total_bytes (present s) = total_bytes s + 2 * Rect.w d * Rect.h d + 11 * chunks.
Proof.
  intros s Hready Hff Hmode Hon. cbv zeta.
  pose proof (present_bytes s Hready Hff (fun _ => Hon)) as Hbytes.
  cbv zeta in Hbytes. rewrite Hmode in Hbytes.
  destruct Hbytes as (_ & Hpx & Hcmd & Harg).
  rewrite CHUNK_HEIGHT_eq. unfold total_bytes.
  split; [exact Hcmd|]. split; [exact Harg|]. lia.
Qed.

(** * Rasterizers *)

Lemma length_list_set : forall (A : Type) (l : list A) n v, length (list_set l n v) = length l.
Proof.
  intros A. induction l as [|a l IH]; intros n v; [reflexivity|].
  destruct n; cbn [list_set length]; [reflexivity|]. rewrite IH. reflexivity.
Qed.

Lemma nth_error_list_set : forall (A : Type) (l : list A) n v i,
  nth_error (list_set l n v) i
  = if Nat.eqb i n && Nat.ltb n (length l) then Some v else nth_error l i.
Proof.
  intros A. induction l as [|a l IH]; intros n v i.
  - cbn [list_set length]. rewrite andb_false_r. reflexivity.
  - destruct n as [|n]; destruct i as [|i]; cbn [list_set nth_error length Nat.eqb];
      try reflexivity.
    rewrite IH. reflexivity.
Qed.

Lemma fb_write_compose : forall F G s,
  fb_write G (fb_write F s) = fb_write (fun fb => G (F fb)) s.
Proof.
  intros F G s. destruct_tft s. unfold fb_write. tft_simpl.
  destruct cfb as [i|]; [|reflexivity].
  destruct (i =? 0) eqn:E0; tft_simpl; rewrite ?E0;
    [destruct fba; reflexivity|].
  destruct (i =? 1) eqn:E1; tft_simpl; rewrite ?E0, ?E1;
    [destruct fbb; reflexivity|].
  destruct (i =? 2) eqn:E2; tft_simpl; rewrite ?E0, ?E1, ?E2;
    [destruct fbc; reflexivity|reflexivity].
Qed.

Lemma fb_write_set_dirty_rect : forall F d s,
  fb_write F (set_dirty_rect d s) = set_dirty_rect d (fb_write F s).
Proof.
  intros F d s. destruct_tft s. unfold fb_write. tft_simpl.
  destruct cfb as [i|]; [|reflexivity].
  destruct (i =? 0); [reflexivity|]. destruct (i =? 1); [reflexivity|].
  destruct (i =? 2); reflexivity.
Qed.

Lemma set_dirty_rect_twice : forall d d' s,
  set_dirty_rect d' (set_dirty_rect d s) = set_dirty_rect d' s.
Proof. intros. reflexivity. Qed.

Lemma fb_write_frame : forall F s,
  width (fb_write F s) = width s /\ height (fb_write F s) = height s /\
  current_framebuffer (fb_write F s) = current_framebuffer s /\
  dirty_rect (fb_write F s) = dirty_rect s /\
  dirty_rect_enabled (fb_write F s) = dirty_rect_enabled s /\
  spi_device (fb_write F s) = spi_device s.
Proof.
  intros F s. destruct_tft s. unfold fb_write. tft_simpl.
  destruct cfb as [i|]; [|repeat split].
  destruct (i =? 0); [repeat split|]. destruct (i =? 1); [repeat split|].
  destruct (i =? 2); repeat split.
Qed.

Lemma current_frame_fb_write : forall F s,
  current_frame (fb_write F s) = option_map F (current_frame s).
Proof.
  intros F s. destruct_tft s. unfold current_frame, fb_write, framebuffer_at. tft_simpl.
  destruct cfb as [i|]; [|reflexivity].
  destruct (i =? 0) eqn:E0; tft_simpl; rewrite ?E0; [reflexivity|].
  destruct (i =? 1) eqn:E1; tft_simpl; rewrite ?E0, ?E1; [reflexivity|].
  destruct (i =? 2) eqn:E2; tft_simpl; rewrite ?E0, ?E1, ?E2; reflexivity.
Qed.

Lemma paints_frame : forall g s s',
  paints g s s' ->
  width s' = width s /\ height s' = height s /\
  current_framebuffer s' = current_framebuffer s /\
  dirty_rect_enabled s' = dirty_rect_enabled s /\
  spi_device s' = spi_device s /\
  (forall i, current_framebuffer s <> Some i -> framebuffer_at i s' = framebuffer_at i s).
Proof.
  intros g s s' (F & d & -> & _).
  destruct (fb_write_frame F s) as (Hw & Hh & Hc & _ & He & Hspi).
  repeat split; try assumption.
  intros i Hi. change (framebuffer_at i (set_dirty_rect d (fb_write F s)))
    with (framebuffer_at i (fb_write F s)).
  apply fb_write_other_frame. exact Hi.
Qed.

Lemma paints_refl : forall s, paints (fun _ _ => None) s s.
Proof.
  intros s. exists (fun fb => fb), (dirty_rect s). split; [|split].
  - destruct_tft s. unfold fb_write. tft_simpl.
    destruct cfb as [i|]; [|reflexivity].
    destruct (i =? 0); [destruct fba; reflexivity|].
    destruct (i =? 1); [destruct fbb; reflexivity|].
    destruct (i =? 2); [destruct fbc; reflexivity|reflexivity].
  - reflexivity.
  - reflexivity.
Qed.

Lemma paints_trans : forall g1 g2 s1 s2 s3,
  paints g1 s1 s2 -> paints g2 s2 s3 -> paints (paint_over g1 g2) s1 s3.
Proof.
  intros g1 g2 s1 s2 s3 H12 H23.
  destruct (paints_frame _ _ _ H12) as (Hw & Hh & _).
  destruct H12 as (F1 & d1 & -> & L1 & P1), H23 as (F2 & d2 & -> & L2 & P2).
  exists (fun fb => F2 (F1 fb)), d2. split; [|split].
  - rewrite fb_write_set_dirty_rect, set_dirty_rect_twice, fb_write_compose. reflexivity.
  - intros fb. rewrite L2, L1. reflexivity.
  - intros fb px py Hlen Hpx Hpy. unfold paint_over.
    rewrite Hw, Hh in P2. rewrite P2 by (rewrite ?L1; assumption).
    destruct (g2 px py); [reflexivity|]. apply P1; assumption.
Qed.

Lemma paints_ext : forall g g' s s',
  paints g s s' ->
  (forall px py, 0 <= px < width s -> 0 <= py < height s -> g px py = g' px py) ->
  paints g' s s'.
Proof.
  intros g g' s s' (F & d & -> & L & P) Hext.
  exists F, d. split; [reflexivity|]. split; [exact L|].
  intros fb px py Hlen Hpx Hpy. rewrite P by assumption. rewrite Hext by assumption.
  reflexivity.
Qed.

Lemma paints_set_dirty_rect : forall g d s s',
  paints g s s' -> paints g s (set_dirty_rect d s').
Proof.
  intros g d s s' (F & d0 & -> & L & P). exists F, d. split; [reflexivity|].
  split; assumption.
Qed.

Lemma paints_expand_dirty_rect : forall g x y w h s s',
  paints g s s' -> paints g s (expand_dirty_rect x y w h s').
Proof.
  intros g x y w h s s' H. unfold expand_dirty_rect.
  repeat match goal with
         | |- context [if ?c then _ else _] => destruct c
         end; try exact H; cbv zeta; apply paints_set_dirty_rect; exact H.
Qed.

Lemma pixel_index_inj : forall W px py col row,
  0 <= px < W -> 0 <= col < W -> 0 <= py -> 0 <= row ->
  (Z.to_nat (py * W + px) = Z.to_nat (row * W + col) <-> px = col /\ py = row).
Proof.
  intros W px py col row Hpx Hcol Hpy Hrow. split.
  - intros H. assert (E : py * W + px = row * W + col) by nia.
    assert (py = row) by nia. subst. lia.
  - intros [-> ->]. reflexivity.
Qed.

Lemma paints_fb_store : forall row col color s,
  0 <= row < height s -> 0 <= col < width s ->
  paints (paint_rect col row 1 1 color) s (fb_store (row * width s + col) color s).
Proof.
  intros row col color s Hrow Hcol. unfold fb_store.
  exists (fun fb => list_set fb (Z.to_nat (row * width s + col)) color), (dirty_rect s).
  split; [|split].
  - destruct (fb_write_frame
                (fun fb => list_set fb (Z.to_nat (row * width s + col)) color) s)
      as (_ & _ & _ & Hd & _).
    rewrite <- Hd. generalize (fb_write (fun fb => list_set fb (Z.to_nat (row * width s + col)) color) s).
    intros t. destruct t; reflexivity.
  - intros fb. apply length_list_set.
  - intros fb px py Hlen Hpx Hpy. rewrite nth_error_list_set. unfold paint_rect.
    destruct (Nat.eqb_spec (Z.to_nat (py * width s + px)) (Z.to_nat (row * width s + col)))
      as [E|E].
    + apply pixel_index_inj in E; try lia. destruct E as [-> ->].
      destruct (Nat.ltb_spec (Z.to_nat (row * width s + col)) (length fb)); [|nia].
      destruct (Z.leb_spec col col); [|lia]. destruct (Z.ltb_spec col (col + 1)); [|lia].
      destruct (Z.leb_spec row row); [|lia]. destruct (Z.ltb_spec row (row + 1)); [|lia].
      reflexivity.
    + cbn [andb].
      destruct (Z.leb_spec col px); destruct (Z.ltb_spec px (col + 1));
        destruct (Z.leb_spec row py); destruct (Z.ltb_spec py (row + 1)); cbn [andb];
        try reflexivity.
      exfalso. apply E. f_equal. assert (px = col) by lia. assert (py = row) by lia.
      subst. reflexivity.
Qed.

Ltac rect_cases :=
  unfold paint_rect, paint_over;
  repeat match goal with
         | |- context [?a <=? ?b] => destruct (Z.leb_spec a b)
         | |- context [?a <? ?b] => destruct (Z.ltb_spec a b)
         end; cbn [andb]; try reflexivity; try lia.

Lemma paints_fb_fill_cols : forall fuel row col x_end c s,
  0 <= row < height s -> 0 <= col -> x_end <= width s -> width s < 65536 ->
  x_end - col <= Z.of_nat fuel ->
  paints (paint_rect col row (x_end - col) 1 c) s (fb_fill_cols fuel row col x_end c s).
Proof.
  induction fuel as [|fuel IH]; intros row col x_end c s Hrow Hcol Hend HW Hfuel;
    cbn [fb_fill_cols].
  - eapply paints_ext; [apply paints_refl|]. intros px py Hpx Hpy. rect_cases.
  - destruct (Z.ltb_spec col x_end) as [Hlt|Hge].
    2: { eapply paints_ext; [apply paints_refl|]. intros px py Hpx Hpy. rect_cases. }
    pose proof (paints_fb_store row col c s Hrow ltac:(lia)) as P1.
    destruct (paints_frame _ _ _ P1) as (Hw1 & Hh1 & _).
    set (s1 := fb_store (row * width s + col) c s) in *. clearbody s1.
    rewrite (u16_small (col + 1)) by lia.
    assert (P2 : paints (paint_rect (col + 1) row (x_end - (col + 1)) 1 c) s1
                   (fb_fill_cols fuel row (col + 1) x_end c s1))
      by (apply IH; rewrite ?Hw1, ?Hh1; lia).
    eapply paints_ext; [eapply paints_trans; [exact P1|exact P2]|].
    intros px py Hpx Hpy. rect_cases.
Qed.

Lemma paints_fb_fill_rows : forall fuel row y_end x w c s,
  0 <= row -> y_end <= height s -> height s < 65536 ->
  0 <= x -> 0 <= w -> x + w <= width s -> width s < 65536 ->
  y_end - row <= Z.of_nat fuel ->
  paints (paint_rect x row w (y_end - row) c) s (fb_fill_rows fuel row y_end x w c s).
Proof.
  induction fuel as [|fuel IH]; intros row y_end x w c s Hrow Hend HH Hx Hw Hxw HW Hfuel;
    cbn [fb_fill_rows].
  - eapply paints_ext; [apply paints_refl|]. intros px py Hpx Hpy. rect_cases.
  - destruct (Z.ltb_spec row y_end) as [Hlt|Hge].
    2: { eapply paints_ext; [apply paints_refl|]. intros px py Hpx Hpy. rect_cases. }
    assert (P1 : paints (paint_rect x row (x + w - x) 1 c) s
                   (fb_fill_cols (Z.to_nat w) row x (x + w) c s))
      by (apply paints_fb_fill_cols; lia).
    destruct (paints_frame _ _ _ P1) as (Hw1 & Hh1 & _).
    set (s1 := fb_fill_cols (Z.to_nat w) row x (x + w) c s) in *. clearbody s1.
    rewrite (u16_small (row + 1)) by lia.
    assert (P2 : paints (paint_rect x (row + 1) w (y_end - (row + 1)) c) s1
                   (fb_fill_rows fuel (row + 1) y_end x w c s1))
      by (apply IH; rewrite ?Hw1, ?Hh1; lia).
    eapply paints_ext; [eapply paints_trans; [exact P1|exact P2]|].
    intros px py Hpx Hpy. rect_cases.
Qed.

Lemma paints_fb_fill_rect : forall x y w h c s,
  current_framebuffer s <> None ->
  0 <= x -> 0 <= y -> 0 <= w -> 0 <= h -> width s < 65536 -> height s < 65536 ->
  paints (paint_rect x y w h c) s (fb_fill_rect x y w h c s).
Proof.
  intros x y w h c s Hcur Hx Hy Hw Hh HW HH. unfold fb_fill_rect.
  destruct (current_framebuffer s) as [i|] eqn:Hi; [|congruence]. cbn [is_null].
  destruct (Z.geb_spec x (width s)) as [Hxo|Hxi]; cbn [orb].
  { eapply paints_ext; [apply paints_refl|]. intros px py Hpx Hpy. rect_cases. }
  destruct (Z.geb_spec y (height s)) as [Hyo|Hyi].
  { eapply paints_ext; [apply paints_refl|]. intros px py Hpx Hpy. rect_cases. }
  cbv zeta. apply paints_expand_dirty_rect.
  set (w' := if x + w >? width s then u16 (width s - x) else w).
  set (h' := if y + h >? height s then u16 (height s - y) else h).
  assert (Hw' : w' = Z.min w (width s - x)).
  { subst w'. destruct (Z.gtb_spec (x + w) (width s)); [rewrite u16_small by lia|]; lia. }
  assert (Hh' : h' = Z.min h (height s - y)).
  { subst h'. destruct (Z.gtb_spec (y + h) (height s)); [rewrite u16_small by lia|]; lia. }
  clearbody w' h'.
  eapply paints_ext.
  - apply (paints_fb_fill_rows (Z.to_nat h') y (y + h') x w' c s); lia.
  - intros px py Hpx Hpy. rect_cases.
Qed.

Lemma paints_pixel_at : forall g s s' fb px py,
  paints g s s' -> current_frame s = Some fb ->
  Z.of_nat (length fb) = width s * height s ->
  0 <= px < width s -> 0 <= py < height s ->
  pixel_at px py s' = match g px py with Some c => Some c | None => pixel_at px py s end.
Proof.
  intros g s s' fb px py (F & d & -> & L & P) Hfb Hlen Hpx Hpy.
  unfold pixel_at.
  change (current_frame (set_dirty_rect d (fb_write F s)))
    with (current_frame (fb_write F s)).
  change (width (set_dirty_rect d (fb_write F s))) with (width (fb_write F s)).
  destruct (fb_write_frame F s) as (Hw & _). rewrite Hw.
  rewrite current_frame_fb_write, Hfb. cbn [option_map]. apply P; assumption.
Qed.








Lemma paints_fb_draw_pixel : forall x y c s,
  current_framebuffer s <> None -> 0 <= x -> 0 <= y ->
  paints (paint_rect x y 1 1 c) s (fb_draw_pixel x y c s).
Proof.
  intros x y c s Hcur Hx Hy. unfold fb_draw_pixel.
  destruct (current_framebuffer s) as [i|] eqn:Hi; [|congruence]. cbn [is_null].
  rewrite orb_false_r.
  destruct (Z.geb_spec x (width s)) as [Hxo|Hxi]; cbn [orb].
  { eapply paints_ext; [apply paints_refl|]. intros px py Hpx Hpy. rect_cases. }
  destruct (Z.geb_spec y (height s)) as [Hyo|Hyi].
  { eapply paints_ext; [apply paints_refl|]. intros px py Hpx Hpy. rect_cases. }
  cbv zeta. apply paints_expand_dirty_rect.
  apply (paints_fb_store y x c s); lia.
Qed.

(** X13.  [fb_draw_pixel] on a frame of [width * height] pixels stores the
    colour at [(x, y)] and leaves every other pixel of the frame as it
    is; outside the screen it changes nothing at all. *)
Theorem fb_draw_pixel_sets_one_pixel : forall x y c s fb,
  current_frame s = Some fb -> Z.of_nat (length fb) = width s * height s ->
  0 <= x -> 0 <= y ->
  (forall px py, 0 <= px < width s -> 0 <= py < height s ->
     pixel_at px py (fb_draw_pixel x y c s)
     = if (px =? x) && (py =? y) then Some c else pixel_at px py s) /\
  (width s <= x \/ height s <= y -> fb_draw_pixel x y c s = s).
Proof.
  intros x y c s fb Hfb Hlen Hx Hy.
  assert (Hcur : current_framebuffer s <> None).
  { unfold current_frame in Hfb. destruct (current_framebuffer s); congruence. }
  split.
  - intros px py Hpx Hpy.
    rewrite (paints_pixel_at (paint_rect x y 1 1 c) s _ fb px py); try assumption.
    + unfold paint_rect.
      destruct (Z.eqb_spec px x), (Z.eqb_spec py y); rect_cases.
    + apply paints_fb_draw_pixel; assumption.
  - intros Hout. unfold fb_draw_pixel.
    destruct (Z.geb_spec x (width s)); [reflexivity|].
    destruct (Z.geb_spec y (height s)); [reflexivity|lia].
Qed.



Lemma paints_bounds : forall g s s',
  paints g s s' ->
  current_framebuffer s <> None -> width s < 65536 -> height s < 65536 ->
  current_framebuffer s' <> None /\ width s' < 65536 /\ height s' < 65536.
Proof.
  intros g s s' H Hcur HW HH.
  destruct (paints_frame _ _ _ H) as (Hw & Hh & Hc & _).
  rewrite Hw, Hh, Hc. repeat split; assumption.
Qed.

Lemma paint_rect_cases : forall x y w h c px py,
  (x <= px < x + w /\ y <= py < y + h /\ paint_rect x y w h c px py = Some c) \/
  (~ (x <= px < x + w /\ y <= py < y + h) /\ paint_rect x y w h c px py = None).
Proof.
  intros. unfold paint_rect.
  destruct (Z.leb_spec x px), (Z.ltb_spec px (x + w)), (Z.leb_spec y py),
    (Z.ltb_spec py (y + h)); cbn [andb];
    solve [left; repeat split; (lia || reflexivity)
          |right; split; [lia|reflexivity]].
Qed.

Lemma paint_outline_cases : forall x y w h c px py,
  (x <= px < x + w /\ y <= py < y + h /\
   (px = x \/ px = x + w - 1 \/ py = y \/ py = y + h - 1) /\
   paint_outline x y w h c px py = Some c) \/
  (~ (x <= px < x + w /\ y <= py < y + h /\
      (px = x \/ px = x + w - 1 \/ py = y \/ py = y + h - 1)) /\
   paint_outline x y w h c px py = None).
Proof.
  intros. unfold paint_outline.
  destruct (Z.leb_spec x px), (Z.ltb_spec px (x + w)), (Z.leb_spec y py),
    (Z.ltb_spec py (y + h)); cbn [andb];
    try solve [right; split; [lia|reflexivity]];
    destruct (Z.eqb_spec px x), (Z.eqb_spec px (x + w - 1)), (Z.eqb_spec py y),
      (Z.eqb_spec py (y + h - 1)); cbn [orb];
    solve [left; repeat split; (lia || reflexivity)
          |right; split; [lia|reflexivity]].
Qed.

Ltac outline_cases :=
  unfold paint_over;
  repeat match goal with
         | |- context [paint_rect ?x ?y ?w ?h ?c ?px ?py] =>
             let Hin := fresh "Hin" in let Heq := fresh "Heq" in
             destruct (paint_rect_cases x y w h c px py)
               as [(Hin & ? & Heq)|(Hin & Heq)]; rewrite Heq; clear Heq
         | |- context [paint_outline ?x ?y ?w ?h ?c ?px ?py] =>
             let Hin := fresh "Hin" in let Heq := fresh "Heq" in
             destruct (paint_outline_cases x y w h c px py)
               as [(Hin & ? & ? & Heq)|(Hin & Heq)]; rewrite Heq; clear Heq
         end; try reflexivity; try (exfalso; lia).

Lemma paints_fb_draw_rect : forall x y w h c s,
  current_framebuffer s <> None ->
  0 <= x -> 0 <= y -> 0 < w -> 0 < h -> x + w <= 65536 -> y + h <= 65536 ->
  width s < 65536 -> height s < 65536 ->
  paints (paint_outline x y w h c) s (fb_draw_rect x y w h c s).
Proof.
  intros x y w h c s Hcur Hx Hy Hw Hh Hxw Hyh HW HH. unfold fb_draw_rect.
  destruct (current_framebuffer s) as [i|] eqn:Hi; [|congruence]. cbn [is_null orb].
  destruct (Z.eqb_spec w 0); [lia|]. destruct (Z.eqb_spec h 0); [lia|]. cbn [orb].
  cbv zeta. unfold fb_draw_fast_hline, fb_draw_fast_vline.
  rewrite (u16_small (y + h - 1)) by lia.
  assert (Hcur0 : current_framebuffer s <> None) by congruence.
  pose proof (paints_fb_fill_rect x y w 1 c s Hcur0 ltac:(lia) ltac:(lia) ltac:(lia)
                ltac:(lia) HW HH) as P1.
  destruct (paints_bounds _ _ _ P1 Hcur0 HW HH) as (Hcur1 & HW1 & HH1).
  destruct (paints_frame _ _ _ P1) as (Hw1 & Hh1 & _).
  set (s1 := fb_fill_rect x y w 1 c s) in *. clearbody s1.
  pose proof (paints_fb_fill_rect x (y + h - 1) w 1 c s1 Hcur1 ltac:(lia) ltac:(lia)
                ltac:(lia) ltac:(lia) HW1 HH1) as P2.
  destruct (paints_bounds _ _ _ P2 Hcur1 HW1 HH1) as (Hcur2 & HW2 & HH2).
  set (s2 := fb_fill_rect x (y + h - 1) w 1 c s1) in *. clearbody s2.
  pose proof (paints_trans _ _ _ _ _ P1 P2) as P12.
  destruct (Z.gtb_spec h 2) as [Hbig|Hsmall].
  2: { eapply paints_ext; [exact P12|]. intros px py Hpx Hpy. outline_cases. }
  rewrite (u16_small (y + 1)), (u16_small (h - 2)), (u16_small (x + w - 1)) by lia.
  pose proof (paints_fb_fill_rect x (y + 1) 1 (h - 2) c s2 Hcur2 ltac:(lia) ltac:(lia)
                ltac:(lia) ltac:(lia) HW2 HH2) as P3.
  destruct (paints_bounds _ _ _ P3 Hcur2 HW2 HH2) as (Hcur3 & HW3 & HH3).
  set (s3 := fb_fill_rect x (y + 1) 1 (h - 2) c s2) in *. clearbody s3.
  pose proof (paints_fb_fill_rect (x + w - 1) (y + 1) 1 (h - 2) c s3 Hcur3 ltac:(lia)
                ltac:(lia) ltac:(lia) ltac:(lia) HW3 HH3) as P4.
  pose proof (paints_trans _ _ _ _ _ (paints_trans _ _ _ _ _ P12 P3) P4) as P.
  eapply paints_ext; [exact P|]. intros px py Hpx Hpy. outline_cases.
Qed.

(** X15.  For a rectangle whose far edges do not wrap around in 16 bits
    ([x + w <= 65536] and [y + h <= 65536]): [fb_draw_rect] with [w > 0]
    and [h > 0] paints the outline of the rectangle, clipped to the screen,
    and nothing else: the pixels of the first and last row and of the
    first and last column of [x, x + w) x [y, y + h) get the colour, the
    interior and the rest of the frame keep their values.  With [w = 0] or
    [h = 0] it changes nothing.  (Beyond that bound the edges at
    [y + h - 1] and [x + w - 1] are taken modulo 65536 and land
    elsewhere.) *)
Theorem fb_draw_rect_paints_outline : forall x y w h c s fb,
  current_frame s = Some fb -> Z.of_nat (length fb) = width s * height s ->
  0 <= x -> 0 <= y -> 0 <= w -> 0 <= h -> x + w <= 65536 -> y + h <= 65536 ->
  width s < 65536 -> height s < 65536 ->
  (forall px py, 0 <= px < width s -> 0 <= py < height s ->
     pixel_at px py (fb_draw_rect x y w h c s)
     = if (x <=? px) && (px <? x + w) && (y <=? py) && (py <? y + h)
          && ((px =? x) || (px =? x + w - 1) || (py =? y) || (py =? y + h - 1))
       then Some c else pixel_at px py s) /\
  (w = 0 \/ h = 0 -> fb_draw_rect x y w h c s = s).
Proof.
  intros x y w h c s fb Hfb Hlen Hx Hy Hw Hh Hxw Hyh HW HH.
  assert (Hcur : current_framebuffer s <> None).
  { unfold current_frame in Hfb. destruct (current_framebuffer s); congruence. }
  split.
  - intros px py Hpx Hpy.
    destruct (Z.eq_dec w 0) as [->|Hw0]; [|destruct (Z.eq_dec h 0) as [->|Hh0]].
    + unfold fb_draw_rect. cbn [Z.eqb orb]. rewrite orb_true_r. cbn [orb].
      destruct (Z.ltb_spec px (x + 0)); [|rewrite andb_false_r; reflexivity].
      destruct (Z.leb_spec x px); [lia|reflexivity].
    + unfold fb_draw_rect. cbn [Z.eqb orb]. rewrite orb_true_r.
      destruct (Z.ltb_spec py (y + 0)); [|rewrite !andb_false_r; reflexivity].
      destruct (Z.leb_spec y py); [lia|rewrite andb_false_r; reflexivity].
    + rewrite (paints_pixel_at (paint_outline x y w h c) s _ fb px py); try assumption.
      * unfold paint_outline.
        match goal with |- context [if ?b then Some c else None] => destruct b end;
          reflexivity.
      * apply paints_fb_draw_rect; try assumption; lia.
  - intros [->| ->]; unfold fb_draw_rect; cbn [Z.eqb orb]; rewrite ?orb_true_r;
      reflexivity.
Qed.

(** * Colours *)

Lemma byte_cases : forall (P : Z -> bool),
  forallb (fun n => P (Z.of_nat n)) (seq 0 256) = true ->
  forall v, 0 <= v < 256 -> P v = true.
Proof.
  intros P Hall v Hv. rewrite forallb_forall in Hall.
  specialize (Hall (Z.to_nat v)). rewrite Z2Nat.id in Hall by lia.
  apply Hall. apply in_seq. lia.
Qed.

Lemma land_high_bits : forall v,
  0 <= v < 256 -> Z.land v 0xF8 = 8 * (v / 8) /\ Z.land v 0xFC = 4 * (v / 4).
Proof.
  intros v Hv.
  pose proof (byte_cases (fun v => (Z.land v 0xF8 =? 8 * (v / 8))
                                   && (Z.land v 0xFC =? 4 * (v / 4)))) as H.
  specialize (H ltac:(vm_compute; reflexivity) v Hv). cbv beta in H.
  apply andb_prop in H. destruct H as [H1 H2].
  split; apply Z.eqb_eq; assumption.
Qed.

(** X16.  [color565] packs the five, six and five most significant bits of
    [r], [g] and [b] into one 16-bit word, red on top: the result is
    [(r >> 3) * 2048 + (g >> 2) * 32 + (b >> 3)], and each field read back
    from it is the channel without its low bits. *)
Theorem color565_packs_channels : forall r g b,
  0 <= r < 256 -> 0 <= g < 256 -> 0 <= b < 256 ->
  let c := color565 r g b in
  c = (r / 8) * 2048 + (g / 4) * 32 + b / 8 /\
  0 <= c < 65536 /\
  c / 2048 = r / 8 /\ (c / 32) mod 64 = g / 4 /\ c mod 32 = b / 8.
Proof.
  intros r g b Hr Hg Hb. cbv zeta.
  assert (Hr8 : 0 <= r / 8 < 32)
    by (split; [apply Z.div_pos; lia|apply Z.div_lt_upper_bound; lia]).
  assert (Hg4 : 0 <= g / 4 < 64)
    by (split; [apply Z.div_pos; lia|apply Z.div_lt_upper_bound; lia]).
  assert (Hb8 : 0 <= b / 8 < 32)
    by (split; [apply Z.div_pos; lia|apply Z.div_lt_upper_bound; lia]).
  assert (Hc : color565 r g b = (r / 8) * 2048 + (g / 4) * 32 + b / 8).
  { unfold color565.
    destruct (land_high_bits r Hr) as [-> _]. destruct (land_high_bits g Hg) as [_ ->].
    rewrite Z.shiftr_div_pow2 by lia. change (2 ^ 3) with 8.
    replace (Z.shiftl (8 * (r / 8)) 8) with (Z.shiftl (r / 8) 11)
      by (rewrite !Z.shiftl_mul_pow2 by lia; change (2 ^ 11) with 2048;
          change (2 ^ 8) with 256; lia).
    replace (Z.shiftl (4 * (g / 4)) 3) with ((g / 4) * 32)
      by (rewrite Z.shiftl_mul_pow2 by lia; change (2 ^ 3) with 8; lia).
    rewrite (lor_shiftl_add (r / 8) (g / 4 * 32) 11) by (change (2 ^ 11) with 2048; lia).
    change (2 ^ 11) with 2048.
    replace (r / 8 * 2048 + g / 4 * 32) with (Z.shiftl (r / 8 * 64 + g / 4) 5)
      by (rewrite Z.shiftl_mul_pow2 by lia; change (2 ^ 5) with 32; lia).
    rewrite (lor_shiftl_add _ (b / 8) 5) by (change (2 ^ 5) with 32; lia).
    change (2 ^ 5) with 32. rewrite u16_small by lia.
    rewrite Z.shiftl_mul_pow2 by lia. change (2 ^ 5) with 32. lia. }
  rewrite Hc. split; [reflexivity|]. split; [lia|].
  split; [|split].
  - symmetry. apply (Z.div_unique _ 2048 _ (g / 4 * 32 + b / 8)); lia.
  - replace ((r / 8 * 2048 + g / 4 * 32 + b / 8) / 32) with (r / 8 * 64 + g / 4).
    + rewrite Z.add_comm, Z.mod_add by lia. apply Z.mod_small. exact Hg4.
    + apply (Z.div_unique _ 32 _ (b / 8)); lia.
  - symmetry. apply (Z.mod_unique _ 32 (r / 8 * 64 + g / 4)); lia.
Qed.

(** * Idle buffers, restarts *)



(** X18.  [begin] does not initialise the dirty rectangle: the constructor
    leaves it as found and [begin] keeps it, so whether the first present
    goes the dirty way is decided by the [valid] byte that happened to be
    in memory. *)
Theorem begin_keeps_uninitialised_dirty_rect : forall p garbage s0,
  begin p (TFT7735V_constructor garbage) = (true, s0) ->
  dirty_rect s0 = garbage /\ use_dirty_rect_of s0 = Rect.valid garbage.
Proof.
  intros [r1 r2 fault pa pb pc sa sb qok semok tok] g s0.
  unfold begin, init_framebuffer, init_double_buffering. cbn.
  destruct (r1 =? ESP_OK); cbn; [|discriminate].
  destruct (r2 =? ESP_OK); cbn; [|discriminate].
  destruct pa as [a|]; cbn; [|discriminate].
  destruct pb as [b|]; cbn; [|discriminate].
  destruct pc as [c|]; cbn; [|discriminate].
  destruct sa as [a'|]; cbn; [|discriminate].
  destruct sb as [b'|]; cbn; [|discriminate].
  destruct qok; cbn; [|discriminate].
  destruct semok; cbn; [|discriminate].
  destruct tok; cbn; [|discriminate].
  intros H. inversion H; subst; clear H.
  unfold use_dirty_rect_of. cbn. split; [reflexivity|]. rewrite andb_true_r. reflexivity.
Qed.

Lemma free_double_buffering_frame : forall s s',
  free_double_buffering s = Some s' ->
  sram_buffer_a s' = None /\ sram_buffer_b s' = None /\
  display_queue s' = None /\ display_done_semaphore s' = None /\
  display_in_progress s' = false /\ display_done_flag s' = true /\
  framebuffer_a s' = framebuffer_a s /\ framebuffer_b s' = framebuffer_b s /\
  framebuffer_c s' = framebuffer_c s /\ current_framebuffer s' = current_framebuffer s /\
  framebuffer_enabled s' = framebuffer_enabled s /\
  spi_device s' = spi_device s /\ initialized s' = initialized s.
Proof.
  intros s s' H. unfold free_double_buffering in H.
  destruct (display_in_progress s).
  - destruct (waitForDisplayDone s) as [t|] eqn:Hw; [|discriminate].
    rewrite (waitForDisplayDone_same s t Hw) in H. injection H as <-. repeat split.
  - injection H as <-. repeat split.
Qed.

Lemma free_framebuffer_frame : forall s,
  framebuffer_a (free_framebuffer s) = None /\
  framebuffer_b (free_framebuffer s) = None /\
  framebuffer_c (free_framebuffer s) = None /\
  current_framebuffer (free_framebuffer s) = None /\
  framebuffer_enabled (free_framebuffer s) = false /\
  display_in_progress (free_framebuffer s) = display_in_progress s /\
  display_done_semaphore (free_framebuffer s) = display_done_semaphore s /\
  spi_device (free_framebuffer s) = spi_device s /\
  buffer_states (free_framebuffer s) = buffer_states s /\
  render_buffer_idx (free_framebuffer s) = render_buffer_idx s /\
  sram_buffer_a (free_framebuffer s) = sram_buffer_a s /\
  sram_buffer_b (free_framebuffer s) = sram_buffer_b s.
Proof. intros s. repeat split. Qed.

Lemma end_shape : forall s s',
  initialized s = true -> end_ s = Some s' ->
  exists t,
    free_double_buffering (free_framebuffer s) = Some t /\
    s' = set_initialized false
           (set_spi_device (mkDevice (spi_fault null_device) (spi_log (spi_device t))) t).
Proof.
  intros s s' Hini H. unfold end_ in H. rewrite Hini in H.
  destruct (free_double_buffering (free_framebuffer s)) as [t|]; [|discriminate].
  injection H as <-. exists t. split; reflexivity.
Qed.

Lemma end_frame : forall dev t,
  let s' := set_initialized false (set_spi_device dev t) in
  initialized s' = false /\
  framebuffer_a s' = framebuffer_a t /\ framebuffer_b s' = framebuffer_b t /\
  framebuffer_c s' = framebuffer_c t /\ current_framebuffer s' = current_framebuffer t /\
  framebuffer_enabled s' = framebuffer_enabled t /\
  sram_buffer_a s' = sram_buffer_a t /\ sram_buffer_b s' = sram_buffer_b t /\
  display_queue s' = display_queue t /\
  display_done_semaphore s' = display_done_semaphore t /\
  display_in_progress s' = display_in_progress t /\
  spi_device s' = dev.
Proof. intros dev t. repeat split. Qed.

Lemma end_blocks : forall s,
  initialized s = true ->
  (end_ s = None <->
   display_in_progress s = true /\ display_done_semaphore s = Some false).
Proof.
  intros s Hini. unfold end_. rewrite Hini.
  unfold free_double_buffering, waitForDisplayDone.
  destruct (free_framebuffer_frame s) as (_ & _ & _ & _ & _ & -> & -> & _).
  generalize (free_framebuffer s). intros t.
  destruct (display_in_progress s).
  - destruct (display_done_semaphore s) as [[|]|];
      (split; [intros H; try discriminate H; split; reflexivity
              |intros [H1 H2]; try discriminate H2; reflexivity]).
  - split; [discriminate|intros [H _]; discriminate H].
Qed.

(** X19.  [end()] on an initialized object, when it returns, has released
    everything: the frame buffers, the bounce buffers, the queue and the
    semaphore are null, the framebuffer mode is off, the device handle is
    null (every later transmit is refused) and the object is
    uninitialized.  It stays blocked exactly when a present is in progress
    and its completion has not been signalled. *)
Theorem end_releases_everything : forall s,
  initialized s = true ->
  (forall s', end_ s = Some s' ->
     initialized s' = false /\
     framebuffer_a s' = None /\ framebuffer_b s' = None /\ framebuffer_c s' = None /\
     current_framebuffer s' = None /\ framebuffer_enabled s' = false /\
     sram_buffer_a s' = None /\ sram_buffer_b s' = None /\
     display_queue s' = None /\ display_done_semaphore s' = None /\
     display_in_progress s' = false /\
     (forall n, spi_fault (spi_device s') n = ESP_ERR_INVALID_ARG) /\
     spi_log (spi_device s') = spi_log (spi_device s)) /\
  (end_ s = None <->
   display_in_progress s = true /\ display_done_semaphore s = Some false).
Proof.
  intros s Hini. split; [|apply end_blocks; exact Hini].
  intros s' H.
  destruct (end_shape s s' Hini H) as (t & Hfree & ->).
  destruct (free_double_buffering_frame _ _ Hfree)
    as (Ha & Hb & Hq & Hsem & Hprog & _ & Hfa & Hfb & Hfc & Hcur & Hen & Hspi & _).
  destruct (free_framebuffer_frame s) as (Ga & Gb & Gc & Gcur & Gen & _ & _ & Gspi & _).
  rewrite Ga in Hfa. rewrite Gb in Hfb. rewrite Gc in Hfc. rewrite Gcur in Hcur.
  rewrite Gen in Hen. rewrite Gspi in Hspi.
  clear Hfree Ga Gb Gc Gcur Gen Gspi.
  generalize dependent (free_framebuffer s). intros _.
  destruct (end_frame (mkDevice (spi_fault null_device) (spi_log (spi_device t))) t)
    as (E0 & E1 & E2 & E3 & E4 & E5 & E6 & E7 & E8 & E9 & E10 & E11).
  cbv zeta in E0, E1, E2, E3, E4, E5, E6, E7, E8, E9, E10, E11.
  rewrite E0, E1, E2, E3, E4, E5, E6, E7, E8, E9, E10, E11.
  cbn [spi_fault spi_log null_device]. rewrite Hspi.
  repeat split; assumption.
Qed.

Lemma end_state : forall s s',
  initialized s = true -> end_ s = Some s' ->
  initialized s' = false /\ framebuffer_enabled s' = false.
Proof.
  intros s s' Hini H.
  destruct (end_shape s s' Hini H) as (t & Hfree & ->).
  destruct (free_double_buffering_frame _ _ Hfree)
    as (_ & _ & _ & _ & _ & _ & _ & _ & _ & _ & Hen & _).
  destruct (free_framebuffer_frame s) as (_ & _ & _ & _ & Gen & _).
  rewrite Gen in Hen. clear Hfree Gen.
  destruct (end_frame (mkDevice (spi_fault null_device) (spi_log (spi_device t))) t)
    as (E0 & _ & _ & _ & _ & E5 & _).
  cbv zeta in E0, E5. rewrite E0, E5. split; [reflexivity|exact Hen].
Qed.

Lemma init_framebuffer_enabled : forall p s,
  framebuffer_enabled (snd (init_framebuffer p s)) = framebuffer_enabled s.
Proof.
  intros p s. unfold init_framebuffer.
  destruct (negb (is_null (framebuffer_a s)) || negb (is_null (framebuffer_b s))
            || negb (is_null (framebuffer_c s))); [reflexivity|].
  destruct (psram_block_a p); [|reflexivity].
  destruct (psram_block_b p); [|reflexivity].
  destruct (psram_block_c p); reflexivity.
Qed.

Lemma init_double_buffering_frame : forall p s,
  framebuffer_enabled (snd (init_double_buffering p s)) = framebuffer_enabled s /\
  current_framebuffer (snd (init_double_buffering p s)) = current_framebuffer s /\
  buffer_states (snd (init_double_buffering p s)) = buffer_states s /\
  render_buffer_idx (snd (init_double_buffering p s)) = render_buffer_idx s.
Proof.
  intros p s. unfold init_double_buffering.
  destruct (negb (is_null (sram_buffer_a s)) || negb (is_null (sram_buffer_b s)));
    [repeat split|].
  destruct (sram_block_a p); [|repeat split].
  destruct (sram_block_b p); [|repeat split].
  destruct (negb (xQueueCreate_ok p)); [repeat split|].
  destruct (negb (xSemaphoreCreateBinary_ok p)); [repeat split|].
  destruct (negb (xTaskCreate_ok p)); repeat split.
Qed.

Lemma begin_keeps_framebuffer_enabled : forall p s s',
  initialized s = false -> begin p s = (true, s') ->
  framebuffer_enabled s' = framebuffer_enabled s /\ initialized s' = true.
Proof.
  intros p s s' Hini H. unfold begin in H. rewrite Hini in H.
  destruct (negb (spi_bus_initialize_ret p =? ESP_OK)); [discriminate|].
  destruct (negb (spi_bus_add_device_ret p =? ESP_OK)); [discriminate|].
  cbv zeta in H.
  assert (E0 : framebuffer_enabled
                 (init_sequence (set_spi_device (mkDevice (attached_device_fault p) []) s))
               = framebuffer_enabled s).
  { destruct (io_only_init_sequence
                (set_spi_device (mkDevice (attached_device_fault p) []) s))
      as (a & b & dev & dc & -> & _). reflexivity. }
  generalize dependent
    (init_sequence (set_spi_device (mkDevice (attached_device_fault p) []) s)).
  intros t H E0.
  pose proof (init_framebuffer_enabled p t) as E1.
  destruct (init_framebuffer p t) as [ok1 t1].
  cbn [snd] in E1. destruct (negb ok1); [discriminate|].
  destruct (init_double_buffering_frame p t1) as (E2 & _).
  destruct (init_double_buffering p t1) as [ok2 t2].
  cbn [snd] in E2. destruct (negb ok2); [discriminate|].
  injection H as <-. split; [|reflexivity].
  change (framebuffer_enabled t2 = framebuffer_enabled s). congruence.
Qed.

(** X20.  A [begin] after an [end()] succeeds with the framebuffer mode
    still off ([free_framebuffer] cleared [framebuffer_enabled] and
    [begin] does not set it): until [enableFramebuffer()] is called,
    [display()] returns at its first test and changes nothing. *)
Theorem begin_after_end_leaves_framebuffer_off : forall p s s' s'',
  initialized s = true -> end_ s = Some s' -> begin p s' = (true, s'') ->
  initialized s'' = true /\ framebuffer_enabled s'' = false /\
  display s'' = s'' /\ fst (display_traced s'') = exit_framebuffer_not_enabled.
Proof.
  intros p s s' s'' Hini Hend Hbegin.
  destruct (end_state s s' Hini Hend) as [Hini' Hen'].
  destruct (begin_keeps_framebuffer_enabled p s' s'' Hini' Hbegin) as [Hen'' Hini''].
  rewrite Hen' in Hen''.
  split; [exact Hini''|]. split; [exact Hen''|].
  unfold display, display_traced. rewrite Hen''. cbn [negb orb snd fst].
  split; reflexivity.
Qed.

Lemma disableFramebuffer_frame : forall s,
  framebuffer_a (disableFramebuffer s) = None /\
  framebuffer_b (disableFramebuffer s) = None /\
  framebuffer_c (disableFramebuffer s) = None /\
  framebuffer_enabled (disableFramebuffer s) = false /\
  buffer_states (disableFramebuffer s) = buffer_states s /\
  render_buffer_idx (disableFramebuffer s) = render_buffer_idx s.
Proof. intros s. repeat split. Qed.

Lemma init_framebuffer_fresh : forall p s t,
  framebuffer_a s = None -> framebuffer_b s = None -> framebuffer_c s = None ->
  init_framebuffer p s = (true, t) ->
  current_framebuffer t = Some 0 /\
  buffer_states t = state_set (buffer_states s) 0 BUFFER_STATE_RENDERING /\
  render_buffer_idx t = render_buffer_idx s.
Proof.
  intros p s t Ha Hb Hc H. unfold init_framebuffer in H.
  rewrite Ha, Hb, Hc in H. cbn [is_null negb orb] in H.
  destruct (psram_block_a p); [|discriminate].
  destruct (psram_block_b p); [|discriminate].
  destruct (psram_block_c p); [|discriminate].
  injection H as <-. repeat split.
Qed.

Lemma two_rendering : forall a b c r,
  0 <= r < 3 -> r <> 0 ->
  state_at [a; b; c] r = BUFFER_STATE_RENDERING ->
  count_state BUFFER_STATE_RENDERING [a; b; c] = 1%nat ->
  let l' := state_set [a; b; c] 0 BUFFER_STATE_RENDERING in
  state_at l' 0 = BUFFER_STATE_RENDERING /\ state_at l' r = BUFFER_STATE_RENDERING /\
  count_state BUFFER_STATE_RENDERING l' = 2%nat.
Proof.
  intros a b c r Hr Hne Hat HcR.
  assert (Hcases : r = 1 \/ r = 2) by lia.
  destruct Hcases as [->| ->]; destruct a, b, c; vm_compute in Hat, HcR;
    try discriminate; vm_compute; repeat split.
Qed.

(** X21.  After [disableFramebuffer()] and an [enableFramebuffer()] that
    succeeds, drawing goes to buffer A and [buffer_states[0]] is RENDERING
    whatever the render index is: when the render index was not 0 two
    buffers are RENDERING, the state the render index names is not the one
    drawn to, and invariant I1 no longer holds. *)
Theorem enable_after_disable_restarts_in_buffer_A : forall p s s',
  coordinator_inv s -> render_buffer_idx s <> 0 ->
  enableFramebuffer p (disableFramebuffer s) = (true, s') ->
  current_framebuffer s' = Some 0 /\
  render_buffer_idx s' = render_buffer_idx s /\
  state_at (buffer_states s') 0 = BUFFER_STATE_RENDERING /\
  state_at (buffer_states s') (render_buffer_idx s') = BUFFER_STATE_RENDERING /\
  count_state BUFFER_STATE_RENDERING (buffer_states s') = 2%nat /\
  ~ I1 s'.
Proof.
  intros p s s' (a & b & c & q & Hst & Hr & Hat & HcR & _) Hne H.
  rewrite Hst in Hat, HcR.
  destruct (two_rendering a b c _ Hr Hne Hat HcR) as (F0 & Fr & Fc).
  destruct (disableFramebuffer_frame s) as (Da & Db & Dc & Den & Dst & Dr).
  rewrite Hst in Dst.
  generalize dependent (disableFramebuffer s). intros d H Da Db Dc Den Dst Dr.
  unfold enableFramebuffer in H. rewrite Den in H.
  destruct (init_framebuffer p d) as [ok1 t1] eqn:E1.
  destruct ok1; [|discriminate].
  destruct (init_framebuffer_fresh p d t1 Da Db Dc E1) as (G1 & G2 & G3).
  destruct (init_double_buffering_frame p t1) as (_ & I1' & I2 & I3).
  destruct (init_double_buffering p t1) as [ok2 t2].
  cbn [snd] in I1', I2, I3.
  destruct ok2; [|discriminate].
  injection H as <-.
  assert (Hcur : current_framebuffer (set_framebuffer_enabled true t2) = Some 0)
    by (change (current_framebuffer t2 = Some 0); congruence).
  assert (Hridx : render_buffer_idx (set_framebuffer_enabled true t2)
                  = render_buffer_idx s)
    by (change (render_buffer_idx t2 = render_buffer_idx s); congruence).
  assert (Hsts : buffer_states (set_framebuffer_enabled true t2)
                 = state_set [a; b; c] 0 BUFFER_STATE_RENDERING)
    by (change (buffer_states t2 = state_set [a; b; c] 0 BUFFER_STATE_RENDERING);
        congruence).
  generalize dependent (set_framebuffer_enabled true t2). intros t Hcur Hridx Hsts.
  rewrite Hridx, Hsts. repeat split; try assumption.
  intros (_ & Hone & _). rewrite Hsts, Fc in Hone. discriminate.
Qed.

(** * Claim C1: the buffer states after a re-initialisation *)

Lemma two_rendering_not_I1 : forall s,
  count_state BUFFER_STATE_RENDERING (buffer_states s) = 2%nat -> ~ I1 s.
Proof. intros s H (_ & H1 & _). rewrite H in H1. discriminate. Qed.

Lemma end_after_present :
  end_ (present (demo_begun no_fault)) = Some ended_after_present_demo.
Proof.
  unfold ended_after_present_demo.
  destruct (present_ready _ (proj1 (demo_begun_ready no_fault)))
    as ((_ & Hprog & _ & (Hini & _)) & _).
  destruct (end_ (present (demo_begun no_fault))) eqn:E; [reflexivity|].
  apply (end_blocks _ Hini) in E. destruct E as [E _]. congruence.
Qed.

(** C1, the code at the failing inputs.  [init_framebuffer] marks buffer
    0 RENDERING and points [current_framebuffer] to it, and neither it nor
    [free_framebuffer] resets the other states or the render index.
    First input: [begin], [swapBuffers()] (drawing moves to buffer 1),
    [disableFramebuffer()], [enableFramebuffer()]: two buffers are
    RENDERING; [display()] then starts a present that leaves RENDERING,
    TRANSFERRING, RENDERING, with no IDLE buffer, and after the transfer
    has completed two buffers are RENDERING still.  Second input: [begin],
    a present run to completion, [end()], [begin]: the second [begin]
    returns [true] with two buffers RENDERING.  In each of these states
    invariant I1 fails. *)
Theorem reinitialisation_leaves_two_rendering_buffers :
  fst (enableFramebuffer (demo_platform no_fault) (disableFramebuffer swapped_demo))
  = true /\
  buffer_states reenabled_demo
  = [BUFFER_STATE_RENDERING; BUFFER_STATE_RENDERING; BUFFER_STATE_IDLE] /\
  ~ I1 reenabled_demo /\
  fst (display_traced reenabled_demo) = exit_started /\
  buffer_states (display reenabled_demo)
  = [BUFFER_STATE_RENDERING; BUFFER_STATE_TRANSFERRING; BUFFER_STATE_RENDERING] /\
  ~ I1 (display reenabled_demo) /\
  display_in_progress (present reenabled_demo) = false /\
  buffer_states (present reenabled_demo)
  = [BUFFER_STATE_RENDERING; BUFFER_STATE_IDLE; BUFFER_STATE_RENDERING] /\
  ~ I1 (present reenabled_demo) /\
  end_ (present (demo_begun no_fault)) = Some ended_after_present_demo /\
  fst (begin (demo_platform no_fault) ended_after_present_demo) = true /\
  buffer_states rebegun_demo
  = [BUFFER_STATE_RENDERING; BUFFER_STATE_RENDERING; BUFFER_STATE_IDLE] /\
  ~ I1 rebegun_demo.
Proof.
  assert (H1 : buffer_states reenabled_demo
               = [BUFFER_STATE_RENDERING; BUFFER_STATE_RENDERING; BUFFER_STATE_IDLE])
    by (vm_compute; reflexivity).
  assert (H2 : buffer_states (display reenabled_demo)
               = [BUFFER_STATE_RENDERING; BUFFER_STATE_TRANSFERRING;
                  BUFFER_STATE_RENDERING])
    by (vm_compute; reflexivity).
  assert (H3 : buffer_states (present reenabled_demo)
               = [BUFFER_STATE_RENDERING; BUFFER_STATE_IDLE; BUFFER_STATE_RENDERING])
    by (vm_compute; reflexivity).
  assert (H4 : buffer_states rebegun_demo
               = [BUFFER_STATE_RENDERING; BUFFER_STATE_RENDERING; BUFFER_STATE_IDLE])
    by (vm_compute; reflexivity).
  split; [vm_compute; reflexivity|]. split; [exact H1|].
  split; [apply two_rendering_not_I1; rewrite H1; reflexivity|].
  split; [vm_compute; reflexivity|]. split; [exact H2|].
  split; [apply two_rendering_not_I1; rewrite H2; reflexivity|].
  split; [vm_compute; reflexivity|]. split; [exact H3|].
  split; [apply two_rendering_not_I1; rewrite H3; reflexivity|].
  split; [exact end_after_present|].
  split; [vm_compute; reflexivity|]. split; [exact H4|].
  apply two_rendering_not_I1. rewrite H4. reflexivity.
Qed.

(** * Direct mode *)

Lemma transmit_words : forall n words s,
  fault_free s -> dc_pin_level s = true ->
  fst (spi_device_polling_transmit (mkTrans (n * 16) (TX_BUFFER words)) s) = ESP_OK /\
  let s' := snd (spi_device_polling_transmit (mkTrans (n * 16) (TX_BUFFER words)) s) in
  wire_words words s s' /\ io_effect (2 * n) 0 0 s s' /\ dc_pin_level s' = true.
Proof.
  intros n words s Hff Hdc.
  destruct (spi_device_polling_transmit (mkTrans (n * 16) (TX_BUFFER words)) s)
    as [ret s'] eqn:Etx.
  pose proof Etx as Etx'. apply transmit_pixels in Etx'; [|assumption..].
  destruct Etx' as (-> & E & D).
  cbn [fst snd]. split; [reflexivity|]. split; [|split; assumption].
  assert (Hs' : s' = snd (spi_device_polling_transmit (mkTrans (n * 16) (TX_BUFFER words)) s))
    by (rewrite Etx; reflexivity).
  split.
  - destruct E as [F _]. exact F.
  - rewrite Hs', pixel_words_transmit. f_equal.
    unfold pixel_words_of. cbn [tx ev_trans ev_dc ev_ret]. rewrite Hdc, Hff. reflexivity.
Qed.

Lemma push_colors_loop_sends : forall fuel src remaining s,
  fault_free s -> dc_pin_level s = true ->
  remaining = Z.of_nat (length src) -> remaining <= Z.of_nat fuel ->
  wire_words (map bswap16 src) s (push_colors_loop fuel src remaining s) /\
  io_effect (2 * remaining) 0 0 s (push_colors_loop fuel src remaining s).
Proof.
  induction fuel as [|fuel IH]; intros src remaining s Hff Hdc Hlen Hfuel;
    cbn [push_colors_loop].
  - assert (src = []) by (destruct src; [reflexivity|cbn in Hlen; lia]). subst src.
    cbn in Hlen. subst. split; [apply wire_words_refl|apply io_effect_refl].
  - destruct (Z.gtb_spec remaining 0) as [Hpos|Hzero].
    2: { assert (src = []) by (destruct src; [reflexivity|cbn in Hlen; lia]). subst src.
         cbn in Hlen. subst. split; [apply wire_words_refl|apply io_effect_refl]. }
    cbv zeta.
    set (cur := if remaining >? 512 then 512 else remaining).
    assert (Hcur : 0 < cur <= remaining)
      by (subst cur; destruct (Z.gtb_spec remaining 512); lia).
    destruct (transmit_words cur (map bswap16 (firstn (Z.to_nat cur) src)) s Hff Hdc)
      as (Hret & W1 & E1 & D1).
    destruct (spi_device_polling_transmit _ s) as [ret s1].
    cbn [fst snd] in Hret, W1, E1, D1. subst ret.
    change (ESP_OK =? ESP_OK) with true. cbv iota.
    destruct (IH (skipn (Z.to_nat cur) src) (remaining - cur) s1) as [W2 E2].
    + eapply wire_words_fault_free; eassumption.
    + exact D1.
    + rewrite length_skipn. lia.
    + lia.
    + split.
      * eapply wire_words_eq; [eapply wire_words_trans; [exact W1|exact W2]|].
        rewrite <- map_app, firstn_skipn. reflexivity.
      * eapply io_effect_eq; [eapply io_effect_trans; [exact E1|exact E2]|lia..].
Qed.

Lemma pixel_transactions_transmit : forall t s,
  pixel_transactions (snd (spi_device_polling_transmit t s))
  = pixel_transactions s
    ++ pixel_transaction_of
         (mkEvent (dc_pin_level s) t
            (spi_fault (spi_device s) (length (spi_log (spi_device s))))).
Proof.
  intros t s. unfold spi_device_polling_transmit, pixel_transactions. cbv zeta. tft_simpl.
  cbn [spi_log]. rewrite flat_map_app. cbn [flat_map]. rewrite app_nil_r. reflexivity.
Qed.

Lemma chunk_count_step : forall remaining cur,
  0 < cur <= remaining -> cur = (if remaining >? 512 then 512 else remaining) ->
  (remaining - cur + 511) / 512 + 1 = (remaining + 511) / 512.
Proof.
  intros remaining cur Hcur Ecur.
  destruct (Z.gtb_spec remaining 512) as [Hgt|Hle].
  - subst cur. replace (remaining + 511) with (remaining - 512 + 511 + 1 * 512) by lia.
    rewrite Z.div_add by lia. reflexivity.
  - subst cur. replace (remaining - remaining + 511) with 511 by lia.
    change (511 / 512) with 0.
    assert (E : (remaining + 511) / 512 = 1)
      by (symmetry; apply (Z.div_unique_pos _ 512 1 (remaining - 1)); lia).
    rewrite E. reflexivity.
Qed.

(** The transactions of the loop of [push_colors]. *)
Lemma push_colors_loop_transactions : forall fuel src remaining s,
  fault_free s -> dc_pin_level s = true ->
  remaining = Z.of_nat (length src) -> remaining <= Z.of_nat fuel ->
  exists txs,
    pixel_transactions (push_colors_loop fuel src remaining s)
    = pixel_transactions s ++ txs /\
    concat txs = map bswap16 src /\
    Forall (fun t => 0 < Z.of_nat (length t) <= 512) txs /\
    Z.of_nat (length txs) = (remaining + 511) / 512.
Proof.
  induction fuel as [|fuel IH]; intros src remaining s Hff Hdc Hlen Hfuel;
    cbn [push_colors_loop].
  - assert (src = []) by (destruct src; [reflexivity|cbn in Hlen; lia]). subst src.
    cbn in Hlen. subst. exists []. rewrite app_nil_r. repeat split. constructor.
  - destruct (Z.gtb_spec remaining 0) as [Hpos|Hzero].
    2: { assert (src = []) by (destruct src; [reflexivity|cbn in Hlen; lia]). subst src.
         cbn in Hlen. subst. exists []. rewrite app_nil_r. repeat split. constructor. }
    cbv zeta.
    set (cur := if remaining >? 512 then 512 else remaining).
    assert (Hcur : 0 < cur <= remaining /\ cur <= 512)
      by (subst cur; destruct (Z.gtb_spec remaining 512); lia).
    destruct (transmit_words cur (map bswap16 (firstn (Z.to_nat cur) src)) s Hff Hdc)
      as (Hret & W1 & _ & D1).
    pose proof (pixel_transactions_transmit
                  (mkTrans (cur * 16) (TX_BUFFER (map bswap16 (firstn (Z.to_nat cur) src))))
                  s) as T1.
    unfold pixel_transaction_of in T1. cbn [tx ev_trans ev_dc ev_ret] in T1.
    rewrite Hdc, Hff in T1. change (true && (ESP_OK =? ESP_OK)) with true in T1.
    cbv iota in T1.
    destruct (spi_device_polling_transmit _ s) as [ret s1].
    cbn [fst snd] in Hret, W1, D1, T1. subst ret.
    change (ESP_OK =? ESP_OK) with true. cbv iota.
    destruct (IH (skipn (Z.to_nat cur) src) (remaining - cur) s1)
      as (txs & T2 & C2 & F2 & N2).
    + eapply wire_words_fault_free; eassumption.
    + exact D1.
    + rewrite length_skipn. lia.
    + lia.
    + exists (map bswap16 (firstn (Z.to_nat cur) src) :: txs).
      split; [rewrite T2, T1, <- app_assoc; reflexivity|].
      split; [cbn [concat]; rewrite C2, <- map_app, firstn_skipn; reflexivity|].
      split.
      * constructor; [|exact F2].
        rewrite length_map, length_firstn. lia.
      * cbn [length]. rewrite Nat2Z.inj_succ, N2. unfold Z.succ.
        apply chunk_count_step; [lia|reflexivity].
Qed.

(** X22.  On a device that fails no transmit, [push_colors] sends the [len]
    colours of the array in order, each with its bytes swapped, in
    [(len + 511) / 512] transactions of at most 512 pixels each:
    [2 * len] pixel bytes, no command and no argument byte. *)
Theorem push_colors_sends_the_colours : forall colors len s,
  fault_free s -> len = Z.of_nat (length colors) ->
  pixel_words (push_colors colors len s) = pixel_words s ++ map bswap16 colors /\
  io_effect (2 * len) 0 0 s (push_colors colors len s) /\
  exists txs,
    pixel_transactions (push_colors colors len s) = pixel_transactions s ++ txs /\
    concat txs = map bswap16 colors /\
    Forall (fun t => 0 < Z.of_nat (length t) <= 512) txs /\
    Z.of_nat (length txs) = (len + 511) / 512.
Proof.
  intros colors len s Hff Hlen. unfold push_colors. cbv zeta.
  destruct (gpio_set_level_dc_frame true s) as (W0 & _ & _ & _ & D0).
  pose proof (io_effect_set_dc true s) as E0.
  assert (Hff0 : fault_free (gpio_set_level_dc true s)) by exact Hff.
  assert (T0 : pixel_transactions (gpio_set_level_dc true s) = pixel_transactions s)
    by reflexivity.
  set (s0 := gpio_set_level_dc true s) in *. clearbody s0.
  destruct (push_colors_loop_sends (Z.to_nat len) colors len s0 Hff0 D0 Hlen ltac:(lia))
    as [W1 E1].
  destruct (push_colors_loop_transactions (Z.to_nat len) colors len s0 Hff0 D0 Hlen
              ltac:(lia)) as (txs & T1 & C1 & F1 & N1).
  split; [|split].
  - destruct (wire_words_trans _ _ _ _ _ W0 W1) as [_ Hw]. exact Hw.
  - eapply io_effect_eq; [eapply io_effect_trans; [exact E0|exact E1]|lia..].
  - exists txs. rewrite T1, T0. repeat split; assumption.
Qed.

Lemma firstn_repeat {A} (c : A) : forall n m,
  (n <= m)%nat -> firstn n (repeat c m) = repeat c n.
Proof.
  induction n as [|n IH]; intros m Hle; [reflexivity|].
  destruct m as [|m]; [lia|]. cbn. f_equal. apply IH. lia.
Qed.

Lemma push_color_loop_sends : forall fuel c len s,
  fault_free s -> dc_pin_level s = true -> 0 <= len <= Z.of_nat fuel ->
  wire_words (repeat c (Z.to_nat len)) s
             (push_color_loop fuel (repeat c 1024) len s) /\
  io_effect (2 * len) 0 0 s (push_color_loop fuel (repeat c 1024) len s).
Proof.
  induction fuel as [|fuel IH]; intros c len s Hff Hdc Hlen; cbn [push_color_loop].
  - replace len with 0 by lia. split; [apply wire_words_refl|apply io_effect_refl].
  - destruct (Z.gtb_spec len 0) as [Hpos|Hzero].
    2: { replace len with 0 by lia. split; [apply wire_words_refl|apply io_effect_refl]. }
    cbv zeta.
    set (cur := if len >? 1024 then 1024 else len).
    assert (Hcur : 0 < cur <= len /\ cur <= 1024)
      by (subst cur; destruct (Z.gtb_spec len 1024); lia).
    destruct (transmit_words cur (firstn (Z.to_nat cur) (repeat c 1024)) s Hff Hdc)
      as (Hret & W1 & E1 & D1).
    destruct (spi_device_polling_transmit _ s) as [ret s1].
    cbn [fst snd] in Hret, W1, E1, D1. subst ret.
    change (ESP_OK =? ESP_OK) with true. cbv iota.
    destruct (IH c (len - cur) s1) as [W2 E2].
    + eapply wire_words_fault_free; eassumption.
    + exact D1.
    + lia.
    + split.
      * eapply wire_words_eq; [eapply wire_words_trans; [exact W1|exact W2]|].
        rewrite firstn_repeat by lia.
        rewrite <- repeat_app. f_equal. lia.
      * eapply io_effect_eq; [eapply io_effect_trans; [exact E1|exact E2]|lia..].
Qed.

Lemma push_color_loop_frame : forall fuel buffer len s,
  framebuffer_a (push_color_loop fuel buffer len s) = framebuffer_a s /\
  framebuffer_b (push_color_loop fuel buffer len s) = framebuffer_b s /\
  framebuffer_c (push_color_loop fuel buffer len s) = framebuffer_c s.
Proof.
  induction fuel as [|fuel IH]; intros buffer len s; cbn [push_color_loop];
    [repeat split|].
  destruct (len >? 0); [|repeat split]. cbv zeta.
  match goal with
  | |- context [spi_device_polling_transmit ?t s] =>
      pose proof (io_only_transmit t s) as Ht;
      destruct (spi_device_polling_transmit t s) as [ret s1]
  end.
  cbn [snd] in Ht. destruct Ht as (a & b & dev & dc & -> & _).
  destruct (ret =? ESP_OK); [|repeat split].
  match goal with
  | |- context [push_color_loop fuel ?b ?l ?t] => destruct (IH b l t) as (Ia & Ib & Ic)
  end.
  rewrite Ia, Ib, Ic. repeat split.
Qed.

Lemma push_color_sends : forall c len s,
  fault_free s -> 0 <= len ->
  wire_words (repeat (bswap16 c) (Z.to_nat len)) s (push_color c len s) /\
  io_effect (2 * len) 0 0 s (push_color c len s) /\
  framebuffer_a (push_color c len s) = framebuffer_a s /\
  framebuffer_b (push_color c len s) = framebuffer_b s /\
  framebuffer_c (push_color c len s) = framebuffer_c s.
Proof.
  intros c len s Hff Hlen. unfold push_color. cbv zeta.
  destruct (gpio_set_level_dc_frame true s) as (W2 & _ & _ & _ & D2).
  pose proof (io_effect_set_dc true s) as E2.
  assert (F2 : framebuffer_a (gpio_set_level_dc true s) = framebuffer_a s /\
               framebuffer_b (gpio_set_level_dc true s) = framebuffer_b s /\
               framebuffer_c (gpio_set_level_dc true s) = framebuffer_c s)
    by (destruct_tft s; repeat split).
  assert (Hff2 : fault_free (gpio_set_level_dc true s)) by exact Hff.
  set (s2 := gpio_set_level_dc true s) in *. clearbody s2.
  destruct (push_color_loop_sends (Z.to_nat len) (bswap16 c) len s2 Hff2 D2
              ltac:(lia)) as [W3 E3].
  pose proof (push_color_loop_frame (Z.to_nat len) (repeat (bswap16 c) 1024) len s2) as F3.
  set (s3 := push_color_loop _ _ _ s2) in *. clearbody s3.
  destruct F3 as (Ga & Gb & Gc). destruct F2 as (Ha & Hb & Hc).
  split; [|split].
  - eapply wire_words_eq; [eapply wire_words_trans; [exact W2|exact W3]|reflexivity].
  - eapply io_effect_eq; [eapply io_effect_trans; [exact E2|exact E3]|lia..].
  - rewrite Ga, Gb, Gc, Ha, Hb, Hc. repeat split.
Qed.

Lemma set_addr_window_framebuffers : forall x0 y0 x1 y1 s,
  framebuffer_a (set_addr_window x0 y0 x1 y1 s) = framebuffer_a s /\
  framebuffer_b (set_addr_window x0 y0 x1 y1 s) = framebuffer_b s /\
  framebuffer_c (set_addr_window x0 y0 x1 y1 s) = framebuffer_c s.
Proof.
  intros. destruct (io_only_set_addr_window x0 y0 x1 y1 s) as (wa & wb & wdev & wdc & E & _).
  rewrite E. destruct_tft s. repeat split.
Qed.

Lemma fill_rect_direct_inside : forall x y w h c s,
  framebuffer_enabled s = false -> x < width s -> y < height s ->
  fill_rect x y w h c s
  = let w := if x + w >? width s then u16 (width s - x) else w in
    let h := if y + h >? height s then u16 (height s - y) else h in
    push_color c (u32 (w * h)) (set_addr_window x y (u16 (x + w - 1)) (u16 (y + h - 1)) s).
Proof.
  intros x y w h c s Hen Hx Hy. unfold fill_rect. rewrite Hen.
  destruct (Z.geb_spec x (width s)); [lia|].
  destruct (Z.geb_spec y (height s)); [lia|]. reflexivity.
Qed.

Lemma fill_rect_direct_outside : forall x y w h c s,
  framebuffer_enabled s = false -> width s <= x \/ height s <= y ->
  fill_rect x y w h c s = s.
Proof.
  intros x y w h c s Hen Hout. unfold fill_rect. rewrite Hen.
  destruct (Z.geb_spec x (width s)); [reflexivity|].
  destruct (Z.geb_spec y (height s)); [reflexivity|lia].
Qed.

(** X23.  With the framebuffer mode off and a device that fails no transmit,
    [fill_rect] sets one address window (3 command bytes, 8 argument
    bytes) and sends the colour, bytes swapped, once for each pixel of the
    rectangle clipped to the screen; a rectangle that starts outside the
    screen sends nothing.  No frame buffer is touched. *)
Theorem direct_fill_rect_sends_clipped_rectangle : forall x y w h c s,
  framebuffer_enabled s = false -> fault_free s ->
  uint16_call (x, y, w, h) -> 0 <= width s < 65536 -> 0 <= height s < 65536 ->
  let w' := Z.min w (width s - x) in
  let h' := Z.min h (height s - y) in
  (x < width s /\ y < height s ->
   pixel_words (fill_rect x y w h c s)
   = pixel_words s ++ repeat (bswap16 c) (Z.to_nat (w' * h')) /\
   io_effect (2 * (w' * h')) 3 8 s (fill_rect x y w h c s)) /\
  (width s <= x \/ height s <= y -> fill_rect x y w h c s = s) /\
  framebuffer_a (fill_rect x y w h c s) = framebuffer_a s /\
  framebuffer_b (fill_rect x y w h c s) = framebuffer_b s /\
  framebuffer_c (fill_rect x y w h c s) = framebuffer_c s.
Proof.
  intros x y w h c s Hen Hff (Hx & Hy & Hw & Hh) HW HH. cbv zeta.
  destruct (Z_lt_le_dec x (width s)) as [Hxi|Hxo];
    [destruct (Z_lt_le_dec y (height s)) as [Hyi|Hyo]|].
  2,3: rewrite (fill_rect_direct_outside x y w h c s Hen) by lia;
       split; [lia|split; [reflexivity|repeat split]].
  rewrite (fill_rect_direct_inside x y w h c s Hen Hxi Hyi). cbv zeta.
  set (w' := if x + w >? width s then u16 (width s - x) else w).
  set (h' := if y + h >? height s then u16 (height s - y) else h).
  assert (Hw' : Z.min w (width s - x) = w').
  { subst w'. destruct (Z.gtb_spec (x + w) (width s)); [rewrite u16_small by lia|]; lia. }
  assert (Hh' : Z.min h (height s - y) = h').
  { subst h'. destruct (Z.gtb_spec (y + h) (height s)); [rewrite u16_small by lia|]; lia. }
  clearbody w' h'. rewrite Hw', Hh'.
  assert (Hprod : 0 <= w' * h' < 4294967296) by nia.
  unfold u32. rewrite Z.mod_small by exact Hprod.
  pose proof (set_addr_window_words x y (u16 (x + w' - 1)) (u16 (y + h' - 1)) s) as W1.
  pose proof (set_addr_window_effect x y (u16 (x + w' - 1)) (u16 (y + h' - 1)) s Hff) as E1.
  pose proof (set_addr_window_framebuffers x y (u16 (x + w' - 1)) (u16 (y + h' - 1)) s)
    as (Fa & Fb & Fc).
  set (s1 := set_addr_window x y (u16 (x + w' - 1)) (u16 (y + h' - 1)) s) in *.
  clearbody s1.
  assert (Hff1 : fault_free s1) by (eapply wire_words_fault_free; eassumption).
  destruct (push_color_sends c (w' * h') s1 Hff1 ltac:(lia)) as (W2 & E2 & Ga & Gb & Gc).
  set (s2 := push_color c (w' * h') s1) in *. clearbody s2.
  split; [|split; [lia|]].
  - intros _. split.
    + destruct (wire_words_trans _ _ _ _ _ W1 W2) as [_ Hwords]. exact Hwords.
    + eapply io_effect_eq; [eapply io_effect_trans; [exact E1|exact E2]|lia..].
  - rewrite Ga, Gb, Gc. repeat split; assumption.
Qed.

(** * Rotation *)

Lemma control_sent_refl : forall s, control_sent [] s s.
Proof. intros s. split; [apply io_only_refl|rewrite app_nil_r; reflexivity]. Qed.

Lemma control_sent_trans : forall bs bs' s1 s2 s3,
  control_sent bs s1 s2 -> control_sent bs' s2 s3 -> control_sent (bs ++ bs') s1 s3.
Proof.
  intros bs bs' s1 s2 s3 [I1 C1] [I2 C2]. split.
  - eapply io_only_trans; eassumption.
  - rewrite C2, C1, app_assoc. reflexivity.
Qed.

Lemma control_sent_eq : forall bs bs' s s',
  control_sent bs s s' -> bs = bs' -> control_sent bs' s s'.
Proof. intros bs bs' s s' H <-. exact H. Qed.

Lemma control_bytes_transmit : forall t s,
  control_bytes (snd (spi_device_polling_transmit t s))
  = control_bytes s
    ++ control_bytes_of (mkEvent (dc_pin_level s) t
                           (spi_fault (spi_device s) (length (spi_log (spi_device s))))).
Proof.
  intros t s. unfold spi_device_polling_transmit, control_bytes. cbv zeta. tft_simpl.
  cbn [spi_log]. rewrite flat_map_app. cbn [flat_map]. rewrite app_nil_r. reflexivity.
Qed.

Lemma write_command_control : forall c s, control_sent [command c] s (write_command c s).
Proof.
  intros c s. split; [apply io_only_write_command|].
  unfold write_command. cbv zeta. rewrite control_bytes_transmit. reflexivity.
Qed.

Lemma write_data_control : forall b s, control_sent [argument b] s (write_data b s).
Proof.
  intros b s. split; [apply io_only_write_data|].
  unfold write_data. cbv zeta. rewrite control_bytes_transmit. reflexivity.
Qed.

Lemma io_only_geometry : forall s s',
  io_only s s' ->
  width s' = width s /\ height s' = height s /\
  x_offset s' = x_offset s /\ y_offset s' = y_offset s /\
  framebuffer_a s' = framebuffer_a s /\ framebuffer_b s' = framebuffer_b s /\
  framebuffer_c s' = framebuffer_c s /\ buffer_states s' = buffer_states s /\
  current_framebuffer s' = current_framebuffer s.
Proof.
  intros s s' (a & b & dev' & dc & -> & _). destruct_tft s. repeat split.
Qed.

Lemma set_addr_window_control : forall x0 y0 x1 y1 s,
  control_sent
    (window_bytes (u16 (x0 + window_offset (x_offset s)))
                  (u16 (y0 + window_offset (y_offset s)))
                  (u16 (x1 + window_offset (x_offset s)))
                  (u16 (y1 + window_offset (y_offset s))))
    s (set_addr_window x0 y0 x1 y1 s).
Proof.
  intros x0 y0 x1 y1 s. unfold set_addr_window, window_bytes, high_low, window_offset.
  cbv zeta.
  generalize (u16 (x0 + (if x_offset s >=? 0 then u16 (x_offset s) else 0))).
  generalize (u16 (y0 + (if y_offset s >=? 0 then u16 (y_offset s) else 0))).
  generalize (u16 (x1 + (if x_offset s >=? 0 then u16 (x_offset s) else 0))).
  generalize (u16 (y1 + (if y_offset s >=? 0 then u16 (y_offset s) else 0))).
  intros sy1 sx1 sy0 sx0.
  eapply control_sent_eq.
  - repeat lazymatch goal with
      | |- control_sent _ _ (write_command ?c ?t) =>
          eapply (control_sent_trans _ [command c]); [ | apply write_command_control ]
      | |- control_sent _ _ (write_data ?b ?t) =>
          eapply (control_sent_trans _ [argument b]); [ | apply write_data_control ]
      end.
    apply control_sent_refl.
  - reflexivity.
Qed.

Lemma rotation_cases : forall r, 0 <= r < 256 ->
  u8 (Z.rem r 4) = r mod 4 /\
  (r mod 4 = 0 \/ r mod 4 = 1 \/ r mod 4 = 2 \/ r mod 4 = 3) /\
  Z.odd r = Z.odd (r mod 4).
Proof.
  intros r Hr. rewrite Z.rem_mod_nonneg by lia.
  pose proof (Z.mod_pos_bound r 4 ltac:(lia)) as Hm.
  split; [unfold u8; apply Z.mod_small; lia|]. split; [lia|].
  rewrite (Z.div_mod r 4) at 1 by lia.
  rewrite Z.odd_add, Z.odd_mul. reflexivity.
Qed.

(** The MADCTL argument of each rotation. *)
Lemma set_rotation_cases : forall r s, 0 <= r < 256 ->
  exists madctl w h,
    set_rotation r s
    = (let s := set_height h (set_width w s) in
       let s := write_command ST7735_MADCTL s in
       let s := write_data madctl s in
       set_addr_window 0 0 (u16 (width s - 1)) (u16 (height s - 1)) s) /\
    madctl = nth (Z.to_nat (r mod 4)) [0x00; 0x60; 0xC0; 0xA0] 0 /\
    w = (if Z.odd r then ST7735_HEIGHT else ST7735_WIDTH) /\
    h = (if Z.odd r then ST7735_WIDTH else ST7735_HEIGHT).
Proof.
  intros r s Hr. destruct (rotation_cases r Hr) as (Hu & Hc & Ho).
  unfold set_rotation. cbv zeta. rewrite Hu, Ho.
  destruct Hc as [E | [E | [E | E]]]; rewrite E; cbn [Z.eqb Pos.eqb Z.odd];
    eexists _, _, _; (split; [reflexivity|repeat split]).
Qed.

(** X24.  [set_rotation(r)] sets the logical size to 128 x 160 for an even
    [r] and 160 x 128 for an odd one, and hands the device MADCTL with
    the argument 0x00, 0x60, 0xC0 or 0xA0 for [r % 4] = 0, 1, 2, 3, then the
    address window of the whole screen, shifted by the offsets.  It touches
    no frame buffer; a chunk of 32 rows of the new width fits a bounce
    buffer only when [r] is even. *)
Theorem set_rotation_sets_geometry : forall r s,
  0 <= r < 256 ->
  let s' := set_rotation r s in
  let xo := window_offset (x_offset s) in
  let yo := window_offset (y_offset s) in
  width s' = (if Z.odd r then 160 else 128) /\
  height s' = (if Z.odd r then 128 else 160) /\
  control_bytes s'
  = control_bytes s
    ++ [command ST7735_MADCTL;
        argument (nth (Z.to_nat (r mod 4)) [0x00; 0x60; 0xC0; 0xA0] 0)]
    ++ window_bytes (u16 xo) (u16 yo) (u16 (width s' - 1 + xo)) (u16 (height s' - 1 + yo)) /\
  framebuffer_a s' = framebuffer_a s /\ framebuffer_b s' = framebuffer_b s /\
  framebuffer_c s' = framebuffer_c s /\
  (2 * (width s' * CHUNK_HEIGHT) <= SRAM_BUFFER_SIZE <-> Z.odd r = false).
Proof.
  intros r s Hr. cbv zeta.
  destruct (set_rotation_cases r s Hr) as (madctl & w & h & -> & <- & Hw & Hh).
  cbv zeta.
  assert (G0 : width (set_height h (set_width w s)) = w /\
               height (set_height h (set_width w s)) = h /\
               x_offset (set_height h (set_width w s)) = x_offset s /\
               y_offset (set_height h (set_width w s)) = y_offset s /\
               framebuffer_a (set_height h (set_width w s)) = framebuffer_a s /\
               framebuffer_b (set_height h (set_width w s)) = framebuffer_b s /\
               framebuffer_c (set_height h (set_width w s)) = framebuffer_c s /\
               control_bytes (set_height h (set_width w s)) = control_bytes s)
    by (destruct_tft s; repeat split).
  set (s0 := set_height h (set_width w s)) in *. clearbody s0.
  destruct G0 as (W0 & H0 & X0 & Y0 & A0 & B0 & C0 & K0).
  pose proof (write_command_control ST7735_MADCTL s0) as K1.
  set (s1 := write_command ST7735_MADCTL s0) in *. clearbody s1.
  pose proof (write_data_control madctl s1) as K2.
  set (s2 := write_data madctl s1) in *. clearbody s2.
  pose proof (control_sent_trans _ _ _ _ _ K1 K2) as K12. clear K1 K2 s1.
  destruct (io_only_geometry _ _ (proj1 K12)) as (W2 & H2 & X2 & Y2 & A2 & B2 & C2 & _).
  pose proof (set_addr_window_control 0 0 (u16 (width s2 - 1)) (u16 (height s2 - 1)) s2)
    as K3.
  set (s3 := set_addr_window 0 0 (u16 (width s2 - 1)) (u16 (height s2 - 1)) s2) in *.
  clearbody s3.
  destruct (io_only_geometry _ _ (proj1 K3)) as (W3 & H3 & X3 & Y3 & A3 & B3 & C3 & _).
  destruct K12 as [_ K12]. destruct K3 as [_ K3].
  rewrite W3, H3, A3, B3, C3, W2, H2, A2, B2, C2, W0, H0, A0, B0, C0.
  rewrite K3, K12, K0, X2, Y2, X0, Y0, W2, H2, W0, H0.
  assert (Hxo : 0 <= window_offset (x_offset s) < 65536)
    by (unfold window_offset, u16; destruct (x_offset s >=? 0);
        [apply Z.mod_pos_bound|]; lia).
  assert (Hyo : 0 <= window_offset (y_offset s) < 65536)
    by (unfold window_offset, u16; destruct (y_offset s >=? 0);
        [apply Z.mod_pos_bound|]; lia).
  subst w h. change CHUNK_HEIGHT with 32.
  unfold ST7735_WIDTH, ST7735_HEIGHT, SRAM_BUFFER_SIZE.
  destruct (Z.odd r); cbn [Z.add Z.sub Z.opp Z.pos_sub Pos.pred_double Z.succ_double
                           Z.pred_double Z.double Pos.add Pos.succ];
    rewrite <- !app_assoc;
    (repeat split; try reflexivity; try lia; try discriminate).
Qed.


(** * What [begin] leaves *)

Lemma begin_blocks : forall p g s0,
  begin p (TFT7735V_constructor g) = (true, s0) ->
  exists a b c a' b',
    psram_block_a p = Some a /\ psram_block_b p = Some b /\ psram_block_c p = Some c /\
    sram_block_a p = Some a' /\ sram_block_b p = Some b' /\
    framebuffer_a s0 = Some (memset_zero a) /\
    framebuffer_b s0 = Some (memset_zero b) /\
    framebuffer_c s0 = Some (memset_zero c) /\
    sram_buffer_a s0 = Some a' /\ sram_buffer_b s0 = Some b' /\
    current_framebuffer s0 = Some 0 /\ render_buffer_idx s0 = 0 /\
    buffer_states s0 = [BUFFER_STATE_RENDERING; BUFFER_STATE_IDLE; BUFFER_STATE_IDLE] /\
    pixel_words s0 = [].
Proof.
  intros [r1 r2 fault pa pb pc sa sb qok semok tok] g s0.
  unfold begin, init_framebuffer, init_double_buffering. cbn.
  destruct (r1 =? ESP_OK); cbn; [|discriminate].
  destruct (r2 =? ESP_OK); cbn; [|discriminate].
  destruct pa as [a|]; cbn; [|discriminate].
  destruct pb as [b|]; cbn; [|discriminate].
  destruct pc as [c|]; cbn; [|discriminate].
  destruct sa as [a'|]; cbn; [|discriminate].
  destruct sb as [b'|]; cbn; [|discriminate].
  destruct qok; cbn; [|discriminate].
  destruct semok; cbn; [|discriminate].
  destruct tok; cbn; [|discriminate].
  intros H. inversion H; subst; clear H.
  exists a, b, c, a', b'. cbn. repeat split.
Qed.

Lemma memset_zero_zero : forall l, Forall (fun v => v = 0) (memset_zero l).
Proof.
  intros l. unfold memset_zero. apply Forall_forall. intros v Hin.
  apply in_map_iff in Hin. destruct Hin as (_ & <- & _). reflexivity.
Qed.

(** X25.  When [begin] on a freshly constructed object returns [true], the
    three frame buffers are all zero (a black frame), drawing goes to
    buffer A, which is RENDERING while B and C are IDLE, and no pixel has
    been sent to the panel yet. *)
Theorem begin_starts_with_black_frames : forall p garbage s0,
  begin p (TFT7735V_constructor garbage) = (true, s0) ->
  (forall i fb, framebuffer_at i s0 = Some (Some fb) -> Forall (fun v => v = 0) fb) /\
  current_framebuffer s0 = Some 0 /\ render_buffer_idx s0 = 0 /\
  buffer_states s0 = [BUFFER_STATE_RENDERING; BUFFER_STATE_IDLE; BUFFER_STATE_IDLE] /\
  pixel_words s0 = [].
Proof.
  intros p g s0 Hbegin.
  destruct (begin_blocks p g s0 Hbegin)
    as (a & b & c & a' & b' & _ & _ & _ & _ & _ & Fa & Fb & Fc & _ & _ & Hc & Hr & Hst & Hpx).
  split; [|repeat split; assumption].
  intros i fb Hat. unfold framebuffer_at in Hat.
  destruct (i =? 0); [rewrite Fa in Hat|destruct (i =? 1); [rewrite Fb in Hat|
    destruct (i =? 2); [rewrite Fc in Hat|discriminate]]];
    injection Hat as <-; apply memset_zero_zero.
Qed.

(** * The demo objects *)

Lemma demo_begin_with_succeeds : forall fault g,
  begin (demo_platform fault) (TFT7735V_constructor g)
  = (true, snd (begin (demo_platform fault) (TFT7735V_constructor g))).
Proof.
  intros fault g.
  assert (Hok : fst (begin (demo_platform fault) (TFT7735V_constructor g)) = true)
    by (vm_compute; reflexivity).
  destruct (begin (demo_platform fault) (TFT7735V_constructor g)) as [ok s0].
  cbn [fst snd] in *. rewrite Hok. reflexivity.
Qed.

Lemma demo_begun_reachable : forall fault, reachable (demo_begun fault).
Proof.
  intros fault. exists (demo_platform fault), (Rect.mk 0 0 0 0 false), (demo_begun fault).
  split; [apply demo_begin_succeeds|apply steps_refl].
Qed.

Lemma length_demo_frame : Z.of_nat (length demo_frame) = 20480.
Proof.
  unfold demo_frame, memset_zero, demo_block. rewrite length_map, repeat_length.
  reflexivity.
Qed.



(** What [begin] leaves on the demo platform. *)
Lemma demo_begun_blocks : forall fault,
  let s := demo_begun fault in
  framebuffer_a s = Some demo_frame /\ framebuffer_b s = Some demo_frame /\
  framebuffer_c s = Some demo_frame /\
  sram_buffer_a s = Some (demo_block 4096 0x1234) /\
  sram_buffer_b s = Some (demo_block 4096 0x1234) /\
  current_framebuffer s = Some 0 /\ render_buffer_idx s = 0 /\
  width s = 128 /\ height s = 160 /\ initialized s = true /\
  framebuffer_enabled s = true /\ display_in_progress s = false.
Proof.
  intros fault. cbv zeta.
  destruct (begin_blocks _ _ _ (demo_begin_succeeds fault))
    as (a & b & c & a' & b' & Pa & Pb & Pc & Sa & Sb & Fa & Fb & Fc & Ba & Bb & Hc & Hr & _).
  cbn [demo_platform psram_block_a psram_block_b psram_block_c sram_block_a sram_block_b]
    in Pa, Pb, Pc, Sa, Sb.
  injection Pa as <-. injection Pb as <-. injection Pc as <-.
  injection Sa as <-. injection Sb as <-.
  destruct (demo_begun_ready fault) as ((_ & Hprog & _ & Hpanel) & _).
  destruct Hpanel as (Hini & Hen & Hw & Hh & _).
  repeat split; assumption.
Qed.

Lemma demo_begun_current_frame : forall fault,
  current_frame (demo_begun fault) = Some demo_frame /\
  Z.of_nat (length demo_frame) = width (demo_begun fault) * height (demo_begun fault).
Proof.
  intros fault.
  destruct (demo_begun_blocks fault) as (Fa & _ & _ & _ & _ & Hc & _ & Hw & Hh & _).
  split.
  - unfold current_frame. rewrite Hc. unfold framebuffer_at.
    change (0 =? 0) with true. cbv iota. exact Fa.
  - rewrite Hw, Hh. exact length_demo_frame.
Qed.

(** * Where drawing continues after a present *)






(** * One pixel in direct mode *)

Lemma write_data16_control : forall c s,
  control_sent (high_low c) s (write_data16 c s).
Proof.
  intros c s. split.
  - unfold write_data16. cbv zeta.
    eapply io_only_trans; [apply io_only_set_dc|apply io_only_transmit].
  - unfold write_data16. cbv zeta. rewrite control_bytes_transmit. reflexivity.
Qed.

Lemma pixel_words_write_data16 : forall c s, wire_words [] s (write_data16 c s).
Proof.
  intros c s. unfold write_data16. cbv zeta. split.
  - reflexivity.
  - rewrite pixel_words_transmit. reflexivity.
Qed.

(** X27.  With the framebuffer mode off, [draw_pixel] hands the device the
    address window of the one pixel, shifted by the offsets, and then the
    colour as two data bytes, high byte first; it sends nothing through a
    pixel buffer and touches no frame buffer.  For a point outside the
    screen it does nothing. *)
Theorem direct_draw_pixel_sends_window_and_colour : forall x y c s,
  framebuffer_enabled s = false ->
  let xw := u16 (x + window_offset (x_offset s)) in
  let yw := u16 (y + window_offset (y_offset s)) in
  (x < width s /\ y < height s ->
   control_bytes (draw_pixel x y c s)
   = control_bytes s ++ window_bytes xw yw xw yw ++ high_low c /\
   pixel_words (draw_pixel x y c s) = pixel_words s /\
   framebuffer_a (draw_pixel x y c s) = framebuffer_a s /\
   framebuffer_b (draw_pixel x y c s) = framebuffer_b s /\
   framebuffer_c (draw_pixel x y c s) = framebuffer_c s) /\
  (width s <= x \/ height s <= y -> draw_pixel x y c s = s).
Proof.
  intros x y c s Hen. cbv zeta. unfold draw_pixel. rewrite Hen.
  destruct (Z.geb_spec x (width s)) as [Hxo|Hxi]; cbn [orb].
  { split; [lia|reflexivity]. }
  destruct (Z.geb_spec y (height s)) as [Hyo|Hyi].
  { split; [lia|reflexivity]. }
  split; [intros _|lia].
  pose proof (set_addr_window_control x y x y s) as K1.
  pose proof (set_addr_window_words x y x y s) as W1.
  set (s1 := set_addr_window x y x y s) in *. clearbody s1.
  pose proof (write_data16_control c s1) as K2.
  pose proof (pixel_words_write_data16 c s1) as W2.
  set (s2 := write_data16 c s1) in *. clearbody s2.
  destruct (control_sent_trans _ _ _ _ _ K1 K2) as [Hio Hbytes].
  destruct (io_only_geometry _ _ Hio) as (_ & _ & _ & _ & Fa & Fb & Fc & _).
  destruct (wire_words_trans _ _ _ _ _ W1 W2) as [_ Hw].
  rewrite app_nil_r in Hw.
  repeat split; assumption.
Qed.

(** * Lines *)










(** * Characters *)










Ltac cell_cases :=
  unfold cell_paint, paint_over;
  match goal with
  | |- context [if ?d then _ else _] =>
      match type of d with bool => destruct d end
  end; [rect_cases|reflexivity].










(** * Witnesses *)



Lemma dirty_demo_mode :
  use_dirty_rect_of dirty_demo = true /\
  rect_on_screen ST7735_WIDTH ST7735_HEIGHT (dirty_rect dirty_demo).
Proof.
  destruct dirty_demo_facts as (_ & _ & Hen & Hd & Hforce).
  unfold use_dirty_rect_of. rewrite Hen, Hd, Hforce. split; [reflexivity|].
  unfold rect_on_screen, ST7735_WIDTH, ST7735_HEIGHT. cbn. lia.
Qed.


Lemma display_queue_send_never_fails_witness :
  reachable (demo_begun no_fault) /\
  fst (display_traced (demo_begun no_fault)) <> exit_queue_send_failed.
Proof.
  split; [apply demo_begun_reachable|].
  apply (display_queue_send_never_fails (demo_begun no_fault)).
  apply demo_begun_reachable.
Defined.

Lemma no_task_begin_fails :
  begin no_task_platform (TFT7735V_constructor (Rect.mk 0 0 0 0 false))
  = (false, snd (begin no_task_platform (TFT7735V_constructor (Rect.mk 0 0 0 0 false)))).
Proof.
  assert (Hok : fst (begin no_task_platform (TFT7735V_constructor (Rect.mk 0 0 0 0 false)))
                = false) by (vm_compute; reflexivity).
  destruct (begin no_task_platform (TFT7735V_constructor (Rect.mk 0 0 0 0 false)))
    as [ok s0].
  cbn [fst snd] in *. rewrite Hok. reflexivity.
Qed.

Lemma begin_failure_frees_memory_not_the_spi_device_witness :
  let s := snd (begin no_task_platform (TFT7735V_constructor (Rect.mk 0 0 0 0 false))) in
  initialized s = false /\
  framebuffer_a s = None /\ framebuffer_b s = None /\ framebuffer_c s = None /\
  current_framebuffer s = None /\
  sram_buffer_a s = None /\ sram_buffer_b s = None /\
  display_queue s = None /\ display_done_semaphore s = None /\
  end_ s = Some s /\
  spi_fault (spi_device s) = no_fault /\
  length (spi_log (spi_device s)) = 18%nat.
Proof.
  cbv zeta.
  destruct (begin_failure_frees_memory_not_the_spi_device no_task_platform
              (Rect.mk 0 0 0 0 false) _ no_task_begin_fails)
    as (H1 & H2 & H3 & H4 & H5 & H6 & H7 & H8 & H9 & H10 & H11 & _).
  destruct (H11 eq_refl) as [H12 H13].
  exact (conj H1 (conj H2 (conj H3 (conj H4 (conj H5 (conj H6 (conj H7 (conj H8
          (conj H9 (conj H10 (conj H12 H13))))))))))).
Defined.

Lemma calculate_dirty_chunks_covers_witness :
  exists n sc ec,
    calculate_dirty_chunks (Rect.mk 10 20 20 20 true)
                           (TFT7735V_constructor (Rect.mk 0 0 0 0 false)) = (n, sc, ec) /\
    sc = 20 / CHUNK_HEIGHT /\ ec = (20 + 20 - 1) / CHUNK_HEIGHT /\
    0 <= sc <= ec /\ ec < MAX_CHUNKS /\ n = ec - sc + 1 /\
    forall row, 20 <= row < 20 + 20 ->
                sc * CHUNK_HEIGHT <= row < (ec + 1) * CHUNK_HEIGHT.
Proof.
  apply (calculate_dirty_chunks_covers (Rect.mk 10 20 20 20 true)
           (TFT7735V_constructor (Rect.mk 0 0 0 0 false))).
  - reflexivity.
  - reflexivity.
  - unfold rect_on_screen, ST7735_WIDTH, ST7735_HEIGHT. cbn. lia.
Defined.








Lemma dirty_present_total_bytes_witness :
  command_bytes (present dirty_demo) = command_bytes dirty_demo + 3 * 1 /\
  argument_bytes (present dirty_demo) = argument_bytes dirty_demo + 8 * 1 /\
  total_bytes (present dirty_demo) = total_bytes dirty_demo + 2 * 20 * 20 + 11 * 1.
Proof.
  destruct dirty_demo_facts as (Hready & Hff & _ & Hd & _).
  destruct dirty_demo_mode as (Hmode & Hon).
  pose proof (dirty_present_total_bytes dirty_demo Hready Hff Hmode Hon) as H.
  cbv zeta in H. rewrite Hd in H. exact H.
Defined.


Lemma fb_draw_pixel_sets_one_pixel_witness :
  let s := demo_begun no_fault in
  pixel_at 5 7 (fb_draw_pixel 5 7 0x07E0 s) = Some 0x07E0 /\
  pixel_at 6 7 (fb_draw_pixel 5 7 0x07E0 s) = pixel_at 6 7 s /\
  fb_draw_pixel 128 7 0x07E0 s = s.
Proof.
  cbv zeta.
  destruct (demo_begun_current_frame no_fault) as [Hcur Hlen].
  destruct (demo_begun_blocks no_fault) as (_ & _ & _ & _ & _ & _ & _ & Hw & Hh & _).
  destruct (fb_draw_pixel_sets_one_pixel 5 7 0x07E0 (demo_begun no_fault) demo_frame
              Hcur Hlen ltac:(lia) ltac:(lia)) as [Hin _].
  destruct (fb_draw_pixel_sets_one_pixel 128 7 0x07E0 (demo_begun no_fault) demo_frame
              Hcur Hlen ltac:(lia) ltac:(lia)) as [_ Hout].
  rewrite Hw, Hh in Hin. rewrite Hw in Hout.
  split; [exact (Hin 5 7 ltac:(lia) ltac:(lia))|].
  split; [exact (Hin 6 7 ltac:(lia) ltac:(lia))|].
  apply Hout. left. lia.
Defined.


Lemma fb_draw_rect_paints_outline_witness :
  let s := demo_begun no_fault in
  pixel_at 10 25 (fb_draw_rect 10 20 30 10 0xFFFF s) = Some 0xFFFF /\
  pixel_at 11 25 (fb_draw_rect 10 20 30 10 0xFFFF s) = pixel_at 11 25 s /\
  fb_draw_rect 10 20 0 10 0xFFFF s = s.
Proof.
  cbv zeta.
  destruct (demo_begun_current_frame no_fault) as [Hcur Hlen].
  destruct (demo_begun_blocks no_fault) as (_ & _ & _ & _ & _ & _ & _ & Hw & Hh & _).
  assert (HW : width (demo_begun no_fault) < 65536) by (rewrite Hw; lia).
  assert (HH : height (demo_begun no_fault) < 65536) by (rewrite Hh; lia).
  destruct (fb_draw_rect_paints_outline 10 20 30 10 0xFFFF (demo_begun no_fault)
              demo_frame Hcur Hlen ltac:(lia) ltac:(lia) ltac:(lia) ltac:(lia)
              ltac:(lia) ltac:(lia) HW HH) as [Hin _].
  destruct (fb_draw_rect_paints_outline 10 20 0 10 0xFFFF (demo_begun no_fault)
              demo_frame Hcur Hlen ltac:(lia) ltac:(lia) ltac:(lia) ltac:(lia)
              ltac:(lia) ltac:(lia) HW HH) as [_ Hout].
  rewrite Hw, Hh in Hin.
  split; [exact (Hin 10 25 ltac:(lia) ltac:(lia))|].
  split; [exact (Hin 11 25 ltac:(lia) ltac:(lia))|].
  apply Hout. left. reflexivity.
Defined.

Lemma color565_packs_channels_witness :
  color565 255 128 8 = 0xFC01 /\
  0xFC01 / 2048 = 255 / 8 /\ (0xFC01 / 32) mod 64 = 128 / 4 /\ 0xFC01 mod 32 = 8 / 8.
Proof.
  destruct (color565_packs_channels 255 128 8 ltac:(lia) ltac:(lia) ltac:(lia))
    as (H1 & _ & H2 & H3 & H4).
  split; [exact H1|]. split; [exact H2|]. split; [exact H3|exact H4].
Defined.


Lemma begin_keeps_uninitialised_dirty_rect_witness :
  dirty_rect (demo_begun_with (Rect.mk 3 4 5 6 true)) = Rect.mk 3 4 5 6 true /\
  use_dirty_rect_of (demo_begun_with (Rect.mk 3 4 5 6 true)) = true.
Proof.
  exact (begin_keeps_uninitialised_dirty_rect (demo_platform no_fault)
           (Rect.mk 3 4 5 6 true) _
           (demo_begin_with_succeeds no_fault (Rect.mk 3 4 5 6 true))).
Defined.

Lemma begin_starts_with_black_frames_witness :
  current_framebuffer (demo_begun_with (Rect.mk 3 4 5 6 true)) = Some 0 /\
  render_buffer_idx (demo_begun_with (Rect.mk 3 4 5 6 true)) = 0 /\
  buffer_states (demo_begun_with (Rect.mk 3 4 5 6 true))
  = [BUFFER_STATE_RENDERING; BUFFER_STATE_IDLE; BUFFER_STATE_IDLE] /\
  pixel_words (demo_begun_with (Rect.mk 3 4 5 6 true)) = [].
Proof.
  exact (proj2 (begin_starts_with_black_frames (demo_platform no_fault)
                  (Rect.mk 3 4 5 6 true) _
                  (demo_begin_with_succeeds no_fault (Rect.mk 3 4 5 6 true)))).
Defined.

Lemma demo_end_returns : end_ (demo_begun no_fault) = Some ended_demo.
Proof.
  unfold ended_demo.
  destruct (demo_begun_blocks no_fault)
    as (_ & _ & _ & _ & _ & _ & _ & _ & _ & Hini & _ & Hprog).
  destruct (end_ (demo_begun no_fault)) eqn:E; [reflexivity|].
  apply (end_blocks _ Hini) in E. destruct E as [E _]. congruence.
Qed.

Lemma demo_initialized : initialized (demo_begun no_fault) = true.
Proof. apply (demo_begun_blocks no_fault). Qed.

Lemma end_releases_everything_witness :
  end_ (demo_begun no_fault) = Some ended_demo /\
  initialized ended_demo = false /\
  framebuffer_a ended_demo = None /\ sram_buffer_a ended_demo = None /\
  display_queue ended_demo = None /\ display_done_semaphore ended_demo = None.
Proof.
  split; [exact demo_end_returns|].
  destruct (end_releases_everything (demo_begun no_fault) demo_initialized) as [H _].
  destruct (H ended_demo demo_end_returns)
    as (H1 & H2 & _ & _ & _ & _ & H3 & _ & H4 & H5 & _).
  split; [exact H1|]. split; [exact H2|]. split; [exact H3|]. split; [exact H4|exact H5].
Defined.

Lemma begin_after_end_succeeds :
  begin (demo_platform no_fault) ended_demo
  = (true, snd (begin (demo_platform no_fault) ended_demo)).
Proof.
  assert (Hok : fst (begin (demo_platform no_fault) ended_demo) = true)
    by (vm_compute; reflexivity).
  destruct (begin (demo_platform no_fault) ended_demo) as [ok s0].
  cbn [fst snd] in *. rewrite Hok. reflexivity.
Qed.

Lemma begin_after_end_leaves_framebuffer_off_witness :
  let s := snd (begin (demo_platform no_fault) ended_demo) in
  initialized s = true /\ framebuffer_enabled s = false /\
  display s = s /\ fst (display_traced s) = exit_framebuffer_not_enabled.
Proof.
  exact (begin_after_end_leaves_framebuffer_off (demo_platform no_fault)
           (demo_begun no_fault) ended_demo _
           demo_initialized demo_end_returns begin_after_end_succeeds).
Defined.

Lemma swapped_demo_facts :
  coordinator_inv swapped_demo /\ render_buffer_idx swapped_demo <> 0.
Proof.
  split.
  - apply swapBuffers_inv. apply demo_begun_ready.
  - vm_compute. discriminate.
Qed.

Lemma enable_after_disable_succeeds :
  enableFramebuffer (demo_platform no_fault) (disableFramebuffer swapped_demo)
  = (true, snd (enableFramebuffer (demo_platform no_fault)
                  (disableFramebuffer swapped_demo))).
Proof.
  assert (Hok : fst (enableFramebuffer (demo_platform no_fault)
                       (disableFramebuffer swapped_demo)) = true)
    by (vm_compute; reflexivity).
  destruct (enableFramebuffer (demo_platform no_fault) (disableFramebuffer swapped_demo))
    as [ok s0].
  cbn [fst snd] in *. rewrite Hok. reflexivity.
Qed.

Lemma enable_after_disable_restarts_in_buffer_A_witness :
  let s' := snd (enableFramebuffer (demo_platform no_fault)
                   (disableFramebuffer swapped_demo)) in
  current_framebuffer s' = Some 0 /\
  render_buffer_idx s' = render_buffer_idx swapped_demo /\
  count_state BUFFER_STATE_RENDERING (buffer_states s') = 2%nat.
Proof.
  cbv zeta.
  destruct (enable_after_disable_restarts_in_buffer_A (demo_platform no_fault)
              swapped_demo _ (proj1 swapped_demo_facts) (proj2 swapped_demo_facts)
              enable_after_disable_succeeds)
    as (H1 & H2 & _ & _ & H3 & _).
  split; [exact H1|]. split; [exact H2|exact H3].
Defined.

Lemma push_colors_sends_the_colours_witness :
  pixel_words (push_colors [0xF800; 0x07E0; 0x001F] 3 (demo_begun no_fault))
  = pixel_words (demo_begun no_fault) ++ [0x00F8; 0xE007; 0x1F00] /\
  io_effect 6 0 0 (demo_begun no_fault)
            (push_colors [0xF800; 0x07E0; 0x001F] 3 (demo_begun no_fault)) /\
  exists txs,
    pixel_transactions (push_colors [0xF800; 0x07E0; 0x001F] 3 (demo_begun no_fault))
    = pixel_transactions (demo_begun no_fault) ++ txs /\
    concat txs = [0x00F8; 0xE007; 0x1F00] /\
    Forall (fun t => 0 < Z.of_nat (length t) <= 512) txs /\
    Z.of_nat (length txs) = 1.
Proof.
  exact (push_colors_sends_the_colours [0xF800; 0x07E0; 0x001F] 3 (demo_begun no_fault)
           fault_free_no_fault eq_refl).
Defined.

Lemma direct_demo_facts :
  framebuffer_enabled direct_demo = false /\ fault_free direct_demo /\
  width direct_demo = 128 /\ height direct_demo = 160.
Proof.
  unfold direct_demo.
  destruct (demo_begun_blocks no_fault) as (_ & _ & _ & _ & _ & _ & _ & Hw & Hh & _).
  pose proof fault_free_no_fault as Hff.
  revert Hw Hh Hff. generalize (demo_begun no_fault). intros s Hw Hh Hff.
  destruct_tft s. cbn in *. repeat split; assumption.
Qed.

Lemma direct_fill_rect_sends_clipped_rectangle_witness :
  pixel_words (fill_rect 120 10 20 2 0xF800 direct_demo)
  = pixel_words direct_demo ++ repeat 0x00F8 16 /\
  io_effect 32 3 8 direct_demo (fill_rect 120 10 20 2 0xF800 direct_demo).
Proof.
  destruct direct_demo_facts as (Hen & Hff & Hw & Hh).
  assert (Hcall : uint16_call (120, 10, 20, 2)) by (unfold uint16_call; lia).
  assert (HW : 0 <= width direct_demo < 65536) by (rewrite Hw; lia).
  assert (HH : 0 <= height direct_demo < 65536) by (rewrite Hh; lia).
  destruct (direct_fill_rect_sends_clipped_rectangle 120 10 20 2 0xF800 direct_demo
              Hen Hff Hcall HW HH) as [Hin _].
  rewrite Hw, Hh in Hin. exact (Hin ltac:(lia)).
Defined.

Lemma set_rotation_sets_geometry_witness :
  width (set_rotation 1 (demo_begun no_fault)) = 160 /\
  height (set_rotation 1 (demo_begun no_fault)) = 128 /\
  framebuffer_a (set_rotation 1 (demo_begun no_fault)) = framebuffer_a (demo_begun no_fault).
Proof.
  destruct (set_rotation_sets_geometry 1 (demo_begun no_fault) ltac:(lia))
    as (H1 & H2 & _ & H3 & _).
  split; [exact H1|]. split; [exact H2|exact H3].
Defined.

Lemma present_writes_no_frame_buffer_witness :
  framebuffer_a (run_display_task 2 (display dirty_demo)) = framebuffer_a dirty_demo /\
  framebuffer_b (run_display_task 2 (display dirty_demo)) = framebuffer_b dirty_demo /\
  framebuffer_c (run_display_task 2 (display dirty_demo)) = framebuffer_c dirty_demo /\
  current_framebuffer (run_display_task 2 (display dirty_demo))
  = current_framebuffer (display dirty_demo) /\
  render_buffer_idx (run_display_task 2 (display dirty_demo))
  = render_buffer_idx (display dirty_demo) /\
  width (run_display_task 2 (display dirty_demo)) = width dirty_demo /\
  height (run_display_task 2 (display dirty_demo)) = height dirty_demo /\
  dirty_rect_enabled (run_display_task 2 (display dirty_demo))
  = dirty_rect_enabled dirty_demo.
Proof.
  exact (present_writes_no_frame_buffer 2 dirty_demo (proj1 dirty_demo_facts)
           (fun _ => proj2 dirty_demo_mode)).
Defined.


Lemma direct_draw_pixel_sends_window_and_colour_witness :
  let s := direct_demo in
  let xw := u16 (5 + window_offset (x_offset s)) in
  let yw := u16 (7 + window_offset (y_offset s)) in
  control_bytes (draw_pixel 5 7 0xF800 s)
  = control_bytes s ++ window_bytes xw yw xw yw ++ high_low 0xF800 /\
  pixel_words (draw_pixel 5 7 0xF800 s) = pixel_words s /\
  draw_pixel 128 7 0xF800 s = s.
Proof.
  cbv zeta.
  destruct direct_demo_facts as (Hen & _ & Hw & Hh).
  destruct (direct_draw_pixel_sends_window_and_colour 5 7 0xF800 direct_demo Hen)
    as [Hin _].
  destruct (direct_draw_pixel_sends_window_and_colour 128 7 0xF800 direct_demo Hen)
    as [_ Hout].
  rewrite Hw, Hh in Hin. rewrite Hw in Hout.
  destruct (Hin ltac:(lia)) as (H1 & H2 & _).
  split; [exact H1|]. split; [exact H2|]. apply Hout. left. lia.
Defined.


